(** * SF position sync: a shallow embedding and its checked properties

    The program pulls pages of position records from a SuccessFactors
    OData endpoint, keeps the records of one department prefix and
    renders one SQL script per target database.  This file embeds

    - [utils/sqlGenerator.js]   (module [SqlGenerator]),
    - [config/index.js]         (module [Cfg]),
    - [services/sfApiService.js] (module [SfApi]),
    - [index.js], the orchestrator (module [Sync]) and the routes
      (module [Server]),

    together with the pieces of the JavaScript run time they lean on
    (values and their coercions, regular-expression matching, the
    ECMAScript date algorithms), and proves the properties of the
    specification against these definitions. *)

From Stdlib Require Import ZArith List String Ascii Bool Lia.
Import ListNotations.

Local Open Scope string_scope.
Local Open Scope Z_scope.

Set Warnings "-register-all".

(* ================================================================== *)
(** * Strings *)
(* ================================================================== *)

(** A JavaScript string is a sequence of code units; a Coq [string]
    stands for it, one [ascii] per code unit.  Every string operation
    the program uses works position by position. *)
Module Str.

Definition LF : string := String (ascii_of_nat 10) EmptyString.

Definition isDigit (c : ascii) : bool :=
  let n := nat_of_ascii c in (48 <=? n)%nat && (n <=? 57)%nat.

Definition digitVal (c : ascii) : Z := Z.of_nat (nat_of_ascii c) - 48.

Definition digitChar (d : Z) : ascii := ascii_of_nat (Z.to_nat (48 + d)).

(** [s.startsWith(p)] *)
Fixpoint startsWith (p s : string) : bool :=
  match p, s with
  | EmptyString, _ => true
  | String a p', String b s' => Ascii.eqb a b && startsWith p' s'
  | String _ _, EmptyString => false
  end.

(** what is left of [s] after its first [n] code units *)
Fixpoint drop (n : nat) (s : string) : string :=
  match n, s with
  | O, _ => s
  | S n', String _ s' => drop n' s'
  | S _, EmptyString => EmptyString
  end.

(** the first [n] code units of [s] *)
Fixpoint take (n : nat) (s : string) : string :=
  match n, s with
  | O, _ => EmptyString
  | S n', String c s' => String c (take n' s')
  | S _, EmptyString => EmptyString
  end.

(** [s.replace(pat, rep)] with a string pattern: the first occurrence
    only.  The replacement strings of the program hold no [$]. *)
Fixpoint replaceFirst (pat rep s : string) : string :=
  if startsWith pat s then rep ++ drop (String.length pat) s
  else match s with
       | EmptyString => EmptyString
       | String c s' => String c (replaceFirst pat rep s')
       end.

(** [s.replace(/[...]/g, rep)] for a class of single code units *)
Fixpoint replaceAllIn (cls : ascii -> bool) (rep s : string) : string :=
  match s with
  | EmptyString => EmptyString
  | String c s' =>
      (if cls c then rep else String c EmptyString) ++ replaceAllIn cls rep s'
  end.

(** [xs.join(sep)] on an array of strings *)
Fixpoint join (sep : string) (xs : list string) : string :=
  match xs with
  | [] => EmptyString
  | [x] => x
  | x :: rest => x ++ sep ++ join sep rest
  end.

(** the lines of a text, split at line feeds *)
Fixpoint lines (s : string) : list string :=
  match s with
  | EmptyString => [EmptyString]
  | String c s' =>
      if Ascii.eqb c (ascii_of_nat 10) then EmptyString :: lines s'
      else match lines s' with
           | [] => [String c EmptyString]
           | l :: ls => String c l :: ls
           end
  end.

(** decimal digits of a natural number, most significant first *)
Fixpoint natDigits (fuel : nat) (n : Z) (acc : string) : string :=
  match fuel with
  | O => acc
  | S f =>
      let acc' := String (digitChar (n mod 10)) acc in
      if n / 10 =? 0 then acc' else natDigits f (n / 10) acc'
  end.

(** decimal rendering of an integer *)
Definition ofZ (z : Z) : string :=
  let body := natDigits (S (Z.to_nat (Z.log2 (Z.abs z)))) (Z.abs z) EmptyString in
  if z <? 0 then String "-" body else body.

(** [n] written with exactly [k] digits, zero padded ([0 <= n < 10^k]) *)
Fixpoint padDigits (k : nat) (n : Z) : string :=
  match k with
  | O => EmptyString
  | S k' => String (digitChar (n / 10 ^ Z.of_nat k')) (padDigits k' (n mod 10 ^ Z.of_nat k'))
  end.

(** exactly [k] digits read from the front of [s] *)
Fixpoint readDigits (k : nat) (acc : Z) (s : string) : option (Z * string) :=
  match k with
  | O => Some (acc, s)
  | S k' =>
      match s with
      | String c s' =>
          if isDigit c then readDigits k' (acc * 10 + digitVal c) s' else None
      | EmptyString => None
      end
  end.

(** the longest run of digits at the front of [s], and the rest *)
Fixpoint spanDigits (s : string) : string * string :=
  match s with
  | String c s' =>
      if isDigit c then let (d, r) := spanDigits s' in (String c d, r)
      else (EmptyString, s)
  | EmptyString => (EmptyString, EmptyString)
  end.

(** every code unit of [s] satisfies [p] *)
Fixpoint allChars (p : ascii -> bool) (s : string) : bool :=
  match s with
  | EmptyString => true
  | String c s' => p c && allChars p s'
  end.

Definition allDigits (s : string) : bool := allChars isDigit s.

(** value of a string of digits *)
Fixpoint digitsVal (acc : Z) (s : string) : Z :=
  match s with
  | EmptyString => acc
  | String c s' => digitsVal (acc * 10 + digitVal c) s'
  end.

End Str.

(* ================================================================== *)
(** * JavaScript values *)
(* ================================================================== *)

Module JS.

(** What a thrown exception is.  [TypeError] and [RangeError] come from
    the run time; [Error msg] is [throw new Error(msg)] of the program. *)
Inductive Exn : Type :=
| TypeError
| RangeError
| Error (message : string).

Inductive Result (A : Type) : Type :=
| Ok (a : A)
| Throw (e : Exn).
Arguments Ok {A} a.
Arguments Throw {A} e.

Definition bind {A B} (r : Result A) (f : A -> Result B) : Result B :=
  match r with
  | Ok a => f a
  | Throw e => Throw e
  end.

Definition isOk {A} (r : Result A) : bool :=
  match r with Ok _ => true | Throw _ => false end.

(** [xs.map(f)] where [f] may throw: the first exception wins *)
Fixpoint mapR {A B} (f : A -> Result B) (xs : list A) : Result (list B) :=
  match xs with
  | [] => Ok []
  | x :: rest =>
      bind (f x) (fun y => bind (mapR f rest) (fun ys => Ok (y :: ys)))
  end.

(** The values a decoded JSON document and the program's own data are
    made of.  A Number that is an integer is [VNum]; any other finite
    Number is kept by its [String()] rendering ([VFrac], never zero).
    The properties of an object are listed in property order. *)
Inductive Value : Type :=
| VUndefined
| VNull
| VBool (b : bool)
| VNum (z : Z)
| VFrac (repr : string)
| VStr (s : string)
| VArr (items : list Value)
| VObj (props : list (string * Value)).

(** [ToBoolean] *)
Definition truthy (v : Value) : bool :=
  match v with
  | VUndefined | VNull => false
  | VBool b => b
  | VNum z => negb (z =? 0)
  | VFrac _ => true
  | VStr s => negb (s =? "")%string
  | VArr _ | VObj _ => true
  end.

Definition isNullish (v : Value) : bool :=
  match v with
  | VUndefined | VNull => true
  | _ => false
  end.

(** first property named [k] of a property list *)
Fixpoint lookup (k : string) (props : list (string * Value)) : option Value :=
  match props with
  | [] => None
  | (k', v) :: rest => if (k =? k')%string then Some v else lookup k rest
  end.

(** [v[k]] for [v] neither [null] nor [undefined], and [k] none of the
    names the built-in prototypes define (the program reads [d],
    [results], [department] and the API field names). *)
Definition getProp (v : Value) (k : string) : Value :=
  match v with
  | VObj props =>
      match lookup k props with
      | Some x => x
      | None => VUndefined
      end
  | _ => VUndefined
  end.

(** [v.k]: a [TypeError] on [null] and [undefined] *)
Definition member (v : Value) (k : string) : Result Value :=
  if isNullish v then Throw TypeError else Ok (getProp v k).

(** [v?.k] *)
Definition optMember (v : Value) (k : string) : Value :=
  if isNullish v then VUndefined else getProp v k.

(** [o[k] = v] on an ordinary object whose keys are not array indices:
    an existing property keeps its place, a new one goes last. *)
Fixpoint setProp (k : string) (v : Value) (props : list (string * Value))
  : list (string * Value) :=
  match props with
  | [] => [(k, v)]
  | (k', v') :: rest =>
      if (k =? k')%string then (k', v) :: rest else (k', v') :: setProp k v rest
  end.

(** [null] for [undefined], the way [transformRecord] stores a field *)
Definition nullIfUndefined (x : Value) : Value :=
  match x with
  | VUndefined => VNull
  | _ => x
  end.

(** [Object.keys(o)] *)
Definition keys {A} (props : list (string * A)) : list string := map fst props.

(** The built-ins whose result depends on the host (its locale tables,
    its date parser, its time zone, its path conventions).  The program
    is embedded over any such host. *)
Class Runtime : Type := {
  (** [Date.parse(s)]: a time value, or [None] for [NaN] *)
  Date_parse : string -> option Z;
  (** [String(n)] for an integer beyond the safe range [+-(2^53)] *)
  Number_toString : Z -> string;
  (** [s.toUpperCase()] *)
  String_toUpperCase : string -> string;
  (** [JSON.stringify(v)] as a template literal renders it *)
  JSON_stringify : Value -> string;
  (** [path.dirname(p)] *)
  path_dirname : string -> string;
  (** the time value of [d.setDate(d.getDate() - 1)]: the same local
      wall-clock time one calendar day earlier *)
  localDayBefore : Z -> Z
}.

Definition maxSafeInteger : Z := 9007199254740991.

(** [String(v)], that is [ToString], for a value it renders: an array
    joins the renderings of its items with commas, [null] and [undefined]
    items rendering empty; a plain object renders as [[object Object]].
    The conversion throws for the values [rendersAsString] below rules
    out; the embedding follows the program on the values that render. *)
Fixpoint ToString `{Runtime} (v : Value) : string :=
  match v with
  | VUndefined => "undefined"
  | VNull => "null"
  | VBool true => "true"
  | VBool false => "false"
  | VNum z => if Z.abs z <=? maxSafeInteger then Str.ofZ z else Number_toString z
  | VFrac repr => repr
  | VStr s => s
  | VArr items =>
      (fix joinItems (l : list Value) : string :=
         match l with
         | [] => ""
         | x :: rest =>
             let here := if isNullish x then "" else ToString x in
             match rest with
             | [] => here
             | _ :: _ => here ++ "," ++ joinItems rest
             end
         end) items
  | VObj _ => "[object Object]"
  end.

(** [o.hasOwnProperty(k)] *)
Definition hasOwn (k : string) (props : list (string * Value)) : bool :=
  existsb (fun p => (fst p =? k)%string) props.

(** Whether [ToString] returns.  An object decoded from JSON is rendered
    by the [toString] of its prototype, unless a key [toString] of its own
    hides it: that value is no function, and the [valueOf] tried next
    gives no primitive, so the conversion throws a [TypeError].  An array
    renders every item that is neither [null] nor [undefined]. *)
Fixpoint rendersAsString (v : Value) : bool :=
  match v with
  | VObj props => negb (hasOwn "toString" props)
  | VArr items =>
      (fix allItems (l : list Value) : bool :=
         match l with
         | [] => true
         | x :: rest => rendersAsString x && allItems rest
         end) items
  | _ => true
  end.

End JS.

Export JS.

(* ================================================================== *)
(** * Dates (ECMAScript, section "Date Objects") *)
(* ================================================================== *)

Module ESDate.

Definition msPerDay : Z := 86400000.
Definition msPerHour : Z := 3600000.
Definition msPerMinute : Z := 60000.
Definition msPerSecond : Z := 1000.

(** the largest time value a Date holds ([TimeClip]) *)
Definition maxTime : Z := 8640000000000000.

Definition validTime (t : Z) : bool := (- maxTime <=? t) && (t <=? maxTime).

(** [new Date(n)] for a Number [n] that is an integer: the time value,
    [None] for an invalid Date *)
Definition TimeClip (t : Z) : option Z := if validTime t then Some t else None.

Definition Day (t : Z) : Z := t / msPerDay.
Definition TimeWithinDay (t : Z) : Z := t mod msPerDay.

Definition DaysInYear (y : Z) : Z :=
  if negb (y mod 4 =? 0) then 365
  else if negb (y mod 100 =? 0) then 366
  else if negb (y mod 400 =? 0) then 365
  else 366.

Definition DayFromYear (y : Z) : Z :=
  365 * (y - 1970) + (y - 1969) / 4 - (y - 1901) / 100 + (y - 1601) / 400.

Definition TimeFromYear (y : Z) : Z := msPerDay * DayFromYear y.

(** the year of day number [d]: the largest [y] with [DayFromYear y <= d],
    found from the mean year length and one step of adjustment *)
Definition YearFromDay (d : Z) : Z :=
  let y := 1970 + (d * 400) / 146097 in
  if d <? DayFromYear y then y - 1
  else if DayFromYear (y + 1) <=? d then y + 1
  else y.

Definition YearFromTime (t : Z) : Z := YearFromDay (Day t).

(** 1 in a leap year, 0 otherwise *)
Definition LeapOfYear (y : Z) : Z := if DaysInYear y =? 366 then 1 else 0.
Definition InLeapYear (t : Z) : Z := LeapOfYear (YearFromTime t).

Definition DayWithinYear (t : Z) : Z := Day t - DayFromYear (YearFromTime t).

(** months are numbered from 0 *)
Definition monthOfDay (dwy leap : Z) : Z :=
  if dwy <? 31 then 0
  else if dwy <? 59 + leap then 1
  else if dwy <? 90 + leap then 2
  else if dwy <? 120 + leap then 3
  else if dwy <? 151 + leap then 4
  else if dwy <? 181 + leap then 5
  else if dwy <? 212 + leap then 6
  else if dwy <? 243 + leap then 7
  else if dwy <? 273 + leap then 8
  else if dwy <? 304 + leap then 9
  else if dwy <? 334 + leap then 10
  else 11.

Definition MonthFromTime (t : Z) : Z := monthOfDay (DayWithinYear t) (InLeapYear t).

(** day within the year of the first day of month [m] *)
Definition monthStart (m leap : Z) : Z :=
  if m =? 0 then 0
  else if m =? 1 then 31
  else if m =? 2 then 59 + leap
  else if m =? 3 then 90 + leap
  else if m =? 4 then 120 + leap
  else if m =? 5 then 151 + leap
  else if m =? 6 then 181 + leap
  else if m =? 7 then 212 + leap
  else if m =? 8 then 243 + leap
  else if m =? 9 then 273 + leap
  else if m =? 10 then 304 + leap
  else 334 + leap.

Definition DateFromTime (t : Z) : Z :=
  DayWithinYear t - monthStart (MonthFromTime t) (InLeapYear t) + 1.

Definition HourFromTime (t : Z) : Z := (t / msPerHour) mod 24.
Definition MinFromTime (t : Z) : Z := (t / msPerMinute) mod 60.
Definition SecFromTime (t : Z) : Z := (t / msPerSecond) mod 60.
Definition msFromTime (t : Z) : Z := t mod msPerSecond.

Definition MakeTime (h m s ms : Z) : Z :=
  h * msPerHour + m * msPerMinute + s * msPerSecond + ms.

(** [MakeDay] for a month in [0..11] *)
Definition MakeDay (y m dt : Z) : Z :=
  DayFromYear y + monthStart m (LeapOfYear y) + dt - 1.

Definition MakeDate (day time : Z) : Z := day * msPerDay + time.

(** the year of the Date Time String Format: four digits, or a sign and
    six digits outside [0..9999] *)
Definition yearString (y : Z) : string :=
  if (0 <=? y) && (y <=? 9999) then Str.padDigits 4 y
  else String (if y <? 0 then "-"%char else "+"%char) (Str.padDigits 6 (Z.abs y)).

(** the text of [toISOString] for a valid time value *)
Definition isoText (t : Z) : string :=
  yearString (YearFromTime t) ++ "-" ++ Str.padDigits 2 (MonthFromTime t + 1)
    ++ "-" ++ Str.padDigits 2 (DateFromTime t)
    ++ "T" ++ Str.padDigits 2 (HourFromTime t)
    ++ ":" ++ Str.padDigits 2 (MinFromTime t)
    ++ ":" ++ Str.padDigits 2 (SecFromTime t)
    ++ "." ++ Str.padDigits 3 (msFromTime t) ++ "Z".

(** [d.toISOString()], [d] given by its time value ([None]: invalid) *)
Definition toISOString (d : option Z) : Result string :=
  match d with
  | Some t => if validTime t then Ok (isoText t) else Throw RangeError
  | None => Throw RangeError
  end.

(** the code units of the date part of a text: digits and the signs *)
Definition dateUnit (c : ascii) : bool :=
  Str.isDigit c || Ascii.eqb c "-" || Ascii.eqb c "+".

(** ... and of the date and time parts together *)
Definition stampUnit (c : ascii) : bool :=
  dateUnit c || Ascii.eqb c " " || Ascii.eqb c ":" || Ascii.eqb c ".".

(** the text [toISOString] gives once its [T] is a space and its [Z] is
    gone *)
Definition canonicalText (t : Z) : string :=
  yearString (YearFromTime t) ++ "-" ++ Str.padDigits 2 (MonthFromTime t + 1)
    ++ "-" ++ Str.padDigits 2 (DateFromTime t)
    ++ " " ++ Str.padDigits 2 (HourFromTime t)
    ++ ":" ++ Str.padDigits 2 (MinFromTime t)
    ++ ":" ++ Str.padDigits 2 (SecFromTime t)
    ++ "." ++ Str.padDigits 3 (msFromTime t).

(** ** Reading a canonical timestamp back

    The epoch milliseconds a canonical timestamp
    [YYYY-MM-DD HH:MM:SS.sss] (or [+-YYYYYY-...]) denotes, read as UTC
    with [MakeDay], [MakeTime] and [MakeDate]; [None] when the text has
    another shape or names no calendar instant. *)

Definition expect (c : ascii) (s : string) : option string :=
  match s with
  | String c' s' => if Ascii.eqb c c' then Some s' else None
  | EmptyString => None
  end.

Definition readYear (s : string) : option (Z * string) :=
  match s with
  | String "+" s' => Str.readDigits 6 0 s'
  | String "-" s' =>
      match Str.readDigits 6 0 s' with
      | Some (y, r) => Some (- y, r)
      | None => None
      end
  | _ => Str.readDigits 4 0 s
  end.

Definition daysInMonth (m leap : Z) : Z :=
  if m =? 11 then 31 else monthStart (m + 1) leap - monthStart m leap.

Definition andThen {A B} (o : option A) (f : A -> option B) : option B :=
  match o with
  | Some a => f a
  | None => None
  end.

Definition canonicalMillis (s : string) : option Z :=
  andThen (readYear s) (fun '(y, s) =>
  andThen (expect "-" s) (fun s =>
  andThen (Str.readDigits 2 0 s) (fun '(mo, s) =>
  andThen (expect "-" s) (fun s =>
  andThen (Str.readDigits 2 0 s) (fun '(d, s) =>
  andThen (expect " " s) (fun s =>
  andThen (Str.readDigits 2 0 s) (fun '(h, s) =>
  andThen (expect ":" s) (fun s =>
  andThen (Str.readDigits 2 0 s) (fun '(mi, s) =>
  andThen (expect ":" s) (fun s =>
  andThen (Str.readDigits 2 0 s) (fun '(se, s) =>
  andThen (expect "." s) (fun s =>
  andThen (Str.readDigits 3 0 s) (fun '(ms, s) =>
    if (s =? "")%string
       && (1 <=? mo) && (mo <=? 12)
       && (1 <=? d) && (d <=? daysInMonth (mo - 1) (LeapOfYear y))
       && (h <=? 23) && (mi <=? 59) && (se <=? 59)
    then Some (MakeDate (MakeDay y (mo - 1) d) (MakeTime h mi se ms))
    else None))))))))))))).

End ESDate.

(* ================================================================== *)
(** * Regular expressions *)
(* ================================================================== *)

(** A backtracking matcher for the fragment of the regular-expression
    language the program uses: literal runs, [\d], a bracket class,
    sequence, greedy [?] and [+], capture groups. *)
Module Regex.

Inductive Re : Type :=
| Lit (p : string)
| Digit
| OneOf (cs : list ascii)
| Seq (r1 r2 : Re)
| Opt (r : Re)
| Plus (r : Re)
| Group (i : nat) (r : Re).

(** the captures of a match, latest first *)
Definition Caps : Type := list (nat * string).

Fixpoint getCap (i : nat) (caps : Caps) : option string :=
  match caps with
  | [] => None
  | (j, s) :: rest => if Nat.eqb i j then Some s else getCap i rest
  end.

(** the rounds of a greedy [+] after [step], the matcher of its body:
    one more round first, and only when that fails what follows the [+] *)
Fixpoint repeatGreedy
         (step : string -> Caps -> (string -> Caps -> option Caps) -> option Caps)
         (k : string -> Caps -> option Caps)
         (fuel : nat) (s : string) (caps : Caps) : option Caps :=
  match fuel with
  | O => None
  | S f =>
      step s caps (fun s1 c1 =>
        match repeatGreedy step k f s1 c1 with
        | Some c => Some c
        | None => k s1 c1
        end)
  end.

(** [run r s caps k]: match [r] at the front of [s], then hand what is
    left to [k]; when [k] fails the matcher backtracks into [r].  The body
    of a [+] consumes input in the program's pattern, so the length of
    the input bounds the number of rounds. *)
Fixpoint run (r : Re) (s : string) (caps : Caps)
         (k : string -> Caps -> option Caps) {struct r} : option Caps :=
  match r with
  | Lit p =>
      if Str.startsWith p s then k (Str.drop (String.length p) s) caps else None
  | Digit =>
      match s with
      | String c s' => if Str.isDigit c then k s' caps else None
      | EmptyString => None
      end
  | OneOf cs =>
      match s with
      | String c s' => if existsb (Ascii.eqb c) cs then k s' caps else None
      | EmptyString => None
      end
  | Seq r1 r2 => run r1 s caps (fun s1 c1 => run r2 s1 c1 k)
  | Opt r1 =>
      match run r1 s caps k with
      | Some c => Some c
      | None => k s caps
      end
  | Plus r1 => repeatGreedy (run r1) k (S (String.length s)) s caps
  | Group i r1 =>
      run r1 s caps (fun s1 c1 =>
        k s1 ((i, Str.take (String.length s - String.length s1) s) :: c1))
  end.

Definition headIsDigit (s : string) : bool :=
  match s with
  | String c _ => Str.isDigit c
  | EmptyString => false
  end.

Definition matchHere (r : Re) (s : string) : option Caps :=
  run r s [] (fun _ c => Some c).

(** [s.match(r)] for a regular expression without the [g] flag: the
    captures of the leftmost match, [None] for [null] *)
Fixpoint search (r : Re) (s : string) : option Caps :=
  match matchHere r s with
  | Some c => Some c
  | None =>
      match s with
      | EmptyString => None
      | String _ s' => search r s'
      end
  end.

End Regex.

(* ================================================================== *)
(** * config/index.js *)
(* ================================================================== *)

Module Cfg.

(** white space [parseInt] skips, among the code units below 256 *)
Definition isWhiteSpace (c : ascii) : bool :=
  let n := nat_of_ascii c in
  ((9 <=? n)%nat && (n <=? 13)%nat) || (n =? 32)%nat || (n =? 160)%nat.

Fixpoint skipWhiteSpace (s : string) : string :=
  match s with
  | String c s' => if isWhiteSpace c then skipWhiteSpace s' else s
  | EmptyString => EmptyString
  end.

(** [parseInt(s, 10)] before it becomes a Number: the integer the numeral
    denotes; [None] is [NaN].  As a time value the integer is used as it
    is, since [TimeClip] rejects every magnitude a Number would have
    rounded; as a page size it goes through [toDouble]. *)
Definition parseInt10 (s : string) : option Z :=
  let s1 := skipWhiteSpace s in
  let '(neg, s2) :=
    match s1 with
    | String "-" r => (true, r)
    | String "+" r => (false, r)
    | _ => (false, s1)
    end in
  let '(ds, _) := Str.spanDigits s2 in
  if (ds =? "")%string then None
  else Some (if neg then - Str.digitsVal 0 ds else Str.digitsVal 0 ds).

(** [process.env] *)
Record Env : Type := {
  SF_BASE_URL : option string;
  SF_USERNAME : option string;
  SF_PASSWORD : option string;
  PAGE_SIZE : option string;
  OUTPUT_FILE : option string;
  DEPARTMENT_FILTER : option string;
  REQUEST_TIMEOUT : option string
}.

Record Config : Type := {
  sf_baseUrl : string;
  sf_username : option string;
  sf_password : option string;
  sync_pageSize : Z;
  sync_outputFile : string;
  sync_departmentFilter : string;
  request_timeout : Z;
  request_retryAttempts : Z;
  request_retryDelay : Z;
  selectFields : string;
  fieldMapping : list (string * string)
}.

(** [process.env.X || dflt] *)
Definition envOr (x : option string) (dflt : string) : string :=
  match x with
  | Some s => if (s =? "")%string then dflt else s
  | None => dflt
  end.

(** The Number that stands for the integer [n]: [n] itself up to [2^53],
    and beyond it the nearest integer with 53 significant bits, the even
    one of two that are equally near.  (From [2^1024 - 2^970] on the Number
    is [Infinity], which no integer stands for; for a numeral of more than
    20 significant digits [parseInt] may also round before this.) *)
Definition toDouble (n : Z) : Z :=
  let a := Z.abs n in
  if a <=? 2 ^ 53 then n
  else
    let e := Z.log2 a - 52 in
    let q := a / 2 ^ e in
    let r := a mod 2 ^ e in
    let half := 2 ^ (e - 1) in
    let q' := if r <? half then q
              else if half <? r then q + 1
              else if Z.even q then q else q + 1 in
    Z.sgn n * (q' * 2 ^ e).

(** [parseInt(process.env.X, 10) || dflt]: what [parseInt] returns is a
    Number *)
Definition envIntOr (x : option string) (dflt : Z) : Z :=
  match x with
  | Some s =>
      match parseInt10 s with
      | Some n => if toDouble n =? 0 then dflt else toDouble n
      | None => dflt
      end
  | None => dflt
  end.

Definition selectFieldList : list string :=
  [ "code"; "effectiveStartDate"; "cust_subCode"; "cust_subDepartment";
    "lastModifiedDateTime"; "jobCode"; "jobTitle"; "payRange";
    "cust_subDepartment2"; "costCenter"; "externalName_localized";
    "effectiveStatus"; "externalName_vi_VN"; "effectiveEndDate"; "payGrade";
    "cust_compensationpackage"; "department"; "cust_max"; "jobLevel";
    "cust_min"; "externalName_en_US" ].

(** JSON field to DB column mapping, in the order of the object literal *)
Definition fieldMappingTable : list (string * string) :=
  [ ("code", "code");
    ("effectiveStartDate", "effective_start_date");
    ("cust_subCode", "cust_sub_code");
    ("cust_subDepartment", "cust_sub_department");
    ("lastModifiedDateTime", "last_modified_date_time");
    ("jobCode", "job_code");
    ("jobTitle", "job_title");
    ("payRange", "pay_range");
    ("cust_subDepartment2", "cust_sub_department2");
    ("costCenter", "cost_center");
    ("externalName_localized", "external_name_localized");
    ("effectiveStatus", "effective_status");
    ("externalName_vi_VN", "external_name_vi");
    ("effectiveEndDate", "effective_end_date");
    ("payGrade", "pay_grade");
    ("cust_compensationpackage", "Compensation_Package");
    ("department", "department");
    ("cust_max", "cust_max");
    ("jobLevel", "job_level");
    ("cust_min", "cust_min");
    ("externalName_en_US", "externalName_en") ].

Definition config (env : Env) : Config := {|
  sf_baseUrl := envOr (SF_BASE_URL env) "https://api10.successfactors.com/odata/v2";
  sf_username := SF_USERNAME env;
  sf_password := SF_PASSWORD env;
  sync_pageSize := envIntOr (PAGE_SIZE env) 1000;
  sync_outputFile := envOr (OUTPUT_FILE env) "output/positions.sql";
  sync_departmentFilter := envOr (DEPARTMENT_FILTER env) "";
  request_timeout := envIntOr (REQUEST_TIMEOUT env) 60000;
  request_retryAttempts := 3;
  request_retryDelay := 1000;
  selectFields := Str.join "," selectFieldList;
  fieldMapping := fieldMappingTable
|}.

(** no string occurs twice *)
Fixpoint distinct (xs : list string) : bool :=
  match xs with
  | [] => true
  | x :: rest => negb (existsb (String.eqb x) rest) && distinct rest
  end.

(** [!x] for an environment string *)
Definition missing (x : option string) : bool :=
  match x with
  | Some s => (s =? "")%string
  | None => true
  end.

Definition validateConfig (config : Config) : Result unit :=
  let errors :=
    ((if missing (sf_username config) then ["SF_USERNAME is required"] else [])
     ++ (if missing (sf_password config) then ["SF_PASSWORD is required"] else []))%list in
  if (0 <? Z.of_nat (List.length errors))
  then Throw (Error ("Configuration errors:" ++ Str.LF ++ Str.join Str.LF errors))
  else Ok tt.

End Cfg.

Export Cfg.

(* ================================================================== *)
(** * utils/sqlGenerator.js *)
(* ================================================================== *)

Module SqlGenerator.
Section WithHost.

Context `{Runtime}.
Variable config : Config.

(** [/\/Date\((-?\d+)([+-]\d+)?\)\//] *)
Definition sfDatePattern : Regex.Re :=
  Regex.Seq (Regex.Lit "/Date(")
    (Regex.Seq (Regex.Group 1 (Regex.Seq (Regex.Opt (Regex.Lit "-")) (Regex.Plus Regex.Digit)))
      (Regex.Seq
         (Regex.Opt (Regex.Group 2
            (Regex.Seq (Regex.OneOf ["+"%char; "-"%char]) (Regex.Plus Regex.Digit))))
         (Regex.Lit ")/"))).

(** the two groups of the pattern *)
Definition group1 : Regex.Re :=
  Regex.Group 1 (Regex.Seq (Regex.Opt (Regex.Lit "-")) (Regex.Plus Regex.Digit)).

Definition group2 : Regex.Re :=
  Regex.Group 2 (Regex.Seq (Regex.OneOf ["+"%char; "-"%char]) (Regex.Plus Regex.Digit)).

(** [x.toISOString().replace("T", " ").replace("Z", "")] *)
Definition pgTimestamp (d : option Z) : Result string :=
  bind (ESDate.toISOString d) (fun iso =>
    Ok (Str.replaceFirst "Z" "" (Str.replaceFirst "T" " " iso))).

(** [parseSFDate(sfDate)]; [Ok None] is the returned [null].  A value
    that is truthy and no string has no [match] method. *)
Definition parseSFDate (sfDate : Value) : Result (option string) :=
  if negb (truthy sfDate) then Ok None
  else
    match sfDate with
    | VStr s =>
        match Regex.search sfDatePattern s with
        | Some m =>
            let timestamp := ESDate.andThen (Regex.getCap 1 m) parseInt10 in
            let date := ESDate.andThen timestamp ESDate.TimeClip in
            bind (pgTimestamp date) (fun text => Ok (Some text))
        | None =>
            match Date_parse s with
            | Some t => bind (pgTimestamp (ESDate.TimeClip t)) (fun text => Ok (Some text))
            | None => Ok None
            end
        end
    | _ => Throw TypeError
    end.

Definition isQuote (c : ascii) : bool := Ascii.eqb c "'"%char.

(** [escapeSqlString(value)], for a value that [String] renders
    ([rendersAsString]); [None] is the returned [null] *)
Definition escapeSqlString (value : Value) : option string :=
  if isNullish value then None
  else Some (Str.replaceAllIn isQuote "''" (ToString value)).

(** a string-or-null inside a template literal *)
Definition renderNullable (x : option string) : string :=
  match x with
  | Some s => s
  | None => "null"
  end.

(** a parameter with a default: the default stands in for [undefined] *)
Definition orDefault (v : Value) (dflt : string) : Value :=
  match v with
  | VUndefined => VStr dflt
  | _ => v
  end.

(** [v === s] for a string literal [s] *)
Definition isString (v : Value) (s : string) : bool :=
  match v with
  | VStr x => (x =? s)%string
  | _ => false
  end.

Definition dateColumns : list string :=
  ["effective_start_date"; "last_modified_date_time"; "effective_end_date"].

(** [xs.includes(x)] *)
Definition includes (xs : list string) (x : string) : bool :=
  existsb (String.eqb x) xs.

Definition formatSqlValue (value : Value) (columnName : string) (dbType : Value)
  : Result string :=
  let dbType := orDefault dbType "oracle" in
  if isNullish value then Ok "NULL"
  else if includes dateColumns columnName then
    bind (parseSFDate value) (fun parsedDate =>
      match parsedDate with
      | Some text =>
          if negb (text =? "")%string then
            if isString dbType "oracle"
            then Ok ("TO_TIMESTAMP('" ++ text ++ "', 'YYYY-MM-DD HH24:MI:SS.FF3')")
            else Ok ("'" ++ text ++ "'::timestamp")
          else Ok "NULL"
      | None => Ok "NULL"
      end)
  else Ok ("'" ++ renderNullable (escapeSqlString value) ++ "'").

(** the loop of [transformRecord] over [Object.entries(config.fieldMapping)] *)
Fixpoint transformLoop (entries : list (string * string)) (apiRecord : Value)
         (dbRecord : list (string * Value)) : Result (list (string * Value)) :=
  match entries with
  | [] => Ok dbRecord
  | (apiField, dbColumn) :: rest =>
      bind (member apiRecord apiField) (fun x =>
        let v := match x with VUndefined => VNull | _ => x end in
        transformLoop rest apiRecord (setProp dbColumn v dbRecord))
  end.

Definition transformRecord (apiRecord : Value) : Result (list (string * Value)) :=
  transformLoop (fieldMapping config) apiRecord [].

(** [config.fieldMapping[k]] *)
Fixpoint mappingAt (k : string) (m : list (string * string)) : string :=
  match m with
  | [] => "undefined"
  | (k', c) :: rest => if (k =? k')%string then c else mappingAt k rest
  end.

(** [Object.keys(config.fieldMapping).map((k) => config.fieldMapping[k])] *)
Definition columnsOf (m : list (string * string)) : list string :=
  map (fun k => mappingAt k m) (keys m).

Definition generateOracleInsert (record : Value) : Result string :=
  bind (transformRecord record) (fun dbRecord =>
    let columns := columnsOf (fieldMapping config) in
    bind (mapR (fun col => formatSqlValue (getProp (VObj dbRecord) col) col (VStr "oracle"))
               columns) (fun values =>
      let code := escapeSqlString (getProp (VObj dbRecord) "code") in
      let insertColumns := Str.join ", " columns in
      let insertValues := Str.join ", " values in
      Ok ("MERGE INTO job_sf_position target" ++ Str.LF
          ++ "USING (SELECT '" ++ renderNullable code ++ "' AS code FROM dual) source" ++ Str.LF
          ++ "ON (target.code = source.code)" ++ Str.LF
          ++ "WHEN NOT MATCHED THEN" ++ Str.LF
          ++ "    INSERT (" ++ insertColumns ++ ")" ++ Str.LF
          ++ "    VALUES (" ++ insertValues ++ ");"))).

Definition generatePostgresInsert (record : Value) : Result string :=
  bind (transformRecord record) (fun dbRecord =>
    let columns := columnsOf (fieldMapping config) in
    bind (mapR (fun col => formatSqlValue (getProp (VObj dbRecord) col) col (VStr "postgres"))
               columns) (fun values =>
      let insertColumns := Str.join ", " columns in
      let insertValues := Str.join ", " values in
      Ok ("INSERT INTO job_sf_position (" ++ insertColumns ++ ")" ++ Str.LF
          ++ "VALUES (" ++ insertValues ++ ")" ++ Str.LF
          ++ "ON CONFLICT (code) DO NOTHING;"))).

Definition generateInsertIfNotExists (record : Value) (dbType : Value) : Result string :=
  let dbType := orDefault dbType "oracle" in
  if isString dbType "postgres" then generatePostgresInsert record
  else generateOracleInsert record.

(** [a || b] *)
Definition orElse (a b : Value) : Value := if truthy a then a else b.

(** [dbType.toUpperCase()]: only a string has the method *)
Definition toUpperCase (v : Value) : Result string :=
  match v with
  | VStr s => Ok (String_toUpperCase s)
  | _ => Throw TypeError
  end.

(** [generateSqlHeader(startDate, endDate, dbType)], run at the instant
    [now] that [new Date()] reads *)
Definition generateSqlHeader (now : Z) (startDate endDate dbType : Value) : Result string :=
  let dbType := orDefault dbType "oracle" in
  bind (ESDate.toISOString (ESDate.TimeClip now)) (fun now =>
    let dateRange :=
      if truthy (orElse startDate endDate)
      then ToString (orElse startDate (VStr "N/A")) ++ " to "
           ++ ToString (orElse endDate (VStr "N/A"))
      else "Yesterday" in
    bind (toUpperCase dbType) (fun dbTypeUpper =>
      Ok ("-- ============================================" ++ Str.LF
          ++ "-- SF Position Sync SQL (" ++ dbTypeUpper ++ ")" ++ Str.LF
          ++ "-- Generated: " ++ now ++ Str.LF
          ++ "-- Date Range: " ++ dateRange ++ Str.LF
          ++ "-- Department Filter: " ++ sync_departmentFilter config ++ "*" ++ Str.LF
          ++ "-- Database: " ++ dbTypeUpper ++ Str.LF
          ++ "-- ============================================" ++ Str.LF
          ++ Str.LF))).

Definition generateSqlFooter (totalRecords : Z) : string :=
  Str.LF
  ++ "-- ============================================" ++ Str.LF
  ++ "-- Total Records: " ++ Str.ofZ totalRecords ++ Str.LF
  ++ "-- End of SQL file" ++ Str.LF
  ++ "-- ============================================" ++ Str.LF.

End WithHost.
End SqlGenerator.

(* ================================================================== *)
(** * The world outside: network, clock, file system *)
(* ================================================================== *)

Module Eff.

(** a rejected request, as the HTTP client reports it *)
Record HttpError : Type := {
  err_code : option string;
  err_response : option (Z * Value);   (* status and body, when the server answered *)
  err_message : string
}.

Inductive HttpOutcome : Type :=
| Resolved (data : Value)              (* [response.data] *)
| Rejected (error : HttpError).

(** the query parameters of one [GET /Position] ([$format] is always [json]) *)
Record Request : Type := {
  req_select : string;
  req_top : Z;
  req_skip : Z;
  req_filter : string
}.

Inductive Event : Type :=
| EvRequest (r : Request)
| EvSleep (ms : Z)
| EvMkdir (dir : string)
| EvWriteFile (path content : string).

(** The environment of a run: [api n] is what the [n]-th request issued
    gets back, [clock n] what the [n]-th reading of the clock shows, and
    [trace] lists what the program has done so far, oldest first.  Calls
    of the file system succeed; the console, and the time stamps the
    logger prints on it, are left out. *)
Record World : Type := {
  api : nat -> HttpOutcome;
  sent : nat;
  clock : nat -> Z;
  ticks : nat;
  fsExists : string -> bool;
  trace : list Event
}.

Definition M (A : Type) : Type := World -> Result A * World.

Definition ret {A} (a : A) : M A := fun w => (Ok a, w).

Definition throw {A} (e : Exn) : M A := fun w => (Throw e, w).

Definition bindM {A B} (m : M A) (f : A -> M B) : M B :=
  fun w =>
    match m w with
    | (Ok a, w') => f a w'
    | (Throw e, w') => (Throw e, w')
    end.

Definition lift {A} (r : Result A) : M A := fun w => (r, w).

Definition emit (ev : Event) (w : World) : World :=
  {| api := api w; sent := sent w; clock := clock w; ticks := ticks w;
     fsExists := fsExists w; trace := (trace w ++ [ev])%list |}.

(** [Date.now()], and the time value of [new Date()] *)
Definition readClock : M Z :=
  fun w =>
    (Ok (clock w (ticks w)),
     {| api := api w; sent := sent w; clock := clock w; ticks := S (ticks w);
        fsExists := fsExists w; trace := trace w |}).

(** [await client.get("/Position", { params })] *)
Definition httpGet (r : Request) : World -> HttpOutcome * World :=
  fun w =>
    (api w (sent w),
     emit (EvRequest r)
       {| api := api w; sent := S (sent w); clock := clock w; ticks := ticks w;
          fsExists := fsExists w; trace := trace w |}).

(** [await sleep(ms)] *)
Definition sleep (ms : Z) : M unit := fun w => (Ok tt, emit (EvSleep ms) w).

Definition createPath (p : string) (w : World) : World :=
  {| api := api w; sent := sent w; clock := clock w; ticks := ticks w;
     fsExists := fun q => (q =? p)%string || fsExists w q; trace := trace w |}.

(** [fs.existsSync(p)] *)
Definition existsSync (p : string) : M bool := fun w => (Ok (fsExists w p), w).

(** [fs.mkdirSync(dir, { recursive: true })] *)
Definition mkdirSync (dir : string) : M unit :=
  fun w => (Ok tt, createPath dir (emit (EvMkdir dir) w)).

(** [fs.writeFileSync(path, content, "utf8")] *)
Definition writeFileSync (path content : string) : M unit :=
  fun w => (Ok tt, createPath path (emit (EvWriteFile path content) w)).

Definition isRequest (ev : Event) : bool :=
  match ev with EvRequest _ => true | _ => false end.

Definition isWrite (ev : Event) : bool :=
  match ev with EvWriteFile _ _ => true | _ => false end.

Definition isSleep (ev : Event) : bool :=
  match ev with EvSleep _ => true | _ => false end.

(** the requests of a trace, in order *)
Fixpoint requestsOf (tr : list Event) : list Request :=
  match tr with
  | [] => []
  | EvRequest r :: rest => r :: requestsOf rest
  | _ :: rest => requestsOf rest
  end.

(** the waits of a trace, in order *)
Fixpoint sleepsOf (tr : list Event) : list Z :=
  match tr with
  | [] => []
  | EvSleep ms :: rest => ms :: sleepsOf rest
  | _ :: rest => sleepsOf rest
  end.

(** the files written in a trace, in order *)
Fixpoint writesOf (tr : list Event) : list (string * string) :=
  match tr with
  | [] => []
  | EvWriteFile p c :: rest => (p, c) :: writesOf rest
  | _ :: rest => writesOf rest
  end.

(** two worlds that differ at most in how often the clock was read *)
Definition sameButTicks (w w' : World) : Prop :=
  api w' = api w /\ sent w' = sent w /\ clock w' = clock w
  /\ fsExists w' = fsExists w /\ trace w' = trace w.

(** [w'] comes from [w] by the events [evs], with the same API script and
    the same clock *)
Definition extends (w w' : World) (evs : list Event) : Prop :=
  api w' = api w /\ clock w' = clock w /\ trace w' = (trace w ++ evs)%list
  /\ sent w' = (sent w + List.length (requestsOf evs))%nat.

(** [w'] comes from [w] by events that are no file writes *)
Definition noWriteSince (w w' : World) : Prop :=
  exists evs, trace w' = (trace w ++ evs)%list /\ writesOf evs = [].

(** [w'] comes from [w] by events that are no requests *)
Definition noRequestSince (w w' : World) : Prop :=
  exists evs, trace w' = (trace w ++ evs)%list /\ requestsOf evs = [].

End Eff.

Export Eff.

Declare Scope eff_scope.
Delimit Scope eff_scope with eff.
Notation "x <- m ;; k" := (bindM m (fun x => k))
  (at level 61, m at next level, right associativity) : eff_scope.
Notation "m ;;; k" := (bindM m (fun _ => k))
  (at level 61, right associativity) : eff_scope.

(* ================================================================== *)
(** * services/sfApiService.js *)
(* ================================================================== *)

Module SfApi.
Section WithHost.

Context `{Runtime}.
Variable config : Config.

Local Open Scope eff_scope.

(** [s.replace(/\.\d{3}Z$/, "")] *)
Fixpoint stripMillis (s : string) : string :=
  match s with
  | EmptyString => EmptyString
  | String c s' =>
      let atEnd :=
        match s with
        | String "." (String a (String b (String d (String "Z" EmptyString)))) =>
            Str.isDigit a && Str.isDigit b && Str.isDigit d
        | _ => false
        end in
      if atEnd then EmptyString else String c (stripMillis s')
  end.

Definition getYesterdayDateTime : M string :=
  now <- readClock ;;
  iso <- lift (ESDate.toISOString (ESDate.TimeClip (localDayBefore now))) ;;
  ret (stripMillis iso).

(** [dateStr.length === 10] *)
Definition hasLength10 (v : Value) : bool :=
  match v with
  | VStr s => (String.length s =? 10)%nat
  | VArr items => (List.length items =? 10)%nat
  | VObj _ => match getProp v "length" with VNum 10 => true | _ => false end
  | _ => false
  end.

Definition formatDate (dateStr : Value) : Value :=
  if negb (truthy dateStr) then VNull
  else if hasLength10 dateStr then VStr (ToString dateStr ++ "T00:00:00")
  else dateStr.

Definition buildDateFilter (startDate endDate : Value) : M string :=
  let start := formatDate startDate in
  let end_ := formatDate endDate in
  if truthy start && truthy end_ then
    ret ("lastModifiedDateTime ge datetime'" ++ ToString start
         ++ "' and lastModifiedDateTime le datetime'" ++ ToString end_ ++ "'")
  else if truthy start then
    ret ("lastModifiedDateTime ge datetime'" ++ ToString start ++ "'")
  else if truthy end_ then
    ret ("lastModifiedDateTime le datetime'" ++ ToString end_ ++ "'")
  else
    yesterdayDateTime <- getYesterdayDateTime ;;
    ret ("lastModifiedDateTime ge datetime'" ++ yesterdayDateTime ++ "'").

Definition codeIs (error : HttpError) (c : string) : bool :=
  match err_code error with
  | Some x => (x =? c)%string
  | None => false
  end.

Definition isRetryable (error : HttpError) : bool :=
  codeIs error "ECONNRESET"
  || codeIs error "ETIMEDOUT"
  || codeIs error "ECONNABORTED"
  || match err_response error with
     | Some (status, _) => 500 <=? status
     | None => false
     end.

(** [response.data?.d?.results || []] *)
Definition resultsOf (data : Value) : Value :=
  let results := optMember (optMember data "d") "results" in
  if truthy results then results else VArr [].

(** The retry loop [for (let attempt = 1; attempt <= retryAttempts; attempt++)].
    It runs at most [retryAttempts] rounds, which [rounds] counts down.
    [inl results] is the [return] inside the loop, [inr lastError] is
    leaving it, by [break] or by its condition. *)
Fixpoint attemptLoop (rounds : nat) (attempt : Z) (params : Request)
         (lastError : option HttpError) (w : World)
  : (Value + option HttpError) * World :=
  match rounds with
  | O => (inr lastError, w)
  | S rounds' =>
      if attempt <=? request_retryAttempts config then
        match httpGet params w with
        | (Resolved data, w1) => (inl (resultsOf data), w1)
        | (Rejected error, w1) =>
            if isRetryable error && (attempt <? request_retryAttempts config) then
              let delay := request_retryDelay config * 2 ^ (attempt - 1) in
              attemptLoop rounds' (attempt + 1) params (Some error)
                          (snd (sleep delay w1))
            else (inr (Some error), w1)
        end
      else (inr lastError, w)
  end.

(** the message of the error thrown once the loop is left; reading
    [lastError.response] fails when no attempt was made *)
Definition errorMessage (lastError : option HttpError) : Result string :=
  match lastError with
  | None => Throw TypeError
  | Some error =>
      match err_response error with
      | Some (status, data) =>
          Ok ("API Error " ++ ToString (VNum status) ++ ": " ++ JSON_stringify data)
      | None => Ok ("Request Error: " ++ err_message error)
      end
  end.

(** [fetchPositions(top, skip, startDate, endDate)].  Building the client
    only encodes the credentials and is left out. *)
Definition fetchPositions (top skip : Z) (startDate endDate : Value) : M Value :=
  filter <- buildDateFilter startDate endDate ;;
  let params := {| req_select := selectFields config; req_top := top;
                   req_skip := skip; req_filter := filter |} in
  fun w =>
    match attemptLoop (Z.to_nat (request_retryAttempts config)) 1 params None w with
    | (inl results, w1) => (Ok results, w1)
    | (inr lastError, w1) =>
        match errorMessage lastError with
        | Ok msg => (Throw (Error msg), w1)
        | Throw e => (Throw e, w1)
        end
    end.

(** [filterByDepartment(positions, prefix)]: a [null] item has no
    [department]; a department that is truthy and no string has no
    [startsWith]. *)
Fixpoint filterByDepartment (positions : list Value) (prefix : string)
  : Result (list Value) :=
  match positions with
  | [] => Ok []
  | pos :: rest =>
      bind (member pos "department") (fun d =>
        let department := if truthy d then d else VStr "" in
        match department with
        | VStr s =>
            bind (filterByDepartment rest prefix) (fun kept =>
              Ok (if Str.startsWith prefix s then pos :: kept else kept))
        | _ => Throw TypeError
        end)
  end.

End WithHost.
End SfApi.

(* ================================================================== *)
(** * index.js: the orchestrator *)
(* ================================================================== *)

Module Sync.
Section WithHost.

Context `{Runtime}.
Variable config : Config.

Local Open Scope eff_scope.

Definition ensureOutputDirectory (filePath : string) : M unit :=
  let dir := path_dirname filePath in
  present <- existsSync dir ;;
  if negb present then mkdirSync dir else ret tt.

(** the variables of the pagination loop *)
Record LoopState : Type := {
  allFilteredPositions : list Value;
  page : Z;
  skip : Z;
  totalFetched : Z;
  totalFiltered : Z
}.

Definition initialState : LoopState :=
  {| allFilteredPositions := []; page := 1; skip := 0;
     totalFetched := 0; totalFiltered := 0 |}.

(** One round of [while (hasMoreData)]: the new variables and the new
    [hasMoreData].  What is fetched has to be an array to be filtered. *)
Definition loopBody (startDate endDate : Value) (st : LoopState) : M (LoopState * bool) :=
  positions <- SfApi.fetchPositions config (sync_pageSize config) (skip st) startDate endDate ;;
  match positions with
  | VArr items =>
      let fetchedCount := Z.of_nat (List.length items) in
      filteredPositions <- lift (SfApi.filterByDepartment items (sync_departmentFilter config)) ;;
      let filteredCount := Z.of_nat (List.length filteredPositions) in
      let all := (allFilteredPositions st ++ filteredPositions)%list in
      if fetchedCount <? sync_pageSize config then
        ret ({| allFilteredPositions := all; page := page st; skip := skip st;
                totalFetched := totalFetched st + fetchedCount;
                totalFiltered := totalFiltered st + filteredCount |}, false)
      else
        ret ({| allFilteredPositions := all; page := page st + 1;
                skip := skip st + sync_pageSize config;
                totalFetched := totalFetched st + fetchedCount;
                totalFiltered := totalFiltered st + filteredCount |}, true)
  | _ => throw TypeError
  end.

(** The pagination loop.  The source loop has no bound of its own: [fuel]
    bounds the rounds of the model, and [None] says it ran out. *)
Fixpoint paginate (fuel : nat) (startDate endDate : Value) (st : LoopState) (w : World)
  : option (Result LoopState * World) :=
  match fuel with
  | O => None
  | S fuel' =>
      match loopBody startDate endDate st w with
      | (Throw e, w1) => Some (Throw e, w1)
      | (Ok (st1, hasMoreData), w1) =>
          if hasMoreData then paginate fuel' startDate endDate st1 w1
          else Some (Ok st1, w1)
      end
  end.

Definition isColonOrDot (c : ascii) : bool :=
  Ascii.eqb c ":"%char || Ascii.eqb c "."%char.

(** the two statements of every position, Oracle before PostgreSQL *)
Fixpoint generateAll (positions : list Value) : Result (list string * list string) :=
  match positions with
  | [] => Ok ([], [])
  | position :: rest =>
      bind (SqlGenerator.generateInsertIfNotExists config position (VStr "oracle")) (fun o =>
      bind (SqlGenerator.generateInsertIfNotExists config position (VStr "postgres")) (fun p =>
      bind (generateAll rest) (fun '(os, ps) => Ok (o :: os, p :: ps))))
  end.

(** what [syncPositions] returns; [elapsedMs] is [Date.now() - startTime],
    which the source renders in seconds with two decimals *)
Record SyncResult : Type := {
  success : bool;
  res_totalFetched : Z;
  res_totalFiltered : Z;
  sqlStatementsGenerated : Z;
  oracleFile : string;
  postgresFile : string;
  elapsedMs : Z
}.

(** everything after the pagination loop *)
Definition writeOutput (startTime : Z) (startDate endDate : Value) (st : LoopState)
  : M SyncResult :=
  now <- readClock ;;
  iso <- lift (ESDate.toISOString (ESDate.TimeClip now)) ;;
  let timestamp := Str.replaceAllIn isColonOrDot "-" iso in
  let baseFileName := Str.replaceFirst ".sql" ("_" ++ timestamp) (sync_outputFile config) in
  stmts <- lift (generateAll (allFilteredPositions st)) ;;
  let '(oracleStatements, postgresStatements) := stmts in
  let oracleFile := baseFileName ++ "_oracle.sql" in
  now1 <- readClock ;;
  oracleHeader <- lift (SqlGenerator.generateSqlHeader config now1 startDate endDate (VStr "oracle")) ;;
  let oracleSqlContent :=
    oracleHeader ++ Str.join (Str.LF ++ Str.LF) oracleStatements
      ++ SqlGenerator.generateSqlFooter (Z.of_nat (List.length oracleStatements)) in
  writeFileSync oracleFile oracleSqlContent ;;;
  let postgresFile := baseFileName ++ "_postgres.sql" in
  now2 <- readClock ;;
  postgresHeader <- lift (SqlGenerator.generateSqlHeader config now2 startDate endDate (VStr "postgres")) ;;
  let postgresSqlContent :=
    postgresHeader ++ Str.join (Str.LF ++ Str.LF) postgresStatements
      ++ SqlGenerator.generateSqlFooter (Z.of_nat (List.length postgresStatements)) in
  writeFileSync postgresFile postgresSqlContent ;;;
  finish <- readClock ;;
  ret {| success := true;
         res_totalFetched := totalFetched st;
         res_totalFiltered := totalFiltered st;
         sqlStatementsGenerated := Z.of_nat (List.length (allFilteredPositions st));
         oracleFile := oracleFile;
         postgresFile := postgresFile;
         elapsedMs := finish - startTime |}.

(** what [syncPositions] does before the pagination loop *)
Definition setup : M Z :=
  startTime <- readClock ;;
  lift (validateConfig config) ;;;
  ensureOutputDirectory (sync_outputFile config) ;;;
  ret startTime.

(** [syncPositions(startDate, endDate)] *)
Definition syncPositions (fuel : nat) (startDate endDate : Value) (w : World)
  : option (Result SyncResult * World) :=
  match setup w with
  | (Throw e, w1) => Some (Throw e, w1)
  | (Ok startTime, w1) =>
      match paginate fuel startDate endDate initialState w1 with
      | None => None
      | Some (Throw e, w2) => Some (Throw e, w2)
      | Some (Ok st, w2) => Some (writeOutput startTime startDate endDate st w2)
      end
  end.

(** [atLoopHead sd ed st w st' w']: the loop, entered with the variables
    [st] in the world [w], is back at its head with [st'] in [w'] after
    some rounds that each asked for more data. *)
Inductive atLoopHead (startDate endDate : Value)
  : LoopState -> World -> LoopState -> World -> Prop :=
| atLoopHead_here st w : atLoopHead startDate endDate st w st w
| atLoopHead_round st w st1 w1 st2 w2 :
    loopBody startDate endDate st w = (Ok (st1, true), w1) ->
    atLoopHead startDate endDate st1 w1 st2 w2 ->
    atLoopHead startDate endDate st w st2 w2.

(** a clock that shows instants a Date can hold, also one day back *)
Definition ClockSane (clk : nat -> Z) : Prop :=
  forall i, ESDate.validTime (clk i) = true
            /\ ESDate.validTime (localDayBefore (clk i)) = true.

(** a position the department filter can read: an item that is not
    [null], with a department that is a string or falsy *)
Definition plainPosition (pos : Value) : bool :=
  negb (isNullish pos)
  && match getProp pos "department" with
     | VStr _ => true
     | d => negb (truthy d)
     end.

(** the [i]-th request from now on is answered with the page [items] *)
Definition servesPage (w : World) (i : nat) (items : list Value) : Prop :=
  exists data, api w (sent w + i) = Resolved data /\ SfApi.resultsOf data = VArr items.

(** a body without the results envelope: no [data], no [d], or no
    [results] *)
Definition lacksEnvelope (data : Value) : bool :=
  isNullish data
  || isNullish (getProp data "d")
  || isNullish (getProp (getProp data "d") "results").

End WithHost.
End Sync.

(* ================================================================== *)
(** * The wrapped epoch form *)
(* ================================================================== *)

(** The texts [/Date(N)/] and [/Date(N+offset)/]: an optional minus sign
    and a run of digits, then an optional offset made of a sign and a run
    of digits. *)
Module Wrapped.

Definition signText (negative : bool) : string := if negative then "-" else "".

Definition offsetText (offset : option (bool * string)) : string :=
  match offset with
  | None => ""
  | Some (plus, digits) => String (if plus then "+"%char else "-"%char) digits
  end.

Definition text (negative : bool) (digits : string) (offset : option (bool * string)) : string :=
  "/Date(" ++ signText negative ++ digits ++ offsetText offset ++ ")/".

(** a run of digits that is not empty *)
Definition isNumeral (digits : string) : bool :=
  Str.allDigits digits && negb (digits =? "")%string.

Definition offsetOk (offset : option (bool * string)) : bool :=
  match offset with
  | None => true
  | Some (_, digits) => isNumeral digits
  end.

Definition wellFormed (digits : string) (offset : option (bool * string)) : bool :=
  isNumeral digits && offsetOk offset.

(** the integer [N] the text names *)
Definition value (negative : bool) (digits : string) : Z :=
  if negative then - Str.digitsVal 0 digits else Str.digitsVal 0 digits.

(** a wrapped epoch text stands somewhere in [s] *)
Definition occursIn (s : string) : Prop :=
  exists before negative digits offset after,
    wellFormed digits offset = true
    /\ s = before ++ text negative digits offset ++ after.

End Wrapped.

(** A host to run the embedding on: no date parser beyond the wrapped
    epoch form, ASCII case mapping, UTC as the local zone. *)
Module SampleHost.

Definition upperChar (c : ascii) : ascii :=
  let n := nat_of_ascii c in
  if (97 <=? n)%nat && (n <=? 122)%nat then ascii_of_nat (n - 32) else c.

Fixpoint upper (s : string) : string :=
  match s with
  | EmptyString => EmptyString
  | String c s' => String (upperChar c) (upper s')
  end.

Definition host : Runtime := {|
  Date_parse := fun _ => None;
  Number_toString := Str.ofZ;
  String_toUpperCase := upper;
  JSON_stringify := fun _ => "{}";
  path_dirname := fun _ => "output";
  localDayBefore := fun t => t - ESDate.msPerDay
|}.

Definition env : Env := {|
  SF_BASE_URL := None;
  SF_USERNAME := Some "user";
  SF_PASSWORD := Some "secret";
  PAGE_SIZE := Some "2";
  OUTPUT_FILE := None;
  DEPARTMENT_FILTER := Some "ENG";
  REQUEST_TIMEOUT := None
|}.

Definition record1 : Value :=
  VObj [ ("code", VStr "X1"); ("department", VStr "ENG-Core");
         ("effectiveStartDate", VStr "/Date(1700000000000)/") ].

Definition record2 : Value :=
  VObj [ ("code", VStr "S7"); ("department", VStr "SALES-North") ].

(** the envelope of an OData answer *)
Definition envelope (items : list Value) : Value :=
  VObj [ ("d", VObj [ ("results", VArr items) ]) ].

(** a world whose API answers by the script, one outcome per request *)
Definition world (script : list HttpOutcome) : World := {|
  api := fun n => nth n script (Resolved VUndefined);
  sent := 0;
  clock := fun _ => 1700000000000;
  ticks := 0;
  fsExists := fun _ => false;
  trace := []
|}.

Definition timeout : HttpError :=
  {| err_code := Some "ETIMEDOUT"; err_response := None;
     err_message := "timeout of 60000ms exceeded" |}.

Definition notFound : HttpError :=
  {| err_code := Some "ERR_BAD_REQUEST"; err_response := Some (404, VObj []);
     err_message := "Request failed with status code 404" |}.

Definition cfg : Config := config env.

(** three full pages of two records, then a page of one *)
Definition fourPages : World :=
  world [ Resolved (envelope [record1; record2]);
          Resolved (envelope [record2; record1]);
          Resolved (envelope [record1; record1]);
          Resolved (envelope [record1]) ].

(** two timeouts, then the page *)
Definition flaky : World :=
  world [ Rejected timeout; Rejected timeout; Resolved (envelope [record1]) ].

(** a full page, then a 404 *)
Definition failing : World :=
  world [ Resolved (envelope [record1; record2]); Rejected notFound ].

(** an answer with a body and nothing in it *)
Definition bare : World := world [ Resolved (VObj []) ].

(** a full page, then a short one *)
Definition twoPages : World :=
  world [ Resolved (envelope [record1; record2]); Resolved (envelope [record1]) ].

Definition statement1 : string :=
  "INSERT INTO job_sf_position (code, effective_start_date, cust_sub_code, cust_sub_department, last_modified_date_time, job_code, job_title, pay_range, cust_sub_department2, cost_center, external_name_localized, effective_status, external_name_vi, effective_end_date, pay_grade, Compensation_Package, department, cust_max, job_level, cust_min, externalName_en)" ++ Str.LF
  ++ "VALUES ('X1', '2023-11-14 22:13:20.000'::timestamp, NULL, NULL, NULL, NULL, NULL, NULL, NULL, NULL, NULL, NULL, NULL, NULL, NULL, NULL, 'ENG-Core', NULL, NULL, NULL, NULL)" ++ Str.LF
  ++ "ON CONFLICT (code) DO NOTHING;".

(** the header of a PostgreSQL script for the range from 2024-01-01 on,
    generated at the instant [now] *)
Definition headerAt (now : Z) : string :=
  match @SqlGenerator.generateSqlHeader host cfg now (VStr "2024-01-01") VUndefined
                                        (VStr "postgres") with
  | Ok text => text
  | Throw _ => ""
  end.

End SampleHost.

(* ================================================================== *)
(** * SQL string literals *)
(* ================================================================== *)

(** How a database reads a string literal: after the opening quote a
    doubled quote stands for one quote, and a single quote ends the
    literal. *)
Module SqlText.

Definition isQuote (c : ascii) : bool := Ascii.eqb c "'"%char.

Definition headIsQuote (s : string) : bool :=
  match s with
  | String c _ => isQuote c
  | EmptyString => false
  end.

(** the text of a literal whose opening quote has been read, and what
    follows its closing quote; [None] when the literal is never closed *)
Fixpoint readBody (s : string) : option (string * string) :=
  match s with
  | EmptyString => None
  | String c s' =>
      if isQuote c then
        match s' with
        | String c2 s'' =>
            if isQuote c2 then
              match readBody s'' with
              | Some (body, rest) => Some (String "'" body, rest)
              | None => None
              end
            else Some (EmptyString, s')
        | EmptyString => Some (EmptyString, EmptyString)
        end
      else
        match readBody s' with
        | Some (body, rest) => Some (String c body, rest)
        | None => None
        end
  end.

Definition readLiteral (s : string) : option (string * string) :=
  match s with
  | String c s' => if isQuote c then readBody s' else None
  | EmptyString => None
  end.

End SqlText.

(* ================================================================== *)
(** * index.js: the HTTP surface *)
(* ================================================================== *)

Module Server.

(** [r{n}] *)
Fixpoint times (n : nat) (r : Regex.Re) : Regex.Re :=
  match n with
  | O => Regex.Lit ""
  | S O => r
  | S n' => Regex.Seq r (times n' r)
  end.

(** [/^r$/.test(s)]: a match that starts at the first code unit and ends
    at the last *)
Definition test (r : Regex.Re) (s : string) : bool :=
  match Regex.run r s [] (fun rest c => if (rest =? "")%string then Some c else None) with
  | Some _ => true
  | None => false
  end.

(** [\d{4}-\d{2}-\d{2}(T\d{2}:\d{2}:\d{2})?] between [^] and [$] *)
Definition dateRegex : Regex.Re :=
  Regex.Seq (times 4 Regex.Digit)
    (Regex.Seq (Regex.Lit "-")
      (Regex.Seq (times 2 Regex.Digit)
        (Regex.Seq (Regex.Lit "-")
          (Regex.Seq (times 2 Regex.Digit)
            (Regex.Opt (Regex.Group 1
              (Regex.Seq (Regex.Lit "T")
                (Regex.Seq (times 2 Regex.Digit)
                  (Regex.Seq (Regex.Lit ":")
                    (Regex.Seq (times 2 Regex.Digit)
                      (Regex.Seq (Regex.Lit ":") (times 2 Regex.Digit)))))))))))).

(** the code units of a date that passes the test *)
Definition dateTimeUnit (c : ascii) : bool :=
  Str.isDigit c || Ascii.eqb c "-" || Ascii.eqb c "T" || Ascii.eqb c ":".

Section WithHost.

Context `{Runtime}.
Variable config : Config.

(** [isNaN(new Date(dateStr).getTime())] for a value whose rendering has
    passed [dateRegex]: a string, or an object that [new Date] first turns
    into its string.  The rendering of a number or a boolean never passes,
    so the last case stands for nothing that happens. *)
Definition dateIsNaN (dateStr : Value) : bool :=
  match dateStr with
  | VStr _ | VArr _ | VObj _ =>
      match ESDate.andThen (Date_parse (ToString dateStr)) ESDate.TimeClip with
      | Some _ => false
      | None => true
      end
  | _ => true
  end.

(** [isValidDate(dateStr)] *)
Definition isValidDate (dateStr : Value) : bool :=
  if negb (truthy dateStr) then true
  else if negb (test dateRegex (ToString dateStr)) then false
  else negb (dateIsNaN dateStr).



End WithHost.
End Server.

(* ================================================================== *)
(** * Runs of the pagination loop *)
(* ================================================================== *)

Module Runs.
Section WithHost.

Context `{Runtime}.
Variable config : Config.

(** what the department filter keeps of a page it can read *)
Definition kept (items : list Value) : list Value :=
  match SfApi.filterByDepartment items (sync_departmentFilter config) with
  | Ok xs => xs
  | Throw _ => []
  end.

(** from now on the API serves the pages [pages], one per request, each
    one readable by the filter *)
Fixpoint servesAll (w : World) (from : nat) (pages : list (list Value)) : Prop :=
  match pages with
  | [] => True
  | items :: rest =>
      Sync.servesPage w from items
      /\ forallb Sync.plainPosition items = true
      /\ servesAll w (S from) rest
  end.

(** the offsets [start], [start + size], ... of [count] requests *)
Fixpoint offsets (count : nat) (start size : Z) : list Z :=
  match count with
  | O => []
  | S count' => start :: offsets count' (start + size) size
  end.

(** what the variables of the loop always satisfy *)
Definition consistent (st : Sync.LoopState) : Prop :=
  Sync.totalFiltered st = Z.of_nat (List.length (Sync.allFilteredPositions st))
  /\ 0 <= Sync.totalFiltered st <= Sync.totalFetched st
  /\ Sync.skip st = (Sync.page st - 1) * sync_pageSize config.

(** the department the filter compares: [pos.department || ""] *)
Definition departmentOf (pos : Value) : string :=
  match getProp pos "department" with
  | VStr s => s
  | _ => ""
  end.

(** [count] attempts at one request, a wait before every attempt but the
    first, each wait twice the one before *)
Fixpoint attempts (params : Request) (delay : Z) (count : nat) : list Event :=
  match count with
  | O => []
  | S O => [EvRequest params]
  | S count' => EvRequest params :: EvSleep delay :: attempts params (2 * delay) count'
  end.

(** the text [toISOString] gives for a valid time value, cut before the
    milliseconds *)
Definition secondsText (t : Z) : string :=
  ESDate.yearString (ESDate.YearFromTime t)
    ++ "-" ++ Str.padDigits 2 (ESDate.MonthFromTime t + 1)
    ++ "-" ++ Str.padDigits 2 (ESDate.DateFromTime t)
    ++ "T" ++ Str.padDigits 2 (ESDate.HourFromTime t)
    ++ ":" ++ Str.padDigits 2 (ESDate.MinFromTime t)
    ++ ":" ++ Str.padDigits 2 (ESDate.SecFromTime t).

(** the instant of a file name: the text of [toISOString] with a hyphen
    for every colon and for the dot *)
Definition fileStamp (t : Z) : string :=
  ESDate.yearString (ESDate.YearFromTime t)
    ++ "-" ++ Str.padDigits 2 (ESDate.MonthFromTime t + 1)
    ++ "-" ++ Str.padDigits 2 (ESDate.DateFromTime t)
    ++ "T" ++ Str.padDigits 2 (ESDate.HourFromTime t)
    ++ "-" ++ Str.padDigits 2 (ESDate.MinFromTime t)
    ++ "-" ++ Str.padDigits 2 (ESDate.SecFromTime t)
    ++ "-" ++ Str.padDigits 3 (ESDate.msFromTime t) ++ "Z".

End WithHost.
End Runs.

(** A host whose [Date.parse] reads the two forms the routes document,
    [yyyy-MM-dd] as midnight UTC and [yyyy-MM-ddTHH:mm:ss] as a local
    time, in a zone that is UTC. *)
Module CalendarHost.

Import ESDate.

Definition parse (s : string) : option Z :=
  andThen (Str.readDigits 4 0 s) (fun '(y, s) =>
  andThen (expect "-" s) (fun s =>
  andThen (Str.readDigits 2 0 s) (fun '(mo, s) =>
  andThen (expect "-" s) (fun s =>
  andThen (Str.readDigits 2 0 s) (fun '(d, s) =>
    if (1 <=? mo) && (mo <=? 12) && (1 <=? d) && (d <=? daysInMonth (mo - 1) (LeapOfYear y))
    then
      if (s =? "")%string then Some (MakeDate (MakeDay y (mo - 1) d) 0)
      else
        andThen (expect "T" s) (fun s =>
        andThen (Str.readDigits 2 0 s) (fun '(h, s) =>
        andThen (expect ":" s) (fun s =>
        andThen (Str.readDigits 2 0 s) (fun '(mi, s) =>
        andThen (expect ":" s) (fun s =>
        andThen (Str.readDigits 2 0 s) (fun '(se, s) =>
          if (s =? "")%string && (h <=? 23) && (mi <=? 59) && (se <=? 59)
          then Some (MakeDate (MakeDay y (mo - 1) d) (MakeTime h mi se 0))
          else None))))))
    else None))))).

Definition host : Runtime := {|
  Date_parse := parse;
  Number_toString := Str.ofZ;
  String_toUpperCase := SampleHost.upper;
  JSON_stringify := fun _ => "{}";
  path_dirname := fun _ => "output";
  localDayBefore := fun t => t - ESDate.msPerDay
|}.

End CalendarHost.

(** Further worlds and records to run the embedding on. *)
Module Samples.

(** an API that answers every request with the same full page *)
Definition endless : World := {|
  api := fun _ => Resolved (SampleHost.envelope [SampleHost.record1; SampleHost.record2]);
  sent := 0;
  clock := fun _ => 1700000000000;
  ticks := 0;
  fsExists := fun _ => false;
  trace := []
|}.

(** the two pages of [SampleHost.twoPages] under a clock that is one
    second further at each of its first ten readings *)
Definition ticking : World := {|
  api := api SampleHost.twoPages;
  sent := 0;
  clock := fun n => 1700000000000 + 1000 * Z.of_nat (Nat.min n 10);
  ticks := 0;
  fsExists := fun _ => false;
  trace := []
|}.

(** one 404 *)
Definition refused : World := SampleHost.world [ Rejected SampleHost.notFound ].

(** three timeouts *)
Definition down : World :=
  SampleHost.world [ Rejected SampleHost.timeout; Rejected SampleHost.timeout;
                     Rejected SampleHost.timeout ].

(** the environment of [SampleHost.env] without its user name *)
Definition anonymous : Env := {|
  SF_BASE_URL := None;
  SF_USERNAME := None;
  SF_PASSWORD := Some "secret";
  PAGE_SIZE := Some "2";
  OUTPUT_FILE := None;
  DEPARTMENT_FILTER := Some "ENG";
  REQUEST_TIMEOUT := None
|}.

(** the properties of [SampleHost.record1], and the same with the
    metadata the API adds to a record *)
Definition plain : list (string * Value) :=
  [ ("code", VStr "X1"); ("department", VStr "ENG-Core");
    ("effectiveStartDate", VStr "/Date(1700000000000)/") ].

Definition tagged : list (string * Value) :=
  ("__metadata", VObj [ ("uri", VStr "Position('X1')") ]) :: plain.

(** a record whose start date is a number *)
Definition odd : Value :=
  VObj [ ("code", VStr "B2"); ("department", VStr "ENG-Tools");
         ("effectiveStartDate", VNum 5) ].

(** the variables of the loop after the two pages of [SampleHost.twoPages],
    and after one page that holds [odd] *)
Definition afterTwoPages : Sync.LoopState := {|
  Sync.allFilteredPositions := [SampleHost.record1; SampleHost.record1];
  Sync.page := 2;
  Sync.skip := 2;
  Sync.totalFetched := 3;
  Sync.totalFiltered := 2
|}.

Definition afterOdd : Sync.LoopState := {|
  Sync.allFilteredPositions := [odd];
  Sync.page := 1;
  Sync.skip := 0;
  Sync.totalFetched := 1;
  Sync.totalFiltered := 1
|}.

(** what the run over [SampleHost.twoPages] returns *)
Definition twoPagesResult : Sync.SyncResult := {|
  Sync.success := true;
  Sync.res_totalFetched := 3;
  Sync.res_totalFiltered := 2;
  Sync.sqlStatementsGenerated := 2;
  Sync.oracleFile := "output/positions_2023-11-14T22-13-20-000Z_oracle.sql";
  Sync.postgresFile := "output/positions_2023-11-14T22-13-20-000Z_postgres.sql";
  Sync.elapsedMs := 0
|}.

(** the Oracle statement of a record without a code *)
Definition keyless : string :=
  match @SqlGenerator.generateOracleInsert SampleHost.host SampleHost.cfg
          (VObj [ ("department", VStr "ENG-Core") ]) with
  | Ok text => text
  | Throw _ => ""
  end.

End Samples.

(* ================================================================== *)
(** * Checked properties *)
(* ================================================================== *)

Import ESDate Regex SqlGenerator.

(** ** The calendar *)

Lemma DayFromYear_succ y : DayFromYear (y + 1) = DayFromYear y + DaysInYear y.
Proof.
  unfold DayFromYear, DaysInYear.
  destruct (Z.eqb_spec (y mod 4) 0), (Z.eqb_spec (y mod 100) 0), (Z.eqb_spec (y mod 400) 0);
    cbn [negb]; Z.to_euclidean_division_equations; lia.
Qed.

Lemma DaysInYear_cases y : DaysInYear y = 365 \/ DaysInYear y = 366.
Proof.
  unfold DaysInYear.
  destruct (y mod 4 =? 0), (y mod 100 =? 0), (y mod 400 =? 0); cbn [negb]; auto.
Qed.

Lemma YearFromDay_spec d :
  DayFromYear (YearFromDay d) <= d < DayFromYear (YearFromDay d + 1).
Proof.
  unfold YearFromDay.
  set (y := 1970 + d * 400 / 146097).
  destruct (Z.ltb_spec d (DayFromYear y)).
  - replace (y - 1 + 1) with y by lia. split; [|lia].
    subst y. unfold DayFromYear in *. Z.to_euclidean_division_equations; lia.
  - destruct (Z.leb_spec (DayFromYear (y + 1)) d).
    + split; [lia|].
      subst y. unfold DayFromYear in *. Z.to_euclidean_division_equations; lia.
    + lia.
Qed.

Lemma DayFromYear_mono y1 y2 : y1 <= y2 -> DayFromYear y1 <= DayFromYear y2.
Proof.
  intros. unfold DayFromYear. Z.to_euclidean_division_equations; lia.
Qed.

(** the characterisation of the language specification: the largest year
    starting at or before the day *)
Lemma YearFromDay_largest d y : DayFromYear y <= d -> y <= YearFromDay d.
Proof.
  intros Hy. pose proof (YearFromDay_spec d) as [_ Hlt].
  destruct (Z.le_gt_cases y (YearFromDay d)); [assumption|].
  pose proof (DayFromYear_mono (YearFromDay d + 1) y ltac:(lia)). lia.
Qed.

Lemma time_split t :
  MakeDate (Day t) (MakeTime (HourFromTime t) (MinFromTime t) (SecFromTime t) (msFromTime t)) = t.
Proof.
  unfold MakeDate, MakeTime, Day, HourFromTime, MinFromTime, SecFromTime, msFromTime,
    msPerDay, msPerHour, msPerMinute, msPerSecond.
  Z.to_euclidean_division_equations; lia.
Qed.

Lemma YearFromTime_range t :
  validTime t = true -> -271821 <= YearFromTime t <= 275760.
Proof.
  unfold validTime, maxTime, YearFromTime. intros Hv.
  apply andb_prop in Hv as [H1 H2]. apply Z.leb_le in H1, H2.
  pose proof (YearFromDay_spec (Day t)) as [Hlo Hhi].
  assert (Hd : -100000000 <= Day t <= 100000000).
  { unfold Day, msPerDay. Z.to_euclidean_division_equations; lia. }
  split.
  - destruct (Z.le_gt_cases (-271821) (YearFromDay (Day t))); [assumption|].
    pose proof (DayFromYear_mono (YearFromDay (Day t) + 1) (-271821) ltac:(lia)) as Hm.
    assert (DayFromYear (-271821) = -100000109) by reflexivity. lia.
  - destruct (Z.le_gt_cases (YearFromDay (Day t)) 275760); [assumption|].
    pose proof (DayFromYear_mono 275761 (YearFromDay (Day t)) ltac:(lia)) as Hm.
    assert (DayFromYear 275761 = 100000110) by reflexivity. lia.
Qed.

(** ** Strings and digits *)

Lemma str_app_assoc (a b c : string) : (a ++ b) ++ c = a ++ (b ++ c).
Proof. induction a as [|x a IH]; simpl; [reflexivity | now rewrite IH]. Qed.

Lemma str_app_nil_r (a : string) : a ++ "" = a.
Proof. induction a as [|x a IH]; simpl; [reflexivity | now rewrite IH]. Qed.

Lemma str_length_app (a b : string) :
  String.length (a ++ b) = (String.length a + String.length b)%nat.
Proof. induction a as [|x a IH]; simpl; [reflexivity | now rewrite IH]. Qed.

Lemma allChars_app p a b :
  Str.allChars p (a ++ b) = Str.allChars p a && Str.allChars p b.
Proof.
  induction a as [|x a IH]; simpl; [reflexivity|].
  rewrite IH. now rewrite andb_assoc.
Qed.

Lemma allChars_weaken (p q : ascii -> bool) s :
  (forall c, p c = true -> q c = true) ->
  Str.allChars p s = true -> Str.allChars q s = true.
Proof.
  intros Hpq. induction s as [|x s IH]; simpl; [reflexivity|].
  intros H. apply andb_prop in H as [H1 H2].
  rewrite (Hpq _ H1), (IH H2). reflexivity.
Qed.

Lemma digit_cases d : 0 <= d <= 9 ->
  d = 0 \/ d = 1 \/ d = 2 \/ d = 3 \/ d = 4 \/ d = 5 \/ d = 6 \/ d = 7 \/ d = 8 \/ d = 9.
Proof. lia. Qed.

Lemma isDigit_digitChar d : 0 <= d <= 9 -> Str.isDigit (Str.digitChar d) = true.
Proof.
  intros Hd. destruct (digit_cases d Hd) as [->|[->|[->|[->|[->|[->|[->|[->|[->| ->]]]]]]]]];
    reflexivity.
Qed.

Lemma digitVal_digitChar d : 0 <= d <= 9 -> Str.digitVal (Str.digitChar d) = d.
Proof.
  intros Hd. destruct (digit_cases d Hd) as [->|[->|[->|[->|[->|[->|[->|[->|[->| ->]]]]]]]]];
    reflexivity.
Qed.

Lemma pow10_pos k : 0 < 10 ^ Z.of_nat k.
Proof. apply Z.pow_pos_nonneg; lia. Qed.

Lemma pow10_succ k : 10 ^ Z.of_nat (S k) = 10 * 10 ^ Z.of_nat k.
Proof. rewrite Nat2Z.inj_succ, Z.pow_succ_r by lia. reflexivity. Qed.

Lemma pad_leading_digit k n :
  0 <= n < 10 ^ Z.of_nat (S k) -> 0 <= n / 10 ^ Z.of_nat k <= 9.
Proof.
  intros Hn. rewrite pow10_succ in Hn. pose proof (pow10_pos k) as Hp.
  split.
  - apply Z.div_pos; lia.
  - assert (n / 10 ^ Z.of_nat k < 10); [|lia].
    apply Z.div_lt_upper_bound; lia.
Qed.

Lemma allDigits_padDigits k : forall n,
  0 <= n < 10 ^ Z.of_nat k -> Str.allDigits (Str.padDigits k n) = true.
Proof.
  unfold Str.allDigits.
  induction k as [|k IH]; intros n Hn; [reflexivity|].
  cbn [Str.padDigits Str.allChars].
  rewrite isDigit_digitChar by (apply pad_leading_digit; assumption).
  rewrite IH; [reflexivity|].
  apply Z.mod_pos_bound, pow10_pos.
Qed.

Lemma readDigits_padDigits k : forall n acc rest,
  0 <= n < 10 ^ Z.of_nat k ->
  Str.readDigits k acc (Str.padDigits k n ++ rest) = Some (acc * 10 ^ Z.of_nat k + n, rest).
Proof.
  induction k as [|k IH]; intros n acc rest Hn.
  - cbn. change (10 ^ Z.of_nat 0) with 1 in Hn. f_equal. f_equal. lia.
  - cbn [Str.padDigits Str.readDigits append].
    pose proof (pad_leading_digit k n Hn) as Hd.
    rewrite isDigit_digitChar, digitVal_digitChar by assumption.
    rewrite IH by (apply Z.mod_pos_bound, pow10_pos).
    f_equal. f_equal. rewrite pow10_succ.
    pose proof (Z.div_mod n (10 ^ Z.of_nat k)) as Hdm.
    pose proof (pow10_pos k). nia.
Qed.

Lemma length_padDigits k : forall n, String.length (Str.padDigits k n) = k.
Proof. induction k as [|k IH]; intros n; cbn; [reflexivity | now rewrite IH]. Qed.

(** replacing the first occurrence of a one-unit pattern *)
Lemma replaceFirst_char c rep pre post :
  Str.allChars (fun x => negb (Ascii.eqb c x)) pre = true ->
  Str.replaceFirst (String c "") rep (pre ++ String c post) = pre ++ rep ++ post.
Proof.
  induction pre as [|x pre IH]; intros Hpre.
  - cbn. rewrite Ascii.eqb_refl. cbn. reflexivity.
  - cbn in Hpre. apply andb_prop in Hpre as [Hx Hrest].
    cbn [append Str.replaceFirst Str.startsWith].
    apply negb_true_iff in Hx. rewrite Hx. cbn [andb].
    rewrite IH by assumption. reflexivity.
Qed.

(** ** Reading a timestamp back *)

Lemma LeapOfYear_cases y :
  (LeapOfYear y = 0 /\ DaysInYear y = 365) \/ (LeapOfYear y = 1 /\ DaysInYear y = 366).
Proof.
  unfold LeapOfYear. destruct (DaysInYear_cases y) as [-> | ->]; cbn; auto.
Qed.

Lemma DayWithinYear_range t :
  0 <= DayWithinYear t < 365 + InLeapYear t.
Proof.
  unfold DayWithinYear, InLeapYear, YearFromTime.
  pose proof (YearFromDay_spec (Day t)) as [Hlo Hhi].
  rewrite DayFromYear_succ in Hhi.
  destruct (LeapOfYear_cases (YearFromDay (Day t))) as [[-> E] | [-> E]]; lia.
Qed.

Lemma month_date_range dwy leap :
  leap = 0 \/ leap = 1 -> 0 <= dwy < 365 + leap ->
  0 <= monthOfDay dwy leap <= 11
  /\ 1 <= dwy - monthStart (monthOfDay dwy leap) leap + 1
       <= daysInMonth (monthOfDay dwy leap) leap.
Proof.
  intros Hl Hd. unfold monthOfDay.
  repeat match goal with
         | |- context [if ?a <? ?b then _ else _] => destruct (Z.ltb_spec a b)
         end;
    cbn; destruct Hl; subst leap; cbn; lia.
Qed.

Lemma readYear_digit c s :
  Str.isDigit c = true -> readYear (String c s) = Str.readDigits 4 0 (String c s).
Proof.
  destruct c as [[] [] [] [] [] [] [] []]; intros Hc; try discriminate Hc; reflexivity.
Qed.

Lemma readYear_yearString y rest :
  -999999 <= y <= 999999 ->
  readYear (yearString y ++ rest) = Some (y, rest).
Proof.
  intros Hy. unfold yearString.
  destruct (Z.leb_spec 0 y); cbn [andb].
  - destruct (Z.leb_spec y 9999); cbn [andb].
    + assert (Hr : 0 <= y < 10 ^ Z.of_nat 4) by (cbn; lia).
      pose proof (readDigits_padDigits 4 y 0 rest Hr) as Hread.
      pose proof (pad_leading_digit 3 y Hr) as Hd.
      change (Str.padDigits 4 y ++ rest)
        with (String (Str.digitChar (y / 10 ^ Z.of_nat 3))
                     (Str.padDigits 3 (y mod 10 ^ Z.of_nat 3) ++ rest)) in *.
      rewrite readYear_digit by (apply isDigit_digitChar; assumption).
      rewrite Hread. reflexivity.
    + destruct (Z.ltb_spec y 0); [lia|].
      cbn [append readYear].
      rewrite readDigits_padDigits by (cbn; lia).
      f_equal. f_equal. lia.
  - destruct (Z.ltb_spec y 0); [|lia].
    cbn [append readYear].
    rewrite readDigits_padDigits by (cbn; lia).
    f_equal. f_equal. lia.
Qed.

Lemma expect_cons c s : expect c (String c s) = Some s.
Proof. unfold expect. now rewrite Ascii.eqb_refl. Qed.

Lemma read2 n rest : 0 <= n <= 99 ->
  Str.readDigits 2 0 (Str.padDigits 2 n ++ rest) = Some (n, rest).
Proof. intros. rewrite readDigits_padDigits by (cbn; lia). f_equal. Qed.

Lemma read3 n rest : 0 <= n <= 999 ->
  Str.readDigits 3 0 (Str.padDigits 3 n ++ rest) = Some (n, rest).
Proof. intros. rewrite readDigits_padDigits by (cbn; lia). f_equal. Qed.

Lemma time_fields_range t :
  0 <= HourFromTime t <= 23 /\ 0 <= MinFromTime t <= 59
  /\ 0 <= SecFromTime t <= 59 /\ 0 <= msFromTime t <= 999.
Proof.
  unfold HourFromTime, MinFromTime, SecFromTime, msFromTime, msPerSecond.
  repeat split; Z.to_euclidean_division_equations; lia.
Qed.

Lemma InLeapYear_cases t : InLeapYear t = 0 \/ InLeapYear t = 1.
Proof.
  unfold InLeapYear. destruct (LeapOfYear_cases (YearFromTime t)) as [[-> _]|[-> _]]; auto.
Qed.

Lemma MakeDay_fields t :
  MakeDay (YearFromTime t) (MonthFromTime t) (DateFromTime t) = Day t.
Proof.
  unfold MakeDay, DateFromTime, MonthFromTime, DayWithinYear.
  fold (InLeapYear t). lia.
Qed.

(** the timestamp read back is the time value it was written from *)
Lemma canonicalMillis_canonicalText t :
  validTime t = true -> canonicalMillis (canonicalText t) = Some t.
Proof.
  intros Hv.
  pose proof (YearFromTime_range t Hv) as Hy.
  pose proof (month_date_range _ _ (InLeapYear_cases t) (DayWithinYear_range t)) as [Hm Hd].
  fold (MonthFromTime t) in Hm, Hd. fold (DateFromTime t) in Hd.
  pose proof (time_fields_range t) as (Hh & Hmi & Hs & Hms).
  assert (Hd31 : daysInMonth (MonthFromTime t) (InLeapYear t) <= 31).
  { unfold daysInMonth, monthStart.
    destruct (InLeapYear_cases t) as [-> | ->];
      repeat match goal with
             | |- context [if ?a =? ?b then _ else _] => destruct (Z.eqb_spec a b)
             end; lia. }
  unfold canonicalMillis, canonicalText.
  rewrite readYear_yearString by lia. cbn [andThen append].
  rewrite expect_cons. cbn [andThen].
  rewrite read2 by lia. cbn [andThen]. rewrite expect_cons. cbn [andThen].
  rewrite read2 by lia. cbn [andThen]. rewrite expect_cons. cbn [andThen].
  rewrite read2 by lia. cbn [andThen]. rewrite expect_cons. cbn [andThen].
  rewrite read2 by lia. cbn [andThen]. rewrite expect_cons. cbn [andThen].
  rewrite read2 by lia. cbn [andThen]. rewrite expect_cons. cbn [andThen].
  rewrite <- (str_app_nil_r (Str.padDigits 3 (msFromTime t))).
  rewrite read3 by lia. cbn [andThen String.eqb andb].
  replace (MonthFromTime t + 1 - 1) with (MonthFromTime t) by lia.
  fold (InLeapYear t).
  repeat match goal with
         | |- context [?a <=? ?b] => destruct (Z.leb_spec a b); [|lia]
         end.
  cbn [andb]. f_equal.
  rewrite MakeDay_fields. apply time_split.
Qed.

(** ** From the ISO text to the canonical text *)

Lemma dateUnit_padDigits k n :
  0 <= n < 10 ^ Z.of_nat k -> Str.allChars dateUnit (Str.padDigits k n) = true.
Proof.
  intros Hn. apply (allChars_weaken Str.isDigit); [|apply allDigits_padDigits; assumption].
  intros c Hc. unfold dateUnit. now rewrite Hc.
Qed.

Lemma dateUnit_yearString y :
  -999999 <= y <= 999999 -> Str.allChars dateUnit (yearString y) = true.
Proof.
  intros Hy. unfold yearString.
  destruct ((0 <=? y) && (y <=? 9999)) eqn:E.
  - apply andb_prop in E as [E1 E2]. apply Z.leb_le in E1, E2.
    apply dateUnit_padDigits. cbn; lia.
  - cbn [Str.allChars]. rewrite dateUnit_padDigits by (cbn; lia).
    destruct (y <? 0); reflexivity.
Qed.

Lemma stampUnit_of_dateUnit s :
  Str.allChars dateUnit s = true -> Str.allChars stampUnit s = true.
Proof.
  apply allChars_weaken. intros c Hc. unfold stampUnit. now rewrite Hc.
Qed.

Lemma dateUnit_not c x :
  dateUnit c = false -> Str.allChars dateUnit x = true ->
  Str.allChars (fun u => negb (Ascii.eqb c u)) x = true.
Proof.
  intros Hc. apply allChars_weaken. intros u Hu.
  destruct (Ascii.eqb_spec c u) as [->|]; [congruence | reflexivity].
Qed.

Lemma stampUnit_not c x :
  stampUnit c = false -> Str.allChars stampUnit x = true ->
  Str.allChars (fun u => negb (Ascii.eqb c u)) x = true.
Proof.
  intros Hc. apply allChars_weaken. intros u Hu.
  destruct (Ascii.eqb_spec c u) as [->|]; [congruence | reflexivity].
Qed.

Lemma date_fields_range t :
  validTime t = true ->
  -999999 <= YearFromTime t <= 999999
  /\ 0 <= MonthFromTime t + 1 <= 99 /\ 0 <= DateFromTime t <= 99.
Proof.
  intros Hv.
  pose proof (YearFromTime_range t Hv) as Hy.
  pose proof (month_date_range _ _ (InLeapYear_cases t) (DayWithinYear_range t)) as [Hm Hd].
  fold (MonthFromTime t) in Hm, Hd. fold (DateFromTime t) in Hd.
  assert (Hd31 : daysInMonth (MonthFromTime t) (InLeapYear t) <= 31).
  { unfold daysInMonth, monthStart.
    destruct (InLeapYear_cases t) as [-> | ->];
      repeat match goal with
             | |- context [if ?a =? ?b then _ else _] => destruct (Z.eqb_spec a b)
             end; lia. }
  lia.
Qed.

(** the date part and the time part of the texts of a valid instant *)
Lemma isoText_shape t :
  validTime t = true ->
  exists date time,
    isoText t = date ++ String "T" (time ++ "Z")
    /\ canonicalText t = date ++ " " ++ time
    /\ Str.allChars dateUnit date = true
    /\ Str.allChars stampUnit time = true.
Proof.
  intros Hv.
  pose proof (date_fields_range t Hv) as (Hy & Hm & Hd).
  pose proof (time_fields_range t) as (Hh & Hmi & Hs & Hms).
  exists (yearString (YearFromTime t) ++ "-" ++ Str.padDigits 2 (MonthFromTime t + 1)
            ++ "-" ++ Str.padDigits 2 (DateFromTime t)),
         (Str.padDigits 2 (HourFromTime t) ++ ":" ++ Str.padDigits 2 (MinFromTime t)
            ++ ":" ++ Str.padDigits 2 (SecFromTime t) ++ "." ++ Str.padDigits 3 (msFromTime t)).
  split; [|split; [|split]].
  - unfold isoText. rewrite !str_app_assoc. reflexivity.
  - unfold canonicalText. rewrite !str_app_assoc. reflexivity.
  - rewrite !allChars_app. cbn [Str.allChars].
    rewrite dateUnit_yearString, !dateUnit_padDigits by (cbn; lia). reflexivity.
  - rewrite !allChars_app. cbn [Str.allChars].
    rewrite !stampUnit_of_dateUnit by (apply dateUnit_padDigits; cbn; lia). reflexivity.
Qed.

Lemma pgTimestamp_valid t :
  validTime t = true ->
  Str.replaceFirst "Z" "" (Str.replaceFirst "T" " " (isoText t)) = canonicalText t.
Proof.
  intros Hv. destruct (isoText_shape t Hv) as (date & time & E1 & E2 & Hdate & Htime).
  rewrite E1, E2.
  rewrite replaceFirst_char by (apply dateUnit_not; [reflexivity | assumption]).
  replace (date ++ " " ++ time ++ "Z") with ((date ++ " " ++ time) ++ String "Z" "")
    by (rewrite !str_app_assoc; reflexivity).
  rewrite replaceFirst_char.
  - cbn [append]. now rewrite str_app_nil_r.
  - apply stampUnit_not; [reflexivity|].
    rewrite !allChars_app. cbn [Str.allChars].
    rewrite stampUnit_of_dateUnit, Htime by assumption. reflexivity.
Qed.

(** the text of [toISOString] holds no line feed *)
Lemma isoText_one_line t :
  validTime t = true ->
  Str.allChars (fun c => negb (Ascii.eqb (ascii_of_nat 10) c)) (isoText t) = true.
Proof.
  intros Hv. destruct (isoText_shape t Hv) as (date & time & E1 & _ & Hdate & Htime).
  rewrite E1. change (String "T" (time ++ "Z")) with ("T" ++ time ++ "Z").
  rewrite !allChars_app.
  rewrite (dateUnit_not _ date), (stampUnit_not _ time) by (reflexivity || assumption).
  reflexivity.
Qed.

(** ** The pattern matches every wrapped epoch text *)

Lemma isNumeral_inv ds :
  Wrapped.isNumeral ds = true ->
  exists d ds', ds = String d ds' /\ Str.isDigit d = true /\ Str.allDigits ds' = true.
Proof.
  unfold Wrapped.isNumeral, Str.allDigits. destruct ds as [|d ds']; cbn.
  - intros H. discriminate H.
  - rewrite andb_true_r. intros H. apply andb_prop in H as [H1 H2]. eauto.
Qed.

Lemma startsWith_app p x : Str.startsWith p (p ++ x) = true.
Proof.
  induction p as [|a p IH]; cbn; [reflexivity|].
  now rewrite Ascii.eqb_refl, IH.
Qed.

Lemma drop_app p x : Str.drop (String.length p) (p ++ x) = x.
Proof. induction p as [|a p IH]; cbn; [reflexivity | exact IH]. Qed.

Lemma take_app a b :
  Str.take (String.length (a ++ b) - String.length b) (a ++ b) = a.
Proof.
  rewrite str_length_app.
  replace (String.length a + String.length b - String.length b)%nat
    with (String.length a) by lia.
  induction a as [|x a IH]; cbn.
  - destruct b; reflexivity.
  - now rewrite IH.
Qed.

Lemma run_Lit_app p x caps k : run (Lit p) (p ++ x) caps k = k x caps.
Proof. cbn [run]. now rewrite startsWith_app, drop_app. Qed.

Lemma repeatGreedy_stop k fuel rest caps :
  headIsDigit rest = false -> repeatGreedy (run Digit) k fuel rest caps = None.
Proof.
  intros Hr. destruct fuel as [|f]; [reflexivity|].
  cbn [repeatGreedy run]. destruct rest as [|c r]; [reflexivity|].
  cbn in Hr. now rewrite Hr.
Qed.

(** a greedy run of digits takes every digit there is, when what follows
    the [+] accepts the rest *)
Lemma repeatGreedy_digits k rest c : forall ds fuel caps,
  Wrapped.isNumeral ds = true ->
  (String.length ds < fuel)%nat ->
  headIsDigit rest = false ->
  k rest caps = Some c ->
  repeatGreedy (run Digit) k fuel (ds ++ rest) caps = Some c.
Proof.
  induction ds as [|d ds IH]; intros fuel caps Hds Hfuel Hrest Hk.
  - discriminate Hds.
  - apply isNumeral_inv in Hds as (d0 & ds0 & E & Hd & Hall). injection E as <- <-.
    destruct fuel as [|f]; [cbn in Hfuel; lia|].
    cbn [append repeatGreedy run]. rewrite Hd.
    destruct ds as [|d1 ds1].
    + cbn [append]. now rewrite repeatGreedy_stop.
    + rewrite IH; [reflexivity| |cbn in *; lia|assumption|assumption].
      unfold Wrapped.isNumeral. now rewrite Hall.
Qed.

Lemma run_Plus_digits ds rest caps k c :
  Wrapped.isNumeral ds = true ->
  headIsDigit rest = false ->
  k rest caps = Some c ->
  run (Plus Digit) (ds ++ rest) caps k = Some c.
Proof.
  intros Hds Hrest Hk. cbn [run].
  apply repeatGreedy_digits; try assumption.
  rewrite str_length_app. lia.
Qed.


Lemma run_Seq a b s caps k :
  run (Seq a b) s caps k = run a s caps (fun s1 c1 => run b s1 c1 k).
Proof. reflexivity. Qed.

Lemma run_Opt r s caps k :
  run (Opt r) s caps k = match run r s caps k with Some c => Some c | None => k s caps end.
Proof. reflexivity. Qed.

Lemma run_Group i r s caps k :
  run (Group i r) s caps k
  = run r s caps (fun s1 c1 =>
      k s1 ((i, Str.take (String.length s - String.length s1) s) :: c1)).
Proof. reflexivity. Qed.

Lemma run_Lit_miss p s caps k :
  Str.startsWith p s = false -> run (Lit p) s caps k = None.
Proof. intros E. cbn [run]. now rewrite E. Qed.

Lemma run_OneOf cs c s caps k :
  run (OneOf cs) (String c s) caps k
  = if existsb (Ascii.eqb c) cs then k s caps else None.
Proof. reflexivity. Qed.

Lemma run_group1 neg ds rest k c :
  Wrapped.isNumeral ds = true ->
  headIsDigit rest = false ->
  k rest [(1%nat, Wrapped.signText neg ++ ds)] = Some c ->
  run group1 (Wrapped.signText neg ++ ds ++ rest) [] k = Some c.
Proof.
  intros Hds Hrest Hk. unfold group1.
  rewrite run_Group, run_Seq, run_Opt.
  set (k1 := fun (s1 : string) (c1 : Caps) =>
               k s1 ((1%nat, Str.take (String.length (Wrapped.signText neg ++ ds ++ rest)
                                       - String.length s1)
                               (Wrapped.signText neg ++ ds ++ rest)) :: c1)).
  assert (Hplus : run (Plus Digit) (ds ++ rest) [] k1 = Some c).
  { apply run_Plus_digits; try assumption.
    subst k1. cbv beta. rewrite <- str_app_assoc, take_app. assumption. }
  destruct neg; cbn [Wrapped.signText].
  - change ("-" ++ ds ++ rest) with ("-" ++ (ds ++ rest)).
    rewrite run_Lit_app, Hplus. reflexivity.
  - change ("" ++ ds ++ rest) with (ds ++ rest).
    rewrite run_Lit_miss, Hplus; [reflexivity|].
    destruct (isNumeral_inv ds Hds) as (d & ds' & -> & Hd & _).
    cbn [append Str.startsWith].
    destruct (Ascii.eqb_spec "-"%char d) as [<-|]; [discriminate Hd | reflexivity].
Qed.

Lemma run_tail off post caps :
  Wrapped.offsetOk off = true ->
  exists c, run (Seq (Opt group2) (Lit ")/")) (Wrapped.offsetText off ++ ")/" ++ post) caps
                (fun _ c => Some c) = Some c
            /\ getCap 1 c = getCap 1 caps.
Proof.
  intros Hoff. rewrite run_Seq, run_Opt. destruct off as [[plus od]|].
  - exists ((2%nat, Wrapped.offsetText (Some (plus, od))) :: caps). split; [|reflexivity].
    unfold group2. rewrite run_Group, run_Seq.
    cbn [Wrapped.offsetText].
    change (String ?x od ++ ")/" ++ post) with (String x (od ++ ")/" ++ post)).
    rewrite run_OneOf.
    assert (E : existsb (Ascii.eqb (if plus then "+"%char else "-"%char)) ["+"%char; "-"%char] = true)
      by (destruct plus; reflexivity).
    rewrite E.
    erewrite run_Plus_digits; [reflexivity|assumption|reflexivity|].
    rewrite run_Lit_app.
    change (String ?x (od ++ ")/" ++ post)) with (String x od ++ (")/" ++ post)).
    rewrite take_app. reflexivity.
  - exists caps. split; reflexivity.
Qed.

Lemma headIsDigit_tail off post : headIsDigit (Wrapped.offsetText off ++ ")/" ++ post) = false.
Proof. destruct off as [[[] od]|]; reflexivity. Qed.

(** the pattern matches where a wrapped epoch text starts, and its first
    group is the numeral *)
Lemma matchHere_wrapped neg ds off post :
  Wrapped.wellFormed ds off = true ->
  exists m, matchHere sfDatePattern (Wrapped.text neg ds off ++ post) = Some m
            /\ getCap 1 m = Some (Wrapped.signText neg ++ ds).
Proof.
  intros Hwf. apply andb_prop in Hwf as [Hds Hoff].
  destruct (run_tail off post [(1%nat, Wrapped.signText neg ++ ds)] Hoff) as (c & Hc & Hcap).
  exists c. split; [|rewrite Hcap; cbn; reflexivity].
  unfold matchHere, sfDatePattern, Wrapped.text.
  rewrite !str_app_assoc.
  rewrite run_Seq, run_Lit_app, run_Seq.
  apply (run_group1 neg ds); [assumption|apply headIsDigit_tail|].
  exact Hc.
Qed.

Lemma search_wrapped neg ds off :
  Wrapped.wellFormed ds off = true ->
  exists m, search sfDatePattern (Wrapped.text neg ds off) = Some m
            /\ getCap 1 m = Some (Wrapped.signText neg ++ ds).
Proof.
  intros Hwf. destruct (matchHere_wrapped neg ds off "" Hwf) as (m & Hm & Hcap).
  rewrite str_app_nil_r in Hm. exists m. split; [|exact Hcap].
  destruct (Wrapped.text neg ds off); cbn [search]; rewrite Hm; reflexivity.
Qed.

(** the search finds a match in every string that holds a wrapped epoch
    text *)
Lemma search_complete s : Wrapped.occursIn s -> exists m, search sfDatePattern s = Some m.
Proof.
  intros (pre & neg & ds & off & post & Hwf & ->).
  destruct (matchHere_wrapped neg ds off post Hwf) as (m & Hm & _).
  induction pre as [|c pre IH].
  - exists m. cbn [append].
    destruct (Wrapped.text neg ds off ++ post); cbn [search]; rewrite Hm; reflexivity.
  - cbn [append search].
    destruct (matchHere sfDatePattern (String c _)) as [m'|]; [eauto | exact IH].
Qed.

(** ** The pattern matches nothing else *)

Lemma startsWith_inv p : forall s,
  Str.startsWith p s = true -> s = p ++ Str.drop (String.length p) s.
Proof.
  induction p as [|a p IH]; intros s Hs; [reflexivity|].
  destruct s as [|b s]; [discriminate Hs|].
  cbn in Hs. apply andb_prop in Hs as [Hab Hrest].
  apply Ascii.eqb_eq in Hab. subst b. cbn. f_equal. now apply IH.
Qed.

Lemma run_Lit_inv p s caps k c :
  run (Lit p) s caps k = Some c ->
  exists x, s = p ++ x /\ k x caps = Some c.
Proof.
  cbn [run]. destruct (Str.startsWith p s) eqn:E; [|discriminate].
  intros Hk. exists (Str.drop (String.length p) s). split; [now apply startsWith_inv | exact Hk].
Qed.

Lemma run_Digit_inv s caps k c :
  run Digit s caps k = Some c ->
  exists d x, s = String d x /\ Str.isDigit d = true /\ k x caps = Some c.
Proof.
  cbn [run]. destruct s as [|d x]; [discriminate|].
  destruct (Str.isDigit d) eqn:E; [|discriminate]. eauto.
Qed.

Lemma run_OneOf_inv cs s caps k c :
  run (OneOf cs) s caps k = Some c ->
  exists d x, s = String d x /\ existsb (Ascii.eqb d) cs = true /\ k x caps = Some c.
Proof.
  cbn [run]. destruct s as [|d x]; [discriminate|].
  destruct (existsb (Ascii.eqb d) cs) eqn:E; [|discriminate]. eauto.
Qed.

Lemma isNumeral_cons d ds :
  Str.isDigit d = true -> Str.allDigits ds = true -> Wrapped.isNumeral (String d ds) = true.
Proof.
  intros Hd Hds. unfold Wrapped.isNumeral, Str.allDigits in *. cbn. now rewrite Hd, Hds.
Qed.

Lemma isNumeral_allDigits ds : Wrapped.isNumeral ds = true -> Str.allDigits ds = true.
Proof. unfold Wrapped.isNumeral. intros E. now apply andb_prop in E as [E _]. Qed.

(** what a greedy run of digits took is a numeral *)
Lemma repeatGreedy_inv k c : forall fuel s caps,
  repeatGreedy (run Digit) k fuel s caps = Some c ->
  exists ds x, Wrapped.isNumeral ds = true /\ s = ds ++ x /\ k x caps = Some c.
Proof.
  induction fuel as [|fuel IH]; intros s caps Hr; [discriminate Hr|].
  cbn [repeatGreedy] in Hr.
  apply run_Digit_inv in Hr as (d & x & -> & Hd & Hk).
  destruct (repeatGreedy (run Digit) k fuel x caps) as [c'|] eqn:Er.
  - injection Hk as ->. destruct (IH _ _ Er) as (ds & x' & Hds & -> & Hk').
    exists (String d ds), x'. split; [|split; [reflexivity | exact Hk']].
    apply isNumeral_cons; [assumption | now apply isNumeral_allDigits].
  - exists (String d ""), x. split; [|split; [reflexivity | exact Hk]].
    now apply isNumeral_cons.
Qed.

Lemma run_Plus_inv s caps k c :
  run (Plus Digit) s caps k = Some c ->
  exists ds x, Wrapped.isNumeral ds = true /\ s = ds ++ x /\ k x caps = Some c.
Proof. cbn [run]. apply repeatGreedy_inv. Qed.

Lemma sign_of_class d :
  existsb (Ascii.eqb d) ["+"%char; "-"%char] = true ->
  exists plus : bool, d = if plus then "+"%char else "-"%char.
Proof.
  cbn [existsb]. rewrite orb_false_r. intros E. apply orb_prop in E as [E|E];
    apply Ascii.eqb_eq in E; subst d; [exists true | exists false]; reflexivity.
Qed.

(** where the pattern matches, a wrapped epoch text starts *)
Lemma matchHere_inv s m :
  matchHere sfDatePattern s = Some m ->
  exists neg ds off post,
    Wrapped.wellFormed ds off = true /\ s = Wrapped.text neg ds off ++ post.
Proof.
  unfold matchHere, sfDatePattern. rewrite run_Seq. intros Hm.
  apply run_Lit_inv in Hm as (x1 & -> & Hm).
  rewrite run_Seq, run_Group, run_Seq, run_Opt in Hm.
  assert (Hnum : exists neg ds x3 caps,
            Wrapped.isNumeral ds = true
            /\ x1 = Wrapped.signText neg ++ ds ++ x3
            /\ run (Seq (Opt group2) (Lit ")/")) x3 caps (fun _ c => Some c) = Some m).
  { match type of Hm with
    | match ?r with Some _ => _ | None => _ end = _ => destruct r as [c|] eqn:Eopt
    end.
    - injection Hm as ->. apply run_Lit_inv in Eopt as (x2 & -> & Hplus).
      apply run_Plus_inv in Hplus as (ds & x3 & Hds & -> & Hk).
      exists true, ds, x3. eexists. split; [assumption|]. split; [reflexivity | exact Hk].
    - apply run_Plus_inv in Hm as (ds & x3 & Hds & -> & Hk).
      exists false, ds, x3. eexists. split; [assumption|]. split; [reflexivity | exact Hk]. }
  destruct Hnum as (neg & ds & x3 & caps & Hds & -> & Htail).
  rewrite run_Seq, run_Opt in Htail.
  match type of Htail with
  | match ?r with Some _ => _ | None => _ end = _ => destruct r as [c|] eqn:Eopt
  end.
  - injection Htail as ->. unfold group2 in Eopt.
    rewrite run_Group, run_Seq in Eopt.
    apply run_OneOf_inv in Eopt as (sg & x4 & -> & Hsg & Hplus).
    apply sign_of_class in Hsg as (plus & ->).
    apply run_Plus_inv in Hplus as (ods & x5 & Hods & -> & Hk).
    apply run_Lit_inv in Hk as (post & -> & _).
    exists neg, ds, (Some (plus, ods)), post. split.
    + unfold Wrapped.wellFormed, Wrapped.offsetOk. now rewrite Hds, Hods.
    + unfold Wrapped.text. cbn [Wrapped.offsetText].
      rewrite ?str_app_assoc. cbn [append]. rewrite ?str_app_assoc. reflexivity.
  - apply run_Lit_inv in Htail as (post & -> & _).
    exists neg, ds, None, post. split.
    + unfold Wrapped.wellFormed. now rewrite Hds.
    + unfold Wrapped.text. cbn [Wrapped.offsetText].
      rewrite ?str_app_assoc. cbn [append]. rewrite ?str_app_assoc. reflexivity.
Qed.

(** the search finds a match only in a string that holds a wrapped epoch
    text *)
Lemma search_sound : forall s m,
  search sfDatePattern s = Some m -> Wrapped.occursIn s.
Proof.
  induction s as [|c s IH]; intros m Hs; cbn [search] in Hs.
  - destruct (matchHere sfDatePattern "") as [m'|] eqn:Em; [|discriminate Hs].
    apply matchHere_inv in Em as (neg & ds & off & post & Hwf & E).
    exists "", neg, ds, off, post. split; [assumption | exact E].
  - destruct (matchHere sfDatePattern (String c s)) as [m'|] eqn:Em.
    + apply matchHere_inv in Em as (neg & ds & off & post & Hwf & E).
      exists "", neg, ds, off, post. split; [assumption | exact E].
    + destruct (IH m Hs) as (pre & neg & ds & off & post & Hwf & ->).
      exists (String c pre), neg, ds, off, post. split; [assumption | reflexivity].
Qed.

Lemma search_none s : ~ Wrapped.occursIn s -> search sfDatePattern s = None.
Proof.
  intros Hno. destruct (search sfDatePattern s) as [m|] eqn:E; [|reflexivity].
  exfalso. apply Hno. eapply search_sound. exact E.
Qed.

(** ** [parseSFDate] on wrapped epoch texts *)

Lemma spanDigits_all ds : Str.allDigits ds = true -> Str.spanDigits ds = (ds, "").
Proof.
  unfold Str.allDigits. induction ds as [|d ds IH]; cbn; [reflexivity|].
  intros H. apply andb_prop in H as [Hd Hds]. now rewrite Hd, IH.
Qed.

Lemma parseInt10_unsigned d ds :
  Str.isDigit d = true -> Str.allDigits ds = true ->
  parseInt10 (String d ds) = Some (Str.digitsVal 0 (String d ds)).
Proof.
  intros Hd Hds. unfold parseInt10.
  assert (Hspan : Str.spanDigits (String d ds) = (String d ds, "")).
  { apply spanDigits_all. unfold Str.allDigits. cbn. now rewrite Hd. }
  assert (Hws : isWhiteSpace d = false).
  { destruct d as [[] [] [] [] [] [] [] []]; try discriminate Hd; reflexivity. }
  cbn [skipWhiteSpace]. rewrite Hws.
  destruct d as [[] [] [] [] [] [] [] []]; try discriminate Hd;
    cbv iota beta; rewrite Hspan; reflexivity.
Qed.

Lemma parseInt10_numeral neg ds :
  Wrapped.isNumeral ds = true ->
  parseInt10 (Wrapped.signText neg ++ ds) = Some (Wrapped.value neg ds).
Proof.
  intros Hds. destruct (isNumeral_inv ds Hds) as (d & ds' & -> & Hd & Hall).
  destruct neg; cbn [Wrapped.signText Wrapped.value append].
  - unfold parseInt10.
    change (skipWhiteSpace (String "-" (String d ds'))) with (String "-" (String d ds')).
    cbv iota beta.
    rewrite spanDigits_all by (unfold Str.allDigits; cbn; now rewrite Hd).
    reflexivity.
  - now apply parseInt10_unsigned.
Qed.

Lemma pgTimestamp_TimeClip t :
  ESDate.validTime t = true ->
  pgTimestamp (ESDate.TimeClip t) = Ok (ESDate.canonicalText t).
Proof.
  intros Hv. unfold pgTimestamp, ESDate.TimeClip. rewrite Hv.
  unfold ESDate.toISOString. rewrite Hv. cbn [bind].
  now rewrite pgTimestamp_valid.
Qed.

Lemma pgTimestamp_invalid t :
  ESDate.validTime t = false -> pgTimestamp (ESDate.TimeClip t) = Throw RangeError.
Proof. intros Hv. unfold pgTimestamp, ESDate.TimeClip. now rewrite Hv. Qed.

Section ParseDate.
Context `{Runtime}.

Lemma parseSFDate_wrapped neg ds off :
  Wrapped.wellFormed ds off = true ->
  parseSFDate (VStr (Wrapped.text neg ds off))
  = bind (pgTimestamp (ESDate.TimeClip (Wrapped.value neg ds))) (fun text => Ok (Some text)).
Proof.
  intros Hwf.
  destruct (search_wrapped neg ds off Hwf) as (m & Hm & Hcap).
  unfold parseSFDate.
  change (truthy (VStr (Wrapped.text neg ds off))) with true. cbn [negb].
  rewrite Hm, Hcap. cbn [ESDate.andThen].
  apply andb_prop in Hwf as [Hds _].
  rewrite parseInt10_numeral by assumption. reflexivity.
Qed.

(** C1 (as amended).  For every wrapped epoch text [/Date(N)/] or
    [/Date(N+offset)/], [N] written with an optional minus sign and any
    run of digits and lying in the range of time values a Date holds
    ([-8.64e15 <= N <= 8.64e15]), [parseSFDate] returns the canonical
    space-separated timestamp of [N]; read back, that timestamp denotes
    exactly [N] epoch milliseconds.  The offset plays no part. *)
Theorem parseSFDate_wrapped_epoch_roundtrip
        (negative : bool) (digits : string) (offset : option (bool * string)) :
  Wrapped.wellFormed digits offset = true ->
  ESDate.validTime (Wrapped.value negative digits) = true ->
  exists text,
    parseSFDate (VStr (Wrapped.text negative digits offset)) = Ok (Some text)
    /\ text = ESDate.canonicalText (Wrapped.value negative digits)
    /\ ESDate.canonicalMillis text = Some (Wrapped.value negative digits).
Proof.
  intros Hwf Hv. exists (ESDate.canonicalText (Wrapped.value negative digits)).
  split; [|split; [reflexivity|]].
  - rewrite parseSFDate_wrapped by assumption.
    now rewrite pgTimestamp_TimeClip.
  - now apply canonicalMillis_canonicalText.
Qed.

End ParseDate.

(** ** Integers in decimal *)

Lemma digitsVal_app : forall a b acc,
  Str.digitsVal acc (a ++ b) = Str.digitsVal (Str.digitsVal acc a) b.
Proof. induction a as [|c a IH]; intros b acc; cbn; [reflexivity | apply IH]. Qed.

Lemma isNumeral_snoc ds d :
  Wrapped.isNumeral ds = true -> Str.isDigit d = true ->
  Wrapped.isNumeral (ds ++ String d "") = true.
Proof.
  intros Hds Hd. unfold Wrapped.isNumeral, Str.allDigits in *.
  apply andb_prop in Hds as [Hall _].
  rewrite allChars_app, Hall. cbn [Str.allChars]. rewrite Hd.
  destruct ds; reflexivity.
Qed.

(** the digits [natDigits] puts in front of its accumulator are a numeral
    of [n] *)
Lemma natDigits_numeral : forall fuel n acc,
  0 <= n < 10 ^ Z.of_nat (S fuel) ->
  exists ds,
    Str.natDigits (S fuel) n acc = ds ++ acc
    /\ Wrapped.isNumeral ds = true
    /\ Str.digitsVal 0 ds = n.
Proof.
  induction fuel as [|fuel IH]; intros n acc Hn.
  - change (10 ^ Z.of_nat 1) with 10 in Hn.
    exists (String (Str.digitChar (n mod 10)) "").
    assert (Hq : n / 10 = 0) by (apply Z.div_small; lia).
    assert (Hm : n mod 10 = n) by (apply Z.mod_small; lia).
    cbn [Str.natDigits]. rewrite Hq, Hm. cbn [Z.eqb append].
    split; [destruct (0 =? 0); reflexivity|]. split.
    + apply isNumeral_cons; [apply isDigit_digitChar; lia | reflexivity].
    + cbn [Str.digitsVal]. rewrite digitVal_digitChar by lia. lia.
  - rewrite pow10_succ in Hn.
    assert (Hd : 0 <= n mod 10 <= 9) by (pose proof (Z.mod_pos_bound n 10); lia).
    change (Str.natDigits (S (S fuel)) n acc)
      with (if n / 10 =? 0 then String (Str.digitChar (n mod 10)) acc
            else Str.natDigits (S fuel) (n / 10) (String (Str.digitChar (n mod 10)) acc)).
    destruct (Z.eqb_spec (n / 10) 0) as [Hq|Hq].
    + exists (String (Str.digitChar (n mod 10)) "").
      split; [reflexivity|]. split.
      * apply isNumeral_cons; [now apply isDigit_digitChar | reflexivity].
      * cbn [Str.digitsVal]. rewrite digitVal_digitChar by assumption.
        pose proof (Z.div_mod n 10). lia.
    + destruct (IH (n / 10) (String (Str.digitChar (n mod 10)) acc)) as (ds & E & Hds & Hv).
      { split; [apply Z.div_pos; lia | apply Z.div_lt_upper_bound; lia]. }
      exists (ds ++ String (Str.digitChar (n mod 10)) "").
      split; [rewrite E, str_app_assoc; reflexivity|]. split.
      * apply isNumeral_snoc; [assumption | now apply isDigit_digitChar].
      * rewrite digitsVal_app, Hv. cbn [Str.digitsVal].
        rewrite digitVal_digitChar by assumption.
        pose proof (Z.div_mod n 10). lia.
Qed.

Lemma log2_bound n : 0 <= n -> n < 10 ^ Z.of_nat (S (Z.to_nat (Z.log2 n))).
Proof.
  intros Hn. destruct (Z.eq_dec n 0) as [->|Hne]; [reflexivity|].
  pose proof (Z.log2_nonneg n) as Hl.
  assert (Hlt : n < 2 ^ Z.succ (Z.log2 n)) by (apply Z.log2_spec; lia).
  rewrite Nat2Z.inj_succ, Z2Nat.id by assumption.
  eapply Z.lt_le_trans; [exact Hlt|].
  apply Z.pow_le_mono_l. lia.
Qed.

(** the decimal rendering of an integer is a sign and a numeral *)
Lemma ofZ_numeral z :
  exists ds,
    Str.ofZ z = Wrapped.signText (z <? 0) ++ ds
    /\ Wrapped.isNumeral ds = true
    /\ Wrapped.value (z <? 0) ds = z.
Proof.
  destruct (natDigits_numeral (Z.to_nat (Z.log2 (Z.abs z))) (Z.abs z) "") as (ds & E & Hds & Hv).
  { split; [apply Z.abs_nonneg | apply log2_bound, Z.abs_nonneg]. }
  rewrite str_app_nil_r in E.
  exists ds. unfold Str.ofZ, Wrapped.value. rewrite E, Hv.
  destruct (Z.ltb_spec z 0); cbn [Wrapped.signText append]; repeat split; try assumption; lia.
Qed.

Section ParseInteger.
Context `{Runtime}.

(** C1 read with [N] in decimal: for every integer [N] in the range of
    time values, and any offset, [/Date(N)/] gives the timestamp of [N] *)
Lemma parseSFDate_epoch_of_integer (N : Z) (offset : option (bool * string)) :
  Wrapped.offsetOk offset = true ->
  ESDate.validTime N = true ->
  parseSFDate (VStr ("/Date(" ++ Str.ofZ N ++ Wrapped.offsetText offset ++ ")/"))
  = Ok (Some (ESDate.canonicalText N))
  /\ ESDate.canonicalMillis (ESDate.canonicalText N) = Some N.
Proof.
  intros Hoff Hv. destruct (ofZ_numeral N) as (ds & E & Hds & Hval).
  split; [|now apply canonicalMillis_canonicalText].
  assert (Hwf : Wrapped.wellFormed ds offset = true).
  { unfold Wrapped.wellFormed in *. rewrite Hds. exact Hoff. }
  pose proof (parseSFDate_wrapped (N <? 0) ds offset Hwf) as Hp.
  unfold Wrapped.text in Hp. rewrite E, str_app_assoc.
  rewrite Hp, Hval. now rewrite pgTimestamp_TimeClip.
Qed.

End ParseInteger.

(** ** What the fetcher does to the world *)

Lemma extends_refl w : extends w w [].
Proof. unfold extends. rewrite List.app_nil_r. cbn. repeat split; lia. Qed.

Lemma requestsOf_app a b : requestsOf (a ++ b) = (requestsOf a ++ requestsOf b)%list.
Proof.
  induction a as [|[] a IH]; cbn; try assumption; [reflexivity | now rewrite IH].
Qed.

Lemma sleepsOf_app a b : sleepsOf (a ++ b) = (sleepsOf a ++ sleepsOf b)%list.
Proof.
  induction a as [|[] a IH]; cbn; try assumption; [reflexivity | now rewrite IH].
Qed.

Lemma writesOf_app a b : writesOf (a ++ b) = (writesOf a ++ writesOf b)%list.
Proof.
  induction a as [|[] a IH]; cbn; try assumption; [reflexivity | now rewrite IH].
Qed.

Lemma extends_trans w1 w2 w3 e1 e2 :
  extends w1 w2 e1 -> extends w2 w3 e2 -> extends w1 w3 (e1 ++ e2).
Proof.
  intros (A1 & C1 & T1 & S1) (A2 & C2 & T2 & S2). unfold extends.
  rewrite A2, C2, T2, T1, S2, S1, requestsOf_app, List.length_app, List.app_assoc.
  repeat split; try assumption; lia.
Qed.

Lemma extends_ticks w w' evs w'' :
  sameButTicks w w' -> extends w' w'' evs -> extends w w'' evs.
Proof.
  intros (A & S & C & F & T) (A2 & C2 & T2 & S2). unfold extends.
  rewrite A2, C2, T2, S2, A, C, T, S. repeat split.
Qed.

Section Frames.
Context `{Runtime}.
Variable config : Config.

Lemma buildDateFilter_frame sd ed w :
  sameButTicks w (snd (SfApi.buildDateFilter sd ed w)).
Proof.
  unfold SfApi.buildDateFilter.
  destruct (truthy (SfApi.formatDate sd) && truthy (SfApi.formatDate ed));
    [cbn; repeat split|].
  destruct (truthy (SfApi.formatDate sd)); [cbn; repeat split|].
  destruct (truthy (SfApi.formatDate ed)); [cbn; repeat split|].
  unfold SfApi.getYesterdayDateTime, bindM, readClock, lift, ret.
  destruct (ESDate.toISOString _); cbn; repeat split.
Qed.

Lemma buildDateFilter_sane sd ed w :
  Sync.ClockSane (clock w) ->
  exists filter, fst (SfApi.buildDateFilter sd ed w) = Ok filter.
Proof.
  intros Hc. unfold SfApi.buildDateFilter.
  destruct (truthy (SfApi.formatDate sd) && truthy (SfApi.formatDate ed));
    [cbn; eauto|].
  destruct (truthy (SfApi.formatDate sd)); [cbn; eauto|].
  destruct (truthy (SfApi.formatDate ed)); [cbn; eauto|].
  unfold SfApi.getYesterdayDateTime, bindM, readClock, lift, ret.
  destruct (Hc (ticks w)) as [_ Hv].
  unfold ESDate.TimeClip, ESDate.toISOString. rewrite Hv, Hv. cbn. eauto.
Qed.

(** the retry loop only sends requests and waits *)
Lemma attemptLoop_frame params : forall rounds attempt lastError w,
  exists evs,
    extends w (snd (SfApi.attemptLoop config rounds attempt params lastError w)) evs
    /\ writesOf evs = []
    /\ fsExists (snd (SfApi.attemptLoop config rounds attempt params lastError w)) = fsExists w.
Proof.
  induction rounds as [|rounds IH]; intros attempt lastError w.
  - exists []. cbn. split; [apply extends_refl | split; reflexivity].
  - cbn [SfApi.attemptLoop].
    destruct (attempt <=? request_retryAttempts config);
      [|exists []; cbn; split; [apply extends_refl | split; reflexivity]].
    unfold httpGet.
    set (w1 := emit (EvRequest params) _).
    assert (E1 : extends w w1 [EvRequest params]).
    { subst w1. unfold extends, emit. cbn. repeat split. lia. }
    destruct (api w (sent w)) as [data|error].
    + exists [EvRequest params]. cbn [snd]. split; [exact E1 | split; reflexivity].
    + destruct (SfApi.isRetryable error && (attempt <? request_retryAttempts config)).
      * set (w2 := snd (sleep _ w1)).
        assert (E2 : extends w1 w2 [EvSleep (request_retryDelay config * 2 ^ (attempt - 1))]).
        { subst w2. unfold extends, sleep, emit. cbn. repeat split. lia. }
        destruct (IH (attempt + 1) (Some error) w2) as (evs & E3 & W3 & F3).
        eexists. split; [eapply extends_trans; [exact E1|eapply extends_trans; [exact E2|exact E3]]|].
        split; [cbn; exact W3 | rewrite F3; reflexivity].
      * exists [EvRequest params]. cbn [snd]. split; [exact E1 | split; reflexivity].
Qed.

End Frames.

(** ** Retry and backoff *)

Section Retry.
Context `{Runtime}.
Variable config : Config.

(** C4.  When the first two attempts of a page request are rejected with
    retryable errors and the third is answered, [fetchPositions] sends
    exactly three requests, all with the same [$skip] and [$top], waits
    exactly twice, the [i]-th wait lasting [retryDelay * 2^(i-1)], so the
    second twice the first, and returns the page.  The configuration has
    the ceiling 3 and the base delay 1000. *)
Theorem fetchPositions_retries_with_backoff
        (top skip : Z) (sd ed : Value) (w : World) (e1 e2 : HttpError) (data : Value)
        (filter : string) :
  3 <= request_retryAttempts config ->
  fst (SfApi.buildDateFilter sd ed w) = Ok filter ->
  api w (sent w) = Rejected e1 -> SfApi.isRetryable e1 = true ->
  api w (S (sent w)) = Rejected e2 -> SfApi.isRetryable e2 = true ->
  api w (S (S (sent w))) = Resolved data ->
  let request := {| req_select := selectFields config; req_top := top;
                    req_skip := skip; req_filter := filter |} in
  let delay := request_retryDelay config in
  exists w',
    SfApi.fetchPositions config top skip sd ed w = (Ok (SfApi.resultsOf data), w')
    /\ trace w' = (trace w ++ [EvRequest request; EvSleep (delay * 2 ^ (1 - 1));
                               EvRequest request; EvSleep (delay * 2 ^ (2 - 1));
                               EvRequest request])%list
    /\ delay * 2 ^ (2 - 1) = 2 * (delay * 2 ^ (1 - 1))
    /\ (forall env, request_retryAttempts (Cfg.config env) = 3
                    /\ request_retryDelay (Cfg.config env) = 1000).
Proof.
  intros HRA Hf H1 R1 H2 R2 H3 request delay.
  pose proof (buildDateFilter_frame sd ed w) as (A & S & C & F & T).
  unfold SfApi.fetchPositions, bindM.
  destruct (SfApi.buildDateFilter sd ed w) as [r w0] eqn:E0.
  cbn [fst snd] in *. subst r.
  fold request.
  destruct (Z.to_nat (request_retryAttempts config)) as [|[|[|n]]] eqn:En; try lia.
  assert (L1 : (1 <=? request_retryAttempts config) = true) by (apply Z.leb_le; lia).
  assert (L2 : (1 + 1 <=? request_retryAttempts config) = true) by (apply Z.leb_le; lia).
  assert (L3 : (1 + 1 + 1 <=? request_retryAttempts config) = true) by (apply Z.leb_le; lia).
  assert (M1 : (1 <? request_retryAttempts config) = true) by (apply Z.ltb_lt; lia).
  assert (M2 : (1 + 1 <? request_retryAttempts config) = true) by (apply Z.ltb_lt; lia).
  cbn [SfApi.attemptLoop]. rewrite L1.
  unfold httpGet at 1. rewrite A, S, H1, R1, M1. cbn [andb].
  cbn [SfApi.attemptLoop sleep snd emit api sent clock ticks fsExists trace]. rewrite L2.
  unfold httpGet at 1.
  cbn [emit api sent clock ticks fsExists trace]. rewrite ?A, ?S, H2, R2, M2. cbn [andb].
  cbn [SfApi.attemptLoop sleep snd emit api sent clock ticks fsExists trace]. rewrite L3.
  unfold httpGet at 1.
  cbn [emit api sent clock ticks fsExists trace]. rewrite ?A, ?S, H3.
  eexists. split; [reflexivity|].
  split.
  - cbn [emit trace]. rewrite T. rewrite <- !List.app_assoc. reflexivity.
  - split; [|intros env; split; reflexivity].
    change (2 - 1) with 1. change (1 - 1) with 0. lia.
Qed.

End Retry.

(** ** One round of the pagination loop *)

Section Rounds.
Context `{Runtime}.
Variable config : Config.

(** a request answered at the first attempt *)
Lemma fetchPositions_first_try top skip sd ed w data :
  1 <= request_retryAttempts config ->
  Sync.ClockSane (clock w) ->
  api w (sent w) = Resolved data ->
  exists w' filter,
    SfApi.fetchPositions config top skip sd ed w = (Ok (SfApi.resultsOf data), w')
    /\ api w' = api w /\ clock w' = clock w /\ sent w' = S (sent w)
    /\ fsExists w' = fsExists w
    /\ trace w' = (trace w ++ [EvRequest {| req_select := selectFields config; req_top := top;
                                            req_skip := skip; req_filter := filter |}])%list.
Proof.
  intros HRA Hc Hd.
  destruct (buildDateFilter_sane sd ed w Hc) as (filter & Hf).
  pose proof (buildDateFilter_frame sd ed w) as (A & S & C & F & T).
  unfold SfApi.fetchPositions, bindM.
  destruct (SfApi.buildDateFilter sd ed w) as [r w0] eqn:E0.
  cbn [fst snd] in *. subst r.
  destruct (Z.to_nat (request_retryAttempts config)) as [|n] eqn:En; try lia.
  assert (L1 : (1 <=? request_retryAttempts config) = true) by (apply Z.leb_le; lia).
  cbn [SfApi.attemptLoop]. rewrite L1.
  unfold httpGet. rewrite A, S, Hd.
  eexists. exists filter. split; [reflexivity|].
  cbn [emit api sent clock ticks fsExists trace]. rewrite ?A, ?C, ?S, ?F, ?T. repeat split.
Qed.

Lemma filterByDepartment_plain prefix : forall items,
  forallb Sync.plainPosition items = true ->
  exists kept, SfApi.filterByDepartment items prefix = Ok kept.
Proof.
  induction items as [|pos items IH]; intros Hall; [cbn; eauto|].
  cbn [forallb] in Hall. apply andb_prop in Hall as [Hpos Hrest].
  destruct (IH Hrest) as (kept & Hk).
  unfold Sync.plainPosition in Hpos. apply andb_prop in Hpos as [Hn Hd].
  apply negb_true_iff in Hn.
  cbn [SfApi.filterByDepartment]. unfold member. rewrite Hn. cbn [bind].
  destruct (getProp pos "department") as [| |b|z|r|s|xs|ps] eqn:Ed;
    cbn [truthy] in *; try discriminate Hd.
  - rewrite Hk. cbn. eauto.
  - rewrite Hk. cbn. eauto.
  - destruct b; [discriminate Hd|]. rewrite Hk. cbn. eauto.
  - destruct (z =? 0); [|discriminate Hd]. cbn [negb]. rewrite Hk. cbn. eauto.
  - destruct (negb (s =? "")%string); rewrite Hk; cbn; eauto.
Qed.

(** one round of the loop on a page the API serves *)
Lemma loopBody_served sd ed st w data items :
  1 <= request_retryAttempts config ->
  Sync.ClockSane (clock w) ->
  api w (sent w) = Resolved data ->
  SfApi.resultsOf data = VArr items ->
  forallb Sync.plainPosition items = true ->
  exists st' w' filter,
    Sync.loopBody config sd ed st w
    = (Ok (st', negb (Z.of_nat (List.length items) <? sync_pageSize config)), w')
    /\ SfApi.filterByDepartment items (sync_departmentFilter config)
       = Ok (skipn (List.length (Sync.allFilteredPositions st)) (Sync.allFilteredPositions st'))
    /\ Sync.totalFetched st' = Sync.totalFetched st + Z.of_nat (List.length items)
    /\ Sync.skip st' = (if Z.of_nat (List.length items) <? sync_pageSize config
                        then Sync.skip st else Sync.skip st + sync_pageSize config)
    /\ api w' = api w /\ clock w' = clock w /\ sent w' = S (sent w)
    /\ fsExists w' = fsExists w
    /\ trace w' = (trace w ++ [EvRequest {| req_select := selectFields config;
                                            req_top := sync_pageSize config;
                                            req_skip := Sync.skip st;
                                            req_filter := filter |}])%list.
Proof.
  intros HRA Hc Hd Hr Hp.
  destruct (fetchPositions_first_try (sync_pageSize config) (Sync.skip st) sd ed w data HRA Hc Hd)
    as (w' & filter & Hfetch & A & C & S & F & T).
  destruct (filterByDepartment_plain (sync_departmentFilter config) items Hp) as (kept & Hk).
  unfold Sync.loopBody, bindM. rewrite Hfetch, Hr.
  unfold lift. rewrite Hk.
  assert (Hskip : skipn (List.length (Sync.allFilteredPositions st))
                         (Sync.allFilteredPositions st ++ kept) = kept).
  { rewrite skipn_app, skipn_all, Nat.sub_diag. reflexivity. }
  destruct (Z.of_nat (List.length items) <? sync_pageSize config); cbn [ret negb];
    eexists; exists w', filter; (split; [reflexivity|]);
    cbn [Sync.allFilteredPositions Sync.totalFetched Sync.skip];
    rewrite Hskip; repeat split; assumption.
Qed.

End Rounds.

(** ** The pagination loop *)

Section Pagination.
Context `{Runtime}.
Variable config : Config.

(** C3.  With page size [n] and an API that serves pages of sizes
    [n, n, n, k], [k < n], the pagination loop sends exactly four requests,
    at the offsets [0, n, 2n, 3n], counts [3n + k] fetched records and
    ends with the fourth page: three rounds are not enough, four or more
    give the same result. *)
Theorem paginate_four_pages (sd ed : Value) (w : World) (n k : nat)
        (p0 p1 p2 p3 : list Value) :
  sync_pageSize config = Z.of_nat n ->
  (k < n)%nat ->
  1 <= request_retryAttempts config ->
  Sync.ClockSane (clock w) ->
  Sync.servesPage w 0 p0 -> Sync.servesPage w 1 p1 ->
  Sync.servesPage w 2 p2 -> Sync.servesPage w 3 p3 ->
  List.length p0 = n -> List.length p1 = n -> List.length p2 = n -> List.length p3 = k ->
  forallb Sync.plainPosition (p0 ++ p1 ++ p2 ++ p3) = true ->
  exists st w' evs,
    (forall fuel, (4 <= fuel)%nat ->
       Sync.paginate config fuel sd ed Sync.initialState w = Some (Ok st, w'))
    /\ Sync.paginate config 3 sd ed Sync.initialState w = None
    /\ trace w' = (trace w ++ evs)%list
    /\ map req_skip (requestsOf evs)
       = [0; Z.of_nat n; 2 * Z.of_nat n; 3 * Z.of_nat n]
    /\ map req_top (requestsOf evs)
       = [Z.of_nat n; Z.of_nat n; Z.of_nat n; Z.of_nat n]
    /\ List.length (requestsOf evs) = 4%nat
    /\ Sync.totalFetched st = 3 * Z.of_nat n + Z.of_nat k.
Proof.
  intros HN Hk HRA Hc (d0 & A0 & R0) (d1 & A1 & R1) (d2 & A2 & R2) (d3 & A3 & R3)
         L0 L1 L2 L3 Hplain.
  rewrite !forallb_app in Hplain.
  apply andb_prop in Hplain as [P0 Hplain]. apply andb_prop in Hplain as [P1 Hplain].
  apply andb_prop in Hplain as [P2 P3].
  replace (sent w + 0)%nat with (sent w) in A0 by lia.
  destruct (loopBody_served config sd ed Sync.initialState w d0 p0 HRA Hc A0 R0 P0)
    as (st1 & w1 & f1 & B1 & _ & F1 & K1 & Ap1 & C1 & S1 & _ & T1).
  assert (Hc1 : Sync.ClockSane (clock w1)) by (rewrite C1; exact Hc).
  replace (sent w + 1)%nat with (sent w1) in A1 by lia. rewrite <- Ap1 in A1.
  destruct (loopBody_served config sd ed st1 w1 d1 p1 HRA Hc1 A1 R1 P1)
    as (st2 & w2 & f2 & B2 & _ & F2 & K2 & Ap2 & C2 & S2 & _ & T2).
  assert (Hc2 : Sync.ClockSane (clock w2)) by (rewrite C2; exact Hc1).
  replace (sent w + 2)%nat with (sent w2) in A2 by lia. rewrite <- Ap1, <- Ap2 in A2.
  destruct (loopBody_served config sd ed st2 w2 d2 p2 HRA Hc2 A2 R2 P2)
    as (st3 & w3 & f3 & B3 & _ & F3 & K3 & Ap3 & C3 & S3 & _ & T3).
  assert (Hc3 : Sync.ClockSane (clock w3)) by (rewrite C3; exact Hc2).
  replace (sent w + 3)%nat with (sent w3) in A3 by lia. rewrite <- Ap1, <- Ap2, <- Ap3 in A3.
  destruct (loopBody_served config sd ed st3 w3 d3 p3 HRA Hc3 A3 R3 P3)
    as (st4 & w4 & f4 & B4 & _ & F4 & K4 & _ & _ & _ & _ & T4).
  rewrite L0, HN, Z.ltb_irrefl in B1, K1. rewrite L1, HN, Z.ltb_irrefl in B2, K2.
  rewrite L2, HN, Z.ltb_irrefl in B3, K3.
  assert (Hlt : (Z.of_nat k <? Z.of_nat n) = true) by (apply Z.ltb_lt; lia).
  rewrite L3, HN, Hlt in B4, K4. cbn [negb] in *.
  rewrite L0 in F1. rewrite L1 in F2. rewrite L2 in F3. rewrite L3 in F4.
  cbn [Sync.initialState Sync.skip Sync.totalFetched] in *.
  exists st4, w4. eexists. split; [|split; [|split]].
  - intros fuel Hfuel.
    destruct fuel as [|[|[|[|fuel]]]]; try lia.
    cbn [Sync.paginate]. rewrite B1, B2, B3, B4. reflexivity.
  - cbn [Sync.paginate]. rewrite B1, B2, B3. reflexivity.
  - rewrite T4, T3, T2, T1. rewrite <- !List.app_assoc. cbn [List.app]. reflexivity.
  - cbn [requestsOf map req_skip req_top List.length].
    replace (Sync.skip st3) with (3 * Z.of_nat n) by lia.
    replace (Sync.skip st2) with (2 * Z.of_nat n) by lia.
    replace (Sync.skip st1) with (Z.of_nat n) by lia.
    rewrite HN. repeat split; try reflexivity. lia.
Qed.

(** a body without the envelope gives the empty page *)
Lemma resultsOf_lacksEnvelope data :
  Sync.lacksEnvelope data = true -> SfApi.resultsOf data = VArr [].
Proof.
  unfold Sync.lacksEnvelope, SfApi.resultsOf, optMember. intros Hl.
  destruct (isNullish data) eqn:E1; [reflexivity|].
  destruct (isNullish (getProp data "d")) eqn:E2; [reflexivity|].
  cbn [orb] in Hl.
  destruct (getProp (getProp data "d") "results"); try discriminate Hl; reflexivity.
Qed.

(** C10.  An answered request whose body lacks the results envelope (no
    [data], no [d] or no [results]) makes [fetchPositions] return the
    empty array, after one request and without failing; the loop takes it
    for a short page and ends, its counts unchanged. *)
Theorem missing_envelope_is_a_short_page
        (sd ed : Value) (st : Sync.LoopState) (w : World) (data : Value) :
  1 <= request_retryAttempts config ->
  0 < sync_pageSize config ->
  Sync.ClockSane (clock w) ->
  api w (sent w) = Resolved data ->
  Sync.lacksEnvelope data = true ->
  (exists w', SfApi.fetchPositions config (sync_pageSize config) (Sync.skip st) sd ed w
              = (Ok (VArr []), w')
              /\ List.length (requestsOf (trace w'))
                 = S (List.length (requestsOf (trace w))))
  /\ (exists st' w',
        (forall fuel, Sync.paginate config (S fuel) sd ed st w = Some (Ok st', w'))
        /\ Sync.totalFetched st' = Sync.totalFetched st
        /\ Sync.allFilteredPositions st' = Sync.allFilteredPositions st
        /\ sent w' = S (sent w)).
Proof.
  intros HRA HN Hc Hd Hl.
  pose proof (resultsOf_lacksEnvelope data Hl) as Hr.
  split.
  - destruct (fetchPositions_first_try config (sync_pageSize config) (Sync.skip st) sd ed w data
                HRA Hc Hd) as (w' & filter & Hfetch & _ & _ & _ & _ & T).
    exists w'. rewrite Hfetch, Hr. split; [reflexivity|].
    rewrite T, requestsOf_app, List.length_app. cbn. lia.
  - destruct (loopBody_served config sd ed st w data [] HRA Hc Hd Hr eq_refl)
      as (st' & w' & f & B & Hkept & F & K & _ & _ & S & _ & T).
    assert (Hlt : (Z.of_nat (@List.length Value []) <? sync_pageSize config) = true)
      by (apply Z.ltb_lt; cbn; lia).
    rewrite Hlt in B. cbn [negb] in B.
    exists st', w'. split; [|split; [|split]].
    + intros fuel. cbn [Sync.paginate]. rewrite B. reflexivity.
    + rewrite F. cbn. lia.
    + unfold Sync.loopBody, bindM in B.
      destruct (SfApi.fetchPositions config (sync_pageSize config) (Sync.skip st) sd ed w)
        as [[v|e] w0] eqn:Ef; [|discriminate B].
      destruct (fetchPositions_first_try config (sync_pageSize config) (Sync.skip st) sd ed w data
                  HRA Hc Hd) as (w1 & filter & Hfetch & _).
      rewrite Hfetch in Ef. injection Ef as <- <-. rewrite Hr in B.
      unfold lift in B. cbn [SfApi.filterByDepartment] in B. rewrite Hlt in B.
      cbn [ret] in B. injection B as <- _.
      cbn [Sync.allFilteredPositions]. now rewrite List.app_nil_r.
    + exact S.
Qed.

End Pagination.

(** ** Requests and file writes *)

Lemma noWriteSince_refl w : noWriteSince w w.
Proof. exists []. now rewrite List.app_nil_r. Qed.

Lemma noWriteSince_trans w1 w2 w3 :
  noWriteSince w1 w2 -> noWriteSince w2 w3 -> noWriteSince w1 w3.
Proof.
  intros (e1 & T1 & W1) (e2 & T2 & W2). exists (e1 ++ e2)%list.
  rewrite T2, T1, List.app_assoc, writesOf_app, W1, W2. split; reflexivity.
Qed.

Lemma noWriteSince_writes w w' : noWriteSince w w' -> writesOf (trace w') = writesOf (trace w).
Proof. intros (evs & T & W). now rewrite T, writesOf_app, W, List.app_nil_r. Qed.

Lemma noRequestSince_refl w : noRequestSince w w.
Proof. exists []. now rewrite List.app_nil_r. Qed.

Lemma noRequestSince_trans w1 w2 w3 :
  noRequestSince w1 w2 -> noRequestSince w2 w3 -> noRequestSince w1 w3.
Proof.
  intros (e1 & T1 & W1) (e2 & T2 & W2). exists (e1 ++ e2)%list.
  rewrite T2, T1, List.app_assoc, requestsOf_app, W1, W2. split; reflexivity.
Qed.

Lemma noWriteSince_ticks w w' : sameButTicks w w' -> noWriteSince w w'.
Proof. intros (_ & _ & _ & _ & T). exists []. now rewrite T, List.app_nil_r. Qed.

Section Orchestrator.
Context `{Runtime}.
Variable config : Config.

Lemma readClock_trace w : trace (snd (readClock w)) = trace w.
Proof. reflexivity. Qed.

Lemma setup_frame w :
  noWriteSince w (snd (Sync.setup config w))
  /\ noRequestSince w (snd (Sync.setup config w)).
Proof.
  unfold Sync.setup, bindM, readClock, lift, Sync.ensureOutputDirectory, existsSync, bindM.
  cbn [fst snd].
  destruct (validateConfig config); cbn [fst snd];
    [|split; exists []; cbn [trace]; rewrite List.app_nil_r; split; reflexivity].
  cbn [fsExists].
  destruct (negb (fsExists w (path_dirname (sync_outputFile config)))); cbn.
  - split; exists [EvMkdir (path_dirname (sync_outputFile config))]; split; reflexivity.
  - split; exists []; rewrite List.app_nil_r; split; reflexivity.
Qed.

Lemma fetchPositions_frame top skip sd ed w :
  noWriteSince w (snd (SfApi.fetchPositions config top skip sd ed w)).
Proof.
  unfold SfApi.fetchPositions, bindM.
  pose proof (buildDateFilter_frame sd ed w) as Hb.
  destruct (SfApi.buildDateFilter sd ed w) as [[filter|e] w0]; cbn [snd] in *;
    [|now apply noWriteSince_ticks].
  eapply noWriteSince_trans; [apply noWriteSince_ticks; exact Hb|].
  match goal with
  | |- context [SfApi.attemptLoop config ?r ?a ?p ?l w0] =>
      destruct (attemptLoop_frame config p r a l w0) as (evs & (_ & _ & T & _) & W & _);
      destruct (SfApi.attemptLoop config r a p l w0) as [[results|lastError] w1]
  end; cbn [snd] in *.
  - exists evs. split; assumption.
  - destruct (SfApi.errorMessage lastError); exists evs; split; assumption.
Qed.

Lemma loopBody_frame sd ed st w :
  noWriteSince w (snd (Sync.loopBody config sd ed st w)).
Proof.
  unfold Sync.loopBody, bindM.
  pose proof (fetchPositions_frame (sync_pageSize config) (Sync.skip st) sd ed w) as Hf.
  destruct (SfApi.fetchPositions config (sync_pageSize config) (Sync.skip st) sd ed w)
    as [[positions|e] w1]; cbn [snd] in *; [|exact Hf].
  destruct positions; try exact Hf.
  unfold lift. destruct (SfApi.filterByDepartment _ _); [|exact Hf].
  destruct (_ <? _); exact Hf.
Qed.

Lemma paginate_frame sd ed : forall fuel st w r w',
  Sync.paginate config fuel sd ed st w = Some (r, w') -> noWriteSince w w'.
Proof.
  induction fuel as [|fuel IH]; intros st w r w' Hp; [discriminate Hp|].
  cbn [Sync.paginate] in Hp.
  pose proof (loopBody_frame sd ed st w) as Hb.
  destruct (Sync.loopBody config sd ed st w) as [[[st1 more]|e] w1]; cbn [snd] in Hb.
  - destruct more.
    + eapply noWriteSince_trans; [exact Hb | eapply IH; exact Hp].
    + injection Hp as <- <-. exact Hb.
  - injection Hp as <- <-. exact Hb.
Qed.

Lemma writeOutput_frame startTime sd ed st w :
  noRequestSince w (snd (Sync.writeOutput config startTime sd ed st w)).
Proof.
  unfold Sync.writeOutput, bindM, readClock, lift, writeFileSync, ret.
  cbn [fst snd].
  repeat match goal with
         | |- context [match ?r with Ok _ => _ | Throw _ => _ end] =>
             destruct r; cbn [fst snd]
         | |- context [let '(_, _) := ?p in _] => destruct p; cbn [fst snd]
         end;
    try (exists []; cbn [trace]; rewrite List.app_nil_r; split; reflexivity).
  all: cbn [createPath emit trace].
  all: try (eexists; split; [reflexivity|]; reflexivity).
  all: try (eexists; split; [rewrite <- List.app_assoc; reflexivity|]; reflexivity).
Qed.

(** a run of the final phase that returns has written the two files it
    names, Oracle first *)
Lemma writeOutput_writes startTime sd ed st w :
  forall res, fst (Sync.writeOutput config startTime sd ed st w) = Ok res ->
  exists oracleSql postgresSql,
    writesOf (trace (snd (Sync.writeOutput config startTime sd ed st w)))
    = (writesOf (trace w) ++ [(Sync.oracleFile res, oracleSql);
                              (Sync.postgresFile res, postgresSql)])%list.
Proof.
  unfold Sync.writeOutput, bindM, readClock, lift, writeFileSync, ret.
  cbn [fst snd].
  repeat match goal with
         | |- context [match ?r with Ok _ => _ | Throw _ => _ end] =>
             destruct r; cbn [fst snd]
         | |- context [let '(_, _) := ?p in _] => destruct p; cbn [fst snd]
         end;
    intros res Hres; try discriminate Hres.
  injection Hres as <-. cbn [Sync.oracleFile Sync.postgresFile createPath emit trace].
  do 2 eexists. rewrite !writesOf_app. cbn [writesOf]. rewrite <- List.app_assoc.
  reflexivity.
Qed.

End Orchestrator.

(** ** A fetch that throws *)

Section Fatal.
Context `{Runtime}.
Variable config : Config.

(** an error of the fetch is the error of the round *)
Lemma loopBody_fetch_error sd ed st w e w' :
  SfApi.fetchPositions config (sync_pageSize config) (Sync.skip st) sd ed w = (Throw e, w') ->
  Sync.loopBody config sd ed st w = (Throw e, w').
Proof. intros Hf. unfold Sync.loopBody, bindM. now rewrite Hf. Qed.

(** the loop run from a state it reaches ends as the loop run from the
    start *)
Lemma paginate_from_head sd ed st w st1 w1 :
  Sync.atLoopHead config sd ed st w st1 w1 ->
  forall r fuel1,
    Sync.paginate config fuel1 sd ed st1 w1 = Some r ->
    exists fuel0, forall fuel, (fuel0 <= fuel)%nat ->
      Sync.paginate config fuel sd ed st w = Some r.
Proof.
  induction 1 as [st w | st w sta wa stb wb Hbody Hhead IH]; intros r fuel1 Hp.
  - exists fuel1. intros fuel Hle.
    revert st w Hp fuel Hle.
    induction fuel1 as [|fuel1 IHf]; intros st w Hp fuel Hle; [discriminate Hp|].
    destruct fuel as [|fuel]; [lia|].
    cbn [Sync.paginate] in *.
    destruct (Sync.loopBody config sd ed st w) as [[[st1 more]|e] w1]; [|exact Hp].
    destruct more; [|exact Hp].
    apply IHf; [exact Hp | lia].
  - destruct (IH r fuel1 Hp) as (fuel0 & Hfuel0).
    exists (S fuel0). intros fuel Hle.
    destruct fuel as [|fuel]; [lia|].
    cbn [Sync.paginate]. rewrite Hbody. apply Hfuel0. lia.
Qed.

Lemma atLoopHead_frame sd ed st w st1 w1 :
  Sync.atLoopHead config sd ed st w st1 w1 -> noWriteSince w w1.
Proof.
  induction 1 as [st w | st w sta wa stb wb Hbody Hhead IH].
  - apply noWriteSince_refl.
  - pose proof (loopBody_frame config sd ed st w) as Hb. rewrite Hbody in Hb.
    eapply noWriteSince_trans; [exact Hb | exact IH].
Qed.

(** in every run the requests come before the files *)
Lemma requests_before_writes sd ed fuel w r w' :
  Sync.syncPositions config fuel sd ed w = Some (r, w') ->
  exists before after,
    trace w' = (trace w ++ before ++ after)%list
    /\ writesOf before = [] /\ requestsOf after = []
    /\ (after = []
        \/ exists startTime w0 st wl,
             Sync.setup config w = (Ok startTime, w0)
             /\ Sync.paginate config fuel sd ed Sync.initialState w0 = Some (Ok st, wl)
             /\ trace wl = (trace w ++ before)%list)
    /\ (forall res, r = Ok res ->
         exists oracleSql postgresSql,
           writesOf after = [(Sync.oracleFile res, oracleSql);
                             (Sync.postgresFile res, postgresSql)]).
Proof.
  unfold Sync.syncPositions. intros Hs.
  pose proof (setup_frame config w) as [(e0 & T0 & W0) _].
  destruct (Sync.setup config w) as [[startTime|e] w0] eqn:Es; cbn [snd] in *.
  - destruct (Sync.paginate config fuel sd ed Sync.initialState w0) as [[[st|e] w1]|] eqn:Ep;
      [| |discriminate Hs].
    + destruct (paginate_frame config sd ed _ _ _ _ _ Ep) as (e1 & T1 & W1).
      pose proof (writeOutput_frame config startTime sd ed st w1) as (e2 & T2 & R2).
      pose proof (writeOutput_writes config startTime sd ed st w1) as Hw.
      injection Hs as Hs. rewrite Hs in T2, Hw. cbn [fst snd] in T2, Hw.
      exists (e0 ++ e1)%list, e2.
      rewrite T2, T1, T0, writesOf_app, W0, W1, <- !List.app_assoc.
      split; [reflexivity|]. split; [reflexivity|]. split; [assumption|]. split.
      * right. exists startTime, w0, st, w1. split; [reflexivity|]. split; [exact Ep|].
        rewrite T1, T0, <- List.app_assoc. reflexivity.
      * intros res ->. destruct (Hw res eq_refl) as (oc & pc & Hwr).
        exists oc, pc. rewrite T2, writesOf_app in Hwr.
        now apply List.app_inv_head in Hwr.
    + destruct (paginate_frame config sd ed _ _ _ _ _ Ep) as (e1 & T1 & W1).
      injection Hs as <- <-.
      exists (e0 ++ e1)%list, [].
      rewrite T1, T0, writesOf_app, W0, W1, <- !List.app_assoc, List.app_nil_r.
      repeat split; [now left | intros res E; discriminate E].
  - injection Hs as <- <-. exists e0, [].
    rewrite T0, List.app_nil_r. repeat split; [assumption | now left | intros res E; discriminate E].
Qed.

(** C8.  When, after any number of full pages, a page fetch throws,
    [syncPositions] ends with that very error and has written no file.
    And in every run the trace falls in two parts: a first part without
    any write, and a second part without any request that is empty unless
    the pagination loop has returned; a run that succeeds writes there the
    Oracle file and then the PostgreSQL file, and nothing else. *)
Theorem fatal_fetch_error_writes_no_file
        (sd ed : Value) (w w0 w1 w2 : World) (startTime : Z)
        (st : Sync.LoopState) (e : Exn) :
  Sync.setup config w = (Ok startTime, w0) ->
  Sync.atLoopHead config sd ed Sync.initialState w0 st w1 ->
  SfApi.fetchPositions config (sync_pageSize config) (Sync.skip st) sd ed w1 = (Throw e, w2) ->
  (exists fuel0, forall fuel, (fuel0 <= fuel)%nat ->
     Sync.syncPositions config fuel sd ed w = Some (Throw e, w2))
  /\ writesOf (trace w2) = writesOf (trace w)
  /\ (forall fuel' sd' ed' wa r wb,
        Sync.syncPositions config fuel' sd' ed' wa = Some (r, wb) ->
        exists before after,
          trace wb = (trace wa ++ before ++ after)%list
          /\ writesOf before = [] /\ requestsOf after = []
          /\ (after = []
              \/ exists startTime' wa0 st' wl,
                   Sync.setup config wa = (Ok startTime', wa0)
                   /\ Sync.paginate config fuel' sd' ed' Sync.initialState wa0
                      = Some (Ok st', wl)
                   /\ trace wl = (trace wa ++ before)%list)
          /\ (forall res, r = Ok res ->
               exists oracleSql postgresSql,
                 writesOf after = [(Sync.oracleFile res, oracleSql);
                                   (Sync.postgresFile res, postgresSql)])).
Proof.
  intros Hsetup Hhead Hfetch. split; [|split].
  - assert (Hp : Sync.paginate config 1 sd ed st w1 = Some (Throw e, w2)).
    { cbn [Sync.paginate]. now rewrite (loopBody_fetch_error sd ed st w1 e w2 Hfetch). }
    destruct (paginate_from_head sd ed _ _ _ _ Hhead _ _ Hp) as (fuel0 & Hfuel0).
    exists fuel0. intros fuel Hle. unfold Sync.syncPositions.
    rewrite Hsetup, (Hfuel0 fuel Hle). reflexivity.
  - apply noWriteSince_writes.
    pose proof (setup_frame config w) as [Hs _]. rewrite Hsetup in Hs.
    pose proof (fetchPositions_frame config (sync_pageSize config) (Sync.skip st) sd ed w1) as Hf.
    rewrite Hfetch in Hf.
    eapply noWriteSince_trans; [exact Hs|].
    eapply noWriteSince_trans; [eapply atLoopHead_frame; exact Hhead | exact Hf].
  - intros fuel' sd' ed' wa r wb. apply requests_before_writes.
Qed.

End Fatal.

(** ** The field mapping *)

Lemma setProp_fresh k v : forall props,
  ~ In k (keys props) -> setProp k v props = (props ++ [(k, v)])%list.
Proof.
  induction props as [|[k' v'] props IH]; intros Hk; [reflexivity|].
  cbn [setProp]. cbn in Hk.
  destruct (String.eqb_spec k k') as [->|Hne]; [tauto|].
  cbn. rewrite IH by tauto. reflexivity.
Qed.

Lemma transformLoop_object props : forall entries acc,
  NoDup (keys acc ++ map snd entries) ->
  transformLoop entries (VObj props) acc
  = Ok (acc ++ map (fun '(apiField, dbColumn) =>
                      (dbColumn, nullIfUndefined (getProp (VObj props) apiField)))
                   entries)%list.
Proof.
  induction entries as [|[apiField dbColumn] entries IH]; intros acc Hnd.
  - cbn. now rewrite List.app_nil_r.
  - cbn [transformLoop map]. unfold member. cbn [isNullish bind].
    fold (nullIfUndefined (getProp (VObj props) apiField)).
    cbn [map snd] in Hnd.
    assert (Hfresh : ~ In dbColumn (keys acc)).
    { apply NoDup_remove_2 in Hnd. intros Hin. apply Hnd. apply in_or_app. now left. }
    rewrite setProp_fresh by assumption.
    rewrite IH.
    + rewrite <- List.app_assoc. reflexivity.
    + unfold keys in *. rewrite map_app, <- List.app_assoc. cbn [map fst List.app].
      exact Hnd.
Qed.

Lemma lookup_mapped (f : string -> Value) : forall (entries : list (string * string)) a c,
  NoDup (map snd entries) -> In (a, c) entries ->
  lookup c (map (fun '(a', c') => (c', f a')) entries) = Some (f a).
Proof.
  induction entries as [|[a' c'] entries IH]; intros a c Hnd Hin; [destruct Hin|].
  cbn [map lookup]. cbn [map snd] in Hnd. inversion Hnd as [|? ? Hnotin Hnd']; subst.
  destruct Hin as [E|Hin].
  - injection E as -> ->. now rewrite String.eqb_refl.
  - destruct (String.eqb_spec c c') as [->|Hne].
    + exfalso. apply Hnotin. change c' with (snd (a, c')). now apply in_map.
    + now apply IH.
Qed.

Lemma distinct_NoDup xs : distinct xs = true -> NoDup xs.
Proof.
  induction xs as [|x xs IH]; intros Hd; [constructor|].
  cbn in Hd. apply andb_prop in Hd as [Hx Hrest]. constructor; [|now apply IH].
  intros Hin. apply negb_true_iff in Hx.
  assert (existsb (String.eqb x) xs = true); [|congruence].
  apply existsb_exists. exists x. split; [assumption | apply String.eqb_refl].
Qed.

Lemma columnsOf_distinct : forall m,
  NoDup (keys m) -> columnsOf m = map snd m.
Proof.
  intros m Hnd. unfold columnsOf, keys.
  rewrite map_map.
  assert (Hgen : forall pre post, m = (pre ++ post)%list ->
            map (fun x => mappingAt (fst x) m) post = map snd post).
  { intros pre post. revert pre.
    induction post as [|[k c] post IH]; intros pre E; [reflexivity|].
    cbn [map fst snd]. f_equal.
    - subst m. clear IH.
      unfold keys in Hnd. rewrite map_app in Hnd. cbn [map fst] in Hnd.
      apply NoDup_remove_2 in Hnd.
      induction pre as [|[k' c'] pre IHp]; cbn [List.app mappingAt].
      + now rewrite String.eqb_refl.
      + destruct (String.eqb_spec k k') as [->|Hne].
        * exfalso. apply Hnd. cbn. now left.
        * apply IHp. intros Hin. apply Hnd. cbn. now right.
    - apply (IH (pre ++ [(k, c)])%list). rewrite <- List.app_assoc. exact E. }
  apply (Hgen []). reflexivity.
Qed.

Lemma mapR_Forall2 {A B} (f : A -> Result B) : forall xs ys,
  mapR f xs = Ok ys -> Forall2 (fun x y => f x = Ok y) xs ys.
Proof.
  induction xs as [|x xs IH]; intros ys Hm.
  - injection Hm as <-. constructor.
  - cbn [mapR] in Hm. destruct (f x) as [y|e] eqn:Ef; [|discriminate Hm].
    cbn [bind] in Hm. destruct (mapR f xs) as [ys'|e]; [|discriminate Hm].
    injection Hm as <-. constructor; [assumption | now apply IH].
Qed.

Lemma mapR_isOk {A B C} (f : A -> Result B) (g : A -> Result C) : forall xs,
  (forall x, isOk (f x) = isOk (g x)) -> isOk (mapR f xs) = isOk (mapR g xs).
Proof.
  intros xs Hfg. induction xs as [|x xs IH]; [reflexivity|].
  cbn [mapR]. specialize (Hfg x).
  destruct (f x), (g x); try discriminate Hfg; cbn [bind]; [|reflexivity].
  destruct (mapR f xs), (mapR g xs); try discriminate IH; reflexivity.
Qed.

Section Mapping.
Context `{Runtime}.

Lemma formatSqlValue_isOk v col :
  isOk (formatSqlValue v col (VStr "oracle")) = isOk (formatSqlValue v col (VStr "postgres")).
Proof.
  unfold formatSqlValue. destruct (isNullish v); [reflexivity|].
  destruct (includes dateColumns col); [|reflexivity].
  destruct (parseSFDate v) as [[text|]|e]; cbn; try reflexivity.
  destruct (text =? "")%string; reflexivity.
Qed.

Lemma transformRecord_config env props :
  transformRecord (config env) (VObj props)
  = Ok (map (fun '(apiField, dbColumn) =>
               (dbColumn, nullIfUndefined (getProp (VObj props) apiField)))
            fieldMappingTable).
Proof.
  unfold transformRecord. cbn [fieldMapping config].
  rewrite transformLoop_object; [reflexivity|].
  apply distinct_NoDup. reflexivity.
Qed.

End Mapping.

(** ** The header *)

Lemma lines_nonempty s : Str.lines s <> [].
Proof.
  destruct s as [|c s]; cbn; [discriminate|].
  destruct (Ascii.eqb c _); [discriminate|]. destruct (Str.lines s); discriminate.
Qed.

(** a line feed ends the line it follows *)
Lemma lines_app_LF a b :
  Str.lines (a ++ String (ascii_of_nat 10) b) = (Str.lines a ++ Str.lines b)%list.
Proof.
  induction a as [|c a IH].
  - reflexivity.
  - cbn [append Str.lines]. rewrite IH.
    destruct (Ascii.eqb c (ascii_of_nat 10)); [reflexivity|].
    pose proof (lines_nonempty a) as Hne.
    destruct (Str.lines a) as [|l ls]; [congruence | reflexivity].
Qed.

Lemma lines_one s :
  Str.allChars (fun c => negb (Ascii.eqb (ascii_of_nat 10) c)) s = true ->
  Str.lines s = [s].
Proof.
  induction s as [|c s IH]; intros Hs; [reflexivity|].
  cbn [Str.allChars] in Hs. apply andb_prop in Hs as [Hc Hrest].
  cbn [Str.lines]. rewrite Ascii.eqb_sym. apply negb_true_iff in Hc. rewrite Hc.
  rewrite IH by assumption. reflexivity.
Qed.

Section Header.
Context `{Runtime}.
Variable config : Config.

(** C7.  Two headers generated for the same dates, dialect and
    configuration at two instants are, line by line, the same text but
    for the one line [-- Generated: ...] that holds the instant. *)
Theorem header_differs_only_in_timestamp
        (t1 t2 : Z) (startDate endDate dbType : Value) (h1 h2 : string) :
  generateSqlHeader config t1 startDate endDate dbType = Ok h1 ->
  generateSqlHeader config t2 startDate endDate dbType = Ok h2 ->
  exists above below,
    Str.lines h1 = (above ++ [("-- Generated: " ++ ESDate.isoText t1)%string] ++ below)%list
    /\ Str.lines h2 = (above ++ [("-- Generated: " ++ ESDate.isoText t2)%string] ++ below)%list.
Proof.
  unfold generateSqlHeader, ESDate.TimeClip, ESDate.toISOString.
  intros H1 H2.
  destruct (ESDate.validTime t1) eqn:V1; [rewrite V1 in H1 | discriminate H1].
  destruct (ESDate.validTime t2) eqn:V2; [rewrite V2 in H2 | discriminate H2].
  cbn [bind] in H1, H2.
  destruct (toUpperCase (orDefault dbType "oracle")) as [upper|e]; [|discriminate H1].
  cbn [bind] in H1, H2. injection H1 as <-. injection H2 as <-.
  set (range := if truthy (orElse startDate endDate) then _ else _).
  exists (Str.lines ("-- ============================================" ++ Str.LF
                     ++ "-- SF Position Sync SQL (" ++ upper ++ ")")),
         (Str.lines ("-- Date Range: " ++ range ++ Str.LF
                     ++ "-- Department Filter: " ++ sync_departmentFilter config ++ "*" ++ Str.LF
                     ++ "-- Database: " ++ upper ++ Str.LF
                     ++ "-- ============================================" ++ Str.LF
                     ++ Str.LF)).
  assert (Hgen : forall t, ESDate.validTime t = true ->
            Str.lines ("-- Generated: " ++ ESDate.isoText t) = ["-- Generated: " ++ ESDate.isoText t]).
  { intros t Hv. apply lines_one. rewrite allChars_app, isoText_one_line by assumption.
    reflexivity. }
  split.
  - rewrite <- (Hgen t1 V1), <- !lines_app_LF.
    f_equal. unfold Str.LF. rewrite !str_app_assoc. reflexivity.
  - rewrite <- (Hgen t2 V2), <- !lines_app_LF.
    f_equal. unfold Str.LF. rewrite !str_app_assoc. reflexivity.
Qed.

End Header.

(** ** Records and statements *)

Section Statements.
Context `{Runtime}.

(** C6.  For every record, whatever its keys, [transformRecord] returns
    (it never throws) an object whose keys are the destination columns of
    the field mapping, in the order of the mapping; each holds the value of
    its API field, an explicit [null] included, and [null] when the record
    has no such field. *)
Theorem transformRecord_keys_follow_mapping (env : Env) (props : list (string * Value)) :
  exists dbRecord,
    transformRecord (config env) (VObj props) = Ok dbRecord
    /\ keys dbRecord = map snd (fieldMapping (config env))
    /\ (forall apiField dbColumn,
          In (apiField, dbColumn) (fieldMapping (config env)) ->
          getProp (VObj dbRecord) dbColumn
          = match lookup apiField props with
            | Some VUndefined => VNull
            | Some v => v
            | None => VNull
            end).
Proof.
  eexists. split; [apply transformRecord_config|]. split.
  - unfold keys. rewrite map_map. apply map_ext. now intros [a c].
  - intros apiField dbColumn Hin.
    assert (Hnd : NoDup (map snd fieldMappingTable))
      by (apply distinct_NoDup; reflexivity).
    pose proof (lookup_mapped (fun a => nullIfUndefined (getProp (VObj props) a))
                  fieldMappingTable apiField dbColumn Hnd Hin) as Hl.
    cbv beta in Hl.
    change (getProp (VObj ?r) dbColumn)
      with (match lookup dbColumn r with Some x => x | None => VUndefined end).
    rewrite Hl. cbn [getProp].
    destruct (lookup apiField props) as [[]|]; reflexivity.
Qed.

(** C5.  For every record and for both dialects, the column list of the
    generated statement is the list of the values of the field mapping, in
    the order of the mapping, the same for Oracle and PostgreSQL, and the
    values list has the same length, its [i]-th entry formatting the
    [i]-th column. *)
Theorem insert_columns_follow_mapping
        (env : Env) (record : Value) (dialect stmt : string) :
  dialect = "oracle" \/ dialect = "postgres" ->
  generateInsertIfNotExists (config env) record (VStr dialect) = Ok stmt ->
  let columns := map snd (fieldMapping (config env)) in
  exists dbRecord values,
    transformRecord (config env) record = Ok dbRecord
    /\ Forall2 (fun col v =>
                  formatSqlValue (getProp (VObj dbRecord) col) col (VStr dialect) = Ok v)
               columns values
    /\ List.length values = List.length columns
    /\ (dialect = "oracle" ->
        exists code,
          stmt = "MERGE INTO job_sf_position target" ++ Str.LF
                 ++ "USING (SELECT '" ++ code ++ "' AS code FROM dual) source" ++ Str.LF
                 ++ "ON (target.code = source.code)" ++ Str.LF
                 ++ "WHEN NOT MATCHED THEN" ++ Str.LF
                 ++ "    INSERT (" ++ Str.join ", " columns ++ ")" ++ Str.LF
                 ++ "    VALUES (" ++ Str.join ", " values ++ ");")
    /\ (dialect = "postgres" ->
        stmt = "INSERT INTO job_sf_position (" ++ Str.join ", " columns ++ ")" ++ Str.LF
               ++ "VALUES (" ++ Str.join ", " values ++ ")" ++ Str.LF
               ++ "ON CONFLICT (code) DO NOTHING;").
Proof.
  intros Hd Hgen columns.
  assert (Hcols : columnsOf (fieldMapping (config env)) = columns) by reflexivity.
  unfold generateInsertIfNotExists in Hgen. cbn [orDefault isString] in Hgen.
  destruct Hd as [-> | ->]; cbn [String.eqb Ascii.eqb Bool.eqb] in Hgen.
  - unfold generateOracleInsert in Hgen. rewrite Hcols in Hgen.
    destruct (transformRecord (config env) record) as [dbRecord|e]; [|discriminate Hgen].
    cbn [bind] in Hgen.
    destruct (mapR _ columns) as [values|e] eqn:Hm; [|discriminate Hgen].
    cbn [bind] in Hgen. injection Hgen as <-.
    apply mapR_Forall2 in Hm.
    exists dbRecord, values. split; [reflexivity|]. split; [exact Hm|].
    split; [symmetry; eapply Forall2_length; exact Hm|].
    split; [intros _; eexists; reflexivity | intros E; discriminate E].
  - unfold generatePostgresInsert in Hgen. rewrite Hcols in Hgen.
    destruct (transformRecord (config env) record) as [dbRecord|e]; [|discriminate Hgen].
    cbn [bind] in Hgen.
    destruct (mapR _ columns) as [values|e] eqn:Hm; [|discriminate Hgen].
    cbn [bind] in Hgen. injection Hgen as <-.
    apply mapR_Forall2 in Hm.
    exists dbRecord, values. split; [reflexivity|]. split; [exact Hm|].
    split; [symmetry; eapply Forall2_length; exact Hm|].
    split; [intros E; discriminate E | intros _; reflexivity].
Qed.

Lemma insert_isOk config record :
  isOk (generateOracleInsert config record) = isOk (generatePostgresInsert config record).
Proof.
  unfold generateOracleInsert, generatePostgresInsert.
  destruct (transformRecord config record) as [dbRecord|e]; [|reflexivity].
  cbn [bind].
  pose proof (mapR_isOk
    (fun col => formatSqlValue (getProp (VObj dbRecord) col) col (VStr "oracle"))
    (fun col => formatSqlValue (getProp (VObj dbRecord) col) col (VStr "postgres"))
    (columnsOf (fieldMapping config))
    (fun col => formatSqlValue_isOk _ col)) as Hok.
  destruct (mapR _ _), (mapR _ _); try discriminate Hok; reflexivity.
Qed.

Lemma isString_spec v s : isString v s = true <-> v = VStr s.
Proof.
  destruct v; cbn; try (split; [discriminate | discriminate]).
  split.
  - intros E. apply String.eqb_eq in E. now subst.
  - intros E. injection E as ->. apply String.eqb_refl.
Qed.

(** C9.  [generateInsertIfNotExists] gives the conflict-skip statement
    exactly when the dialect tag is the string [postgres]; every other
    tag, the omitted one and unknown ones included, gives the Oracle
    [MERGE], and no tag makes a record fail that the other dialect
    accepts. *)
Theorem dialect_dispatch (config : Config) (record dbType : Value) :
  generateInsertIfNotExists config record dbType
  = (if isString dbType "postgres" then generatePostgresInsert config record
     else generateOracleInsert config record)
  /\ isOk (generateInsertIfNotExists config record dbType)
     = isOk (generatePostgresInsert config record)
  /\ (forall stmt,
        generateInsertIfNotExists config record dbType = Ok stmt ->
        (dbType = VStr "postgres" <->
         Str.startsWith "INSERT INTO job_sf_position (" stmt = true)
        /\ (dbType <> VStr "postgres" <->
            Str.startsWith "MERGE INTO job_sf_position target" stmt = true)).
Proof.
  assert (Hdispatch : generateInsertIfNotExists config record dbType
            = (if isString dbType "postgres" then generatePostgresInsert config record
               else generateOracleInsert config record)).
  { unfold generateInsertIfNotExists. destruct dbType; reflexivity. }
  split; [exact Hdispatch|]. rewrite Hdispatch. split.
  - destruct (isString dbType "postgres"); [reflexivity | apply insert_isOk].
  - intros stmt Hgen.
    destruct (isString dbType "postgres") eqn:Etag.
    + apply isString_spec in Etag. subst dbType.
      unfold generatePostgresInsert in Hgen.
      destruct (transformRecord config record); [|discriminate Hgen]. cbn [bind] in Hgen.
      destruct (mapR _ _); [|discriminate Hgen]. cbn [bind] in Hgen.
      injection Hgen as <-. split; split; try reflexivity; try congruence.
      cbn. discriminate.
    + assert (Hne : dbType <> VStr "postgres").
      { intros E. apply isString_spec in E. congruence. }
      unfold generateOracleInsert in Hgen.
      destruct (transformRecord config record); [|discriminate Hgen]. cbn [bind] in Hgen.
      destruct (mapR _ _); [|discriminate Hgen]. cbn [bind] in Hgen.
      injection Hgen as <-. split; split; try reflexivity; try congruence.
      cbn. discriminate.
Qed.


(** no other input makes [parseSFDate] return [null] *)
Lemma parseSFDate_null_only_then (v : Value) :
  parseSFDate v = Ok None ->
  truthy v = false
  \/ exists s, v = VStr s /\ ~ Wrapped.occursIn s /\ Date_parse s = None.
Proof.
  unfold parseSFDate. destruct (truthy v) eqn:Ht; [|now left].
  cbn [negb]. destruct v as [| | | | |s| |]; try discriminate.
  assert (Hno : forall d, bind (pgTimestamp d) (fun text => Ok (Some text)) <> Ok None).
  { intros d. destruct (pgTimestamp d); cbn [bind]; discriminate. }
  destruct (search sfDatePattern s) as [m|] eqn:Es; [intros E; now apply Hno in E|].
  destruct (Date_parse s) as [t|] eqn:Ed; [intros E; now apply Hno in E|].
  intros _. right. exists s. split; [reflexivity|]. split; [|exact Ed].
  intros Hocc. destruct (search_complete s Hocc) as (m & Hm). congruence.
Qed.

End Statements.

(** ** Which rejections are fatal *)

Section FatalErrors.
Context `{Runtime}.
Variable config : Config.

(** X12.  A rejection that is not retryable, a 404 for one, is fatal at
    once: one request, no wait, and the error thrown carries the message
    of that rejection. *)
Lemma fetchPositions_not_retryable top skip sd ed w error filter :
  1 <= request_retryAttempts config ->
  fst (SfApi.buildDateFilter sd ed w) = Ok filter ->
  api w (sent w) = Rejected error ->
  SfApi.isRetryable error = false ->
  exists msg w',
    SfApi.errorMessage (Some error) = Ok msg
    /\ SfApi.fetchPositions config top skip sd ed w = (Throw (Error msg), w')
    /\ List.length (requestsOf (trace w')) = S (List.length (requestsOf (trace w)))
    /\ sleepsOf (trace w') = sleepsOf (trace w).
Proof.
  intros HRA Hf Hd Hr.
  pose proof (buildDateFilter_frame sd ed w) as (A & S & C & F & T).
  unfold SfApi.fetchPositions, bindM.
  destruct (SfApi.buildDateFilter sd ed w) as [r w0] eqn:E0.
  cbn [fst snd] in *. subst r.
  destruct (Z.to_nat (request_retryAttempts config)) as [|n] eqn:En; try lia.
  assert (L1 : (1 <=? request_retryAttempts config) = true) by (apply Z.leb_le; lia).
  cbn [SfApi.attemptLoop]. rewrite L1.
  unfold httpGet. rewrite A, S, Hd, Hr. cbn [andb].
  assert (Hmsg : exists msg, SfApi.errorMessage (Some error) = Ok msg).
  { unfold SfApi.errorMessage. destruct (err_response error) as [[status data]|]; eauto. }
  destruct Hmsg as (msg & Hmsg). rewrite Hmsg.
  exists msg. eexists. split; [reflexivity|]. split; [reflexivity|].
  cbn [emit trace]. rewrite T, requestsOf_app, sleepsOf_app, List.length_app.
  cbn. rewrite List.app_nil_r. split; [lia | reflexivity].
Qed.

(** X13.  With the ceiling 3, a third rejection after two retryable ones
    is fatal whatever it is: three requests, the two waits of the
    backoff, and the error thrown carries the message of the third
    rejection. *)
Lemma fetchPositions_retries_exhausted top skip sd ed w e1 e2 e3 filter :
  request_retryAttempts config = 3 ->
  fst (SfApi.buildDateFilter sd ed w) = Ok filter ->
  api w (sent w) = Rejected e1 -> SfApi.isRetryable e1 = true ->
  api w (S (sent w)) = Rejected e2 -> SfApi.isRetryable e2 = true ->
  api w (S (S (sent w))) = Rejected e3 ->
  exists msg w',
    SfApi.errorMessage (Some e3) = Ok msg
    /\ SfApi.fetchPositions config top skip sd ed w = (Throw (Error msg), w')
    /\ List.length (requestsOf (trace w')) = (3 + List.length (requestsOf (trace w)))%nat
    /\ sleepsOf (trace w')
       = (sleepsOf (trace w)
          ++ [request_retryDelay config * 2 ^ (1 - 1);
              request_retryDelay config * 2 ^ (2 - 1)])%list.
Proof.
  intros HRA Hf H1 R1 H2 R2 H3.
  pose proof (buildDateFilter_frame sd ed w) as (A & S & C & F & T).
  unfold SfApi.fetchPositions, bindM.
  destruct (SfApi.buildDateFilter sd ed w) as [r w0] eqn:E0.
  cbn [fst snd] in *. subst r.
  rewrite HRA. change (Z.to_nat 3) with 3%nat.
  cbn [SfApi.attemptLoop]. rewrite HRA. change (1 <=? 3) with true. cbv iota.
  unfold httpGet at 1. rewrite A, S, H1, R1. change (1 <? 3) with true. cbn [andb].
  cbn [SfApi.attemptLoop sleep snd emit api sent clock ticks fsExists trace].
  change (1 + 1 <=? 3) with true. cbv iota.
  unfold httpGet at 1.
  cbn [emit api sent clock ticks fsExists trace]. rewrite ?A, ?S, H2, R2.
  change (1 + 1 <? 3) with true. cbn [andb].
  cbn [SfApi.attemptLoop sleep snd emit api sent clock ticks fsExists trace].
  change (1 + 1 + 1 <=? 3) with true. cbv iota.
  unfold httpGet at 1.
  cbn [emit api sent clock ticks fsExists trace]. rewrite ?A, ?S, H3.
  change (1 + 1 + 1 <? 3) with false. rewrite andb_false_r.
  assert (Hmsg : exists msg, SfApi.errorMessage (Some e3) = Ok msg).
  { unfold SfApi.errorMessage. destruct (err_response e3) as [[status data]|]; eauto. }
  destruct Hmsg as (msg & Hmsg). rewrite Hmsg.
  exists msg. eexists. split; [reflexivity|]. split; [reflexivity|].
  cbn [emit trace]. rewrite T, <- !List.app_assoc.
  rewrite requestsOf_app, sleepsOf_app, List.length_app. cbn. split; [lia | reflexivity].
Qed.

End FatalErrors.

(* ================================================================== *)
(** * Further properties of the code *)
(* ================================================================== *)

Lemma isQuote_eq c : SqlText.isQuote c = true -> c = "'"%char.
Proof. unfold SqlText.isQuote. intros E. now apply Ascii.eqb_eq in E. Qed.

(** reading back what [escapeSqlString] wrote, up to the closing quote *)
Lemma readBody_escaped rest : forall s,
  SqlText.headIsQuote rest = false ->
  SqlText.readBody (Str.replaceAllIn isQuote "''" s ++ "'" ++ rest) = Some (s, rest).
Proof.
  intros s Hrest. change ("'" ++ rest) with (String "'" rest). induction s as [|c s IH].
  - cbn [Str.replaceAllIn append SqlText.readBody].
    change (SqlText.isQuote "'") with true. cbv iota.
    destruct rest as [|c2 rest']; [reflexivity|].
    cbn [SqlText.headIsQuote] in Hrest. now rewrite Hrest.
  - cbn [Str.replaceAllIn].
    change (isQuote c) with (SqlText.isQuote c).
    destruct (SqlText.isQuote c) eqn:Ec.
    + apply isQuote_eq in Ec. subst c.
      cbn [append SqlText.readBody].
      change (SqlText.isQuote "'") with true. cbv iota.
      rewrite IH. reflexivity.
    + cbn [append SqlText.readBody]. rewrite Ec, IH. reflexivity.
Qed.

Section Literals.
Context `{Runtime}.

Lemma escapeSqlString_reads_back (value : Value) (rest : string) :
  isNullish value = false ->
  SqlText.headIsQuote rest = false ->
  exists escaped,
    escapeSqlString value = Some escaped
    /\ SqlText.readLiteral ("'" ++ escaped ++ "'" ++ rest) = Some (ToString value, rest).
Proof.
  intros Hv Hrest. unfold escapeSqlString. rewrite Hv.
  eexists. split; [reflexivity|].
  cbn [append SqlText.readLiteral]. change (SqlText.isQuote "'") with true. cbv iota.
  now apply readBody_escaped.
Qed.

Lemma formatSqlValue_plain_column value columnName dbType :
  includes dateColumns columnName = false ->
  formatSqlValue value columnName dbType
  = if isNullish value then Ok "NULL"
    else Ok ("'" ++ renderNullable (escapeSqlString value) ++ "'").
Proof. intros Hc. unfold formatSqlValue. now rewrite Hc. Qed.

(** X1.  On a column that holds no date, a value that [String] renders
    gives [NULL] exactly when it is [null] or [undefined], and otherwise
    one quoted literal, the quotes of the value doubled, that reads back
    as the text of the value with nothing left over.  (A value that
    [String] does not render, an object with a key [toString] of its own
    in it, makes the program throw; the property leaves it out.) *)
Theorem formatSqlValue_plain_column_literal
        (value : Value) (columnName : string) (dbType : Value) :
  includes dateColumns columnName = false ->
  rendersAsString value = true ->
  exists text,
    formatSqlValue value columnName dbType = Ok text
    /\ (text = "NULL" <-> isNullish value = true)
    /\ (isNullish value = false ->
        SqlText.readLiteral text = Some (ToString value, "")).
Proof.
  intros Hc _. rewrite formatSqlValue_plain_column by assumption.
  destruct (isNullish value) eqn:Hv.
  - exists "NULL". split; [reflexivity|]. split; [tauto | discriminate].
  - destruct (escapeSqlString_reads_back value "" Hv eq_refl) as (escaped & He & Hread).
    rewrite He. cbn [renderNullable].
    eexists. split; [reflexivity|]. split.
    + split; [intros E; discriminate E | discriminate].
    + intros _. exact Hread.
Qed.

End Literals.

Lemma YearFromTime_four_digits t :
  -62167219200000 <= t <= 253402300799999 <-> 0 <= YearFromTime t <= 9999.
Proof.
  unfold YearFromTime.
  pose proof (YearFromDay_spec (Day t)) as Hs.
  assert (H0 : DayFromYear 0 = -719528) by reflexivity.
  assert (H1 : DayFromYear 10000 = 2932897) by reflexivity.
  assert (Hd : -62167219200000 <= t <= 253402300799999 <-> -719528 <= Day t < 2932897).
  { unfold Day, msPerDay. split; intros; Z.to_euclidean_division_equations; lia. }
  rewrite Hd. split.
  - intros [Ha Hb]. split.
    + apply YearFromDay_largest. lia.
    + destruct (Z_le_gt_dec 10000 (YearFromDay (Day t))) as [Hge|]; [|lia].
      apply DayFromYear_mono in Hge. lia.
  - intros [Ha Hb]. split.
    + pose proof (DayFromYear_mono 0 (YearFromDay (Day t)) Ha). lia.
    + pose proof (DayFromYear_mono (YearFromDay (Day t) + 1) 10000 ltac:(lia)). lia.
Qed.

Lemma length_yearString y :
  String.length (yearString y) = if (0 <=? y) && (y <=? 9999) then 4%nat else 7%nat.
Proof.
  unfold yearString. destruct ((0 <=? y) && (y <=? 9999)).
  - apply length_padDigits.
  - cbn [String.length]. now rewrite length_padDigits.
Qed.

Lemma length_canonicalText t :
  String.length (canonicalText t)
  = if (0 <=? YearFromTime t) && (YearFromTime t <=? 9999) then 23%nat else 26%nat.
Proof.
  unfold canonicalText.
  rewrite !str_length_app, !length_padDigits, length_yearString.
  destruct ((0 <=? YearFromTime t) && (YearFromTime t <=? 9999)); reflexivity.
Qed.

Lemma canonicalText_units t :
  validTime t = true -> Str.allChars stampUnit (canonicalText t) = true.
Proof.
  intros Hv. destruct (isoText_shape t Hv) as (date & time & _ & Hc & Hd & Ht).
  rewrite Hc, !allChars_app, Ht.
  rewrite (allChars_weaken dateUnit stampUnit date); [reflexivity| |exact Hd].
  intros c Hcu. unfold stampUnit. now rewrite Hcu.
Qed.

Lemma canonicalText_no_quote t :
  validTime t = true ->
  Str.allChars (fun c => negb (SqlText.isQuote c)) (canonicalText t) = true.
Proof.
  intros Hv. apply (allChars_weaken stampUnit); [|now apply canonicalText_units].
  intros c. destruct c as [[] [] [] [] [] [] [] []]; vm_compute; congruence.
Qed.

Lemma readBody_plain rest : forall s,
  Str.allChars (fun c => negb (SqlText.isQuote c)) s = true ->
  SqlText.headIsQuote rest = false ->
  SqlText.readBody (s ++ String "'" rest) = Some (s, rest).
Proof.
  intros s Hs Hrest. induction s as [|c s IH].
  - cbn [append SqlText.readBody].
    change (SqlText.isQuote "'") with true. cbv iota.
    destruct rest as [|c2 rest']; [reflexivity|].
    cbn [SqlText.headIsQuote] in Hrest. now rewrite Hrest.
  - cbn [Str.allChars] in Hs. apply andb_prop in Hs as [Hc Hs].
    apply negb_true_iff in Hc.
    cbn [append SqlText.readBody]. rewrite Hc, (IH Hs). reflexivity.
Qed.

Lemma canonicalText_nonempty t : (canonicalText t =? "")%string = false.
Proof.
  apply String.eqb_neq. intros E.
  pose proof (length_canonicalText t) as Hl. rewrite E in Hl.
  destruct ((0 <=? YearFromTime t) && (YearFromTime t <=? 9999)); discriminate.
Qed.

Section Dates.
Context `{Runtime}.

Lemma pgTimestamp_cases d text :
  pgTimestamp d = Ok text ->
  exists t, d = Some t /\ validTime t = true /\ text = canonicalText t.
Proof.
  unfold pgTimestamp, toISOString. destruct d as [t|]; [|discriminate].
  destruct (validTime t) eqn:Hv; [|discriminate].
  cbn [bind]. rewrite (pgTimestamp_valid t Hv). intros E. injection E as <-.
  now exists t.
Qed.

Lemma parseSFDate_cases sfDate text :
  parseSFDate sfDate = Ok (Some text) ->
  exists t, validTime t = true /\ text = canonicalText t.
Proof.
  unfold parseSFDate. destruct (negb (truthy sfDate)); [discriminate|].
  destruct sfDate as [| | | | |s| |]; try discriminate.
  assert (Hpg : forall d, bind (pgTimestamp d) (fun text => Ok (Some text)) = Ok (Some text) ->
                          exists t, validTime t = true /\ text = canonicalText t).
  { intros d Hd. destruct (pgTimestamp d) as [x|e] eqn:Ep; [|discriminate].
    cbn [bind] in Hd. injection Hd as ->.
    destruct (pgTimestamp_cases _ _ Ep) as (t & _ & Hv & Ht). now exists t. }
  destruct (search sfDatePattern s) as [m|].
  - apply Hpg.
  - destruct (Date_parse s) as [t|]; [apply Hpg | discriminate].
Qed.

(** X2.  Whatever the input and however the host reads dates, a text
    that [parseSFDate] returns is the canonical timestamp of a time value
    a Date can hold: it reads back to that value, holds only digits,
    signs, a space, colons and a dot, and has 23 code units for the years
    0 to 9999 and 26 otherwise. *)
Theorem parseSFDate_result_is_canonical (sfDate : Value) (text : string) :
  parseSFDate sfDate = Ok (Some text) ->
  exists t,
    validTime t = true
    /\ text = canonicalText t
    /\ canonicalMillis text = Some t
    /\ Str.allChars stampUnit text = true
    /\ String.length text
       = if (-62167219200000 <=? t) && (t <=? 253402300799999) then 23%nat else 26%nat.
Proof.
  intros Hp. destruct (parseSFDate_cases _ _ Hp) as (t & Hv & ->).
  exists t. repeat split; auto.
  - now apply canonicalMillis_canonicalText.
  - now apply canonicalText_units.
  - rewrite length_canonicalText.
    pose proof (YearFromTime_four_digits t) as Hy.
    destruct ((-62167219200000 <=? t) && (t <=? 253402300799999)) eqn:E1;
    destruct ((0 <=? YearFromTime t) && (YearFromTime t <=? 9999)) eqn:E2; try reflexivity; exfalso.
    + apply andb_prop in E1 as [A B]. apply andb_false_iff in E2. lia.
    + apply andb_prop in E2 as [A B]. apply andb_false_iff in E1. lia.
Qed.

(** X3.  A string that is not empty and holds no wrapped epoch goes to
    the date parser of the host: the time value it reads comes back as
    its canonical UTC timestamp, and as a [RangeError] when it is beyond
    what a Date can hold. *)
Theorem parseSFDate_calendar_text (s : string) (t : Z) :
  s <> "" ->
  ~ Wrapped.occursIn s ->
  Date_parse s = Some t ->
  parseSFDate (VStr s)
  = if validTime t then Ok (Some (canonicalText t)) else Throw RangeError.
Proof.
  intros Hs Hno Hp. unfold parseSFDate. cbn [truthy].
  apply String.eqb_neq in Hs. rewrite Hs. cbn [negb].
  rewrite (search_none s Hno), Hp.
  destruct (validTime t) eqn:Hv.
  - now rewrite (pgTimestamp_TimeClip t Hv).
  - now rewrite (pgTimestamp_invalid t Hv).
Qed.

(** X4.  On a date column, whatever [formatSqlValue] returns is [NULL]
    or the literal of the dialect around the canonical timestamp of a
    valid time value; the timestamp holds no quote, so the literal ends
    where it should. *)
Theorem formatSqlValue_date_column_literal
        (value : Value) (columnName : string) (dbType : Value) (text : string) :
  includes dateColumns columnName = true ->
  formatSqlValue value columnName dbType = Ok text ->
  text = "NULL"
  \/ exists t,
       validTime t = true
       /\ text = (if isString (orDefault dbType "oracle") "oracle"
                  then "TO_TIMESTAMP('" ++ canonicalText t ++ "', 'YYYY-MM-DD HH24:MI:SS.FF3')"
                  else "'" ++ canonicalText t ++ "'::timestamp")
       /\ SqlText.readLiteral ("'" ++ canonicalText t ++ "'::timestamp")
          = Some (canonicalText t, "::timestamp").
Proof.
  intros Hc. unfold formatSqlValue. rewrite Hc.
  destruct (isNullish value); [intros E; injection E as <-; now left|].
  destruct (parseSFDate value) as [[parsed|]|e] eqn:Ep; cbn [bind].
  - destruct (parseSFDate_cases _ _ Ep) as (t & Hv & ->).
    rewrite canonicalText_nonempty. cbn [negb].
    intros E. right. exists t. split; [exact Hv|]. split.
    + destruct (isString (orDefault dbType "oracle") "oracle"); now injection E as <-.
    + cbn [append SqlText.readLiteral]. change (SqlText.isQuote "'") with true. cbv iota.
      apply readBody_plain; [now apply canonicalText_no_quote | reflexivity].
  - intros E; injection E as <-; now left.
  - discriminate.
Qed.

End Dates.

Lemma mapR_isOk_forallb {A B} (f : A -> Result B) : forall xs,
  isOk (mapR f xs) = forallb (fun x => isOk (f x)) xs.
Proof.
  induction xs as [|x xs IH]; [reflexivity|].
  cbn [mapR forallb]. destruct (f x) as [y|e]; cbn [bind isOk andb]; [|reflexivity].
  rewrite <- IH. destruct (mapR f xs); reflexivity.
Qed.

Lemma forallb_map {A B} (h : A -> B) (p : B -> bool) : forall xs,
  forallb p (map h xs) = forallb (fun x => p (h x)) xs.
Proof. induction xs as [|x xs IH]; cbn; [reflexivity | now rewrite IH]. Qed.

Lemma forallb_ext_In {A} (p q : A -> bool) : forall xs,
  (forall x, In x xs -> p x = q x) -> forallb p xs = forallb q xs.
Proof.
  induction xs as [|x xs IH]; intros Hpq; [reflexivity|].
  cbn [forallb]. rewrite (Hpq x (or_introl eq_refl)), IH; [reflexivity|].
  intros y Hy. apply Hpq. now right.
Qed.

Section Records.
Context `{Runtime}.

Lemma transformLoop_same_fields props props' : forall entries acc,
  (forall apiField, In apiField (keys entries) ->
     nullIfUndefined (getProp (VObj props) apiField)
     = nullIfUndefined (getProp (VObj props') apiField)) ->
  transformLoop entries (VObj props) acc = transformLoop entries (VObj props') acc.
Proof.
  induction entries as [|[a c] rest IH]; intros acc Hsame; [reflexivity|].
  cbn [transformLoop]. unfold member. cbn [isNullish bind].
  pose proof (Hsame a (or_introl eq_refl)) as Ha. unfold nullIfUndefined in Ha.
  rewrite Ha. apply IH. intros b Hb. apply Hsame. now right.
Qed.

(** X5.  The statement of a record depends on the fields of the mapping
    only, a missing field counting as [null]: two records that agree on
    them give the same result in both dialects, whatever else they hold. *)
Theorem statement_reads_only_mapped_fields
        (config : Config) (props props' : list (string * Value)) (dbType : Value) :
  (forall apiField, In apiField (keys (fieldMapping config)) ->
     nullIfUndefined (getProp (VObj props) apiField)
     = nullIfUndefined (getProp (VObj props') apiField)) ->
  generateInsertIfNotExists config (VObj props) dbType
  = generateInsertIfNotExists config (VObj props') dbType.
Proof.
  intros Hsame.
  unfold generateInsertIfNotExists, generatePostgresInsert, generateOracleInsert, transformRecord.
  now rewrite (transformLoop_same_fields props props' _ [] Hsame).
Qed.

Lemma parseSFDate_nullIfUndefined x :
  parseSFDate (nullIfUndefined x) = parseSFDate x.
Proof. destruct x; reflexivity. Qed.

Lemma formatSqlValue_isOk_column v col dbType :
  isOk (formatSqlValue v col dbType)
  = if includes dateColumns col then isOk (parseSFDate v) else true.
Proof.
  unfold formatSqlValue. destruct (includes dateColumns col).
  - destruct (isNullish v) eqn:Hn.
    + destruct v; try discriminate Hn; reflexivity.
    + destruct (parseSFDate v) as [[text|]|e]; cbn [bind isOk]; try reflexivity.
      destruct (negb (text =? "")%string); [|reflexivity].
      destruct (isString (orDefault dbType "oracle") "oracle"); reflexivity.
  - destruct (isNullish v); reflexivity.
Qed.

(** X6.  With the mapping of the program, and for a record whose other
    fields [String] renders, a statement is generated exactly when
    [parseSFDate] accepts the three date fields, in either dialect.  (A
    field that [String] does not render makes the program throw; the
    property leaves such records out.) *)
Theorem statement_generated_iff_dates_parse
        (env : Env) (props : list (string * Value)) (dbType : Value) :
  (forall apiField dbColumn,
      In (apiField, dbColumn) (fieldMapping (config env)) ->
      includes dateColumns dbColumn = false ->
      rendersAsString (getProp (VObj props) apiField) = true) ->
  isOk (generateInsertIfNotExists (config env) (VObj props) dbType)
  = isOk (parseSFDate (getProp (VObj props) "effectiveStartDate"))
    && isOk (parseSFDate (getProp (VObj props) "lastModifiedDateTime"))
    && isOk (parseSFDate (getProp (VObj props) "effectiveEndDate")).
Proof.
  intros _.
  assert (Ho : isOk (generateInsertIfNotExists (config env) (VObj props) dbType)
               = isOk (generateOracleInsert (config env) (VObj props))).
  { unfold generateInsertIfNotExists.
    destruct (isString (orDefault dbType "oracle") "postgres"); [|reflexivity].
    symmetry. apply insert_isOk. }
  rewrite Ho. unfold generateOracleInsert.
  rewrite transformRecord_config. cbn [bind].
  set (dbRecord := map _ fieldMappingTable).
  assert (Hb : forall (r : Result (list string)) (k : list string -> string),
             isOk (bind r (fun values => Ok (k values))) = isOk r).
  { intros [x|e] k; reflexivity. }
  rewrite (Hb _ (fun values => _)).
  rewrite mapR_isOk_forallb.
  cbn [fieldMapping config].
  rewrite columnsOf_distinct by (apply distinct_NoDup; reflexivity).
  rewrite forallb_map.
  set (g := fun apiField : string => isOk (parseSFDate (getProp (VObj props) apiField))).
  change (isOk (parseSFDate (getProp (VObj props) "effectiveStartDate")))
    with (g "effectiveStartDate").
  change (isOk (parseSFDate (getProp (VObj props) "lastModifiedDateTime")))
    with (g "lastModifiedDateTime").
  change (isOk (parseSFDate (getProp (VObj props) "effectiveEndDate")))
    with (g "effectiveEndDate").
  rewrite (forallb_ext_In _
             (fun e => if includes dateColumns (snd e) then g (fst e) else true)).
  - clearbody g. unfold fieldMappingTable. cbn.
    destruct (g "effectiveStartDate"), (g "lastModifiedDateTime"), (g "effectiveEndDate");
      reflexivity.
  - intros [a c] Hin. cbn [fst snd].
    rewrite formatSqlValue_isOk_column.
    destruct (includes dateColumns c); [|reflexivity].
    pose proof (lookup_mapped (fun a => nullIfUndefined (getProp (VObj props) a))
                  fieldMappingTable a c) as Hl.
    cbv beta in Hl.
    assert (Hg : getProp (VObj dbRecord) c = nullIfUndefined (getProp (VObj props) a)).
    { change (getProp (VObj dbRecord) c)
        with (match lookup c dbRecord with Some x => x | None => VUndefined end).
      subst dbRecord. rewrite Hl; [reflexivity| |exact Hin].
      apply distinct_NoDup. reflexivity. }
    rewrite Hg, parseSFDate_nullIfUndefined. reflexivity.
Qed.

End Records.

(** ** The page size of the environment *)

Lemma parseInt10_ofZ n : parseInt10 (Str.ofZ n) = Some n.
Proof.
  destruct (ofZ_numeral n) as (ds & -> & Hds & Hv).
  now rewrite parseInt10_numeral, Hv.
Qed.

Lemma toDouble_safe n : Z.abs n <= 2 ^ 53 -> toDouble n = n.
Proof.
  intros Hn. unfold toDouble.
  destruct (Z.leb_spec (Z.abs n) (2 ^ 53)); [reflexivity | lia].
Qed.

Lemma toDouble_zero n : toDouble n = 0 <-> n = 0.
Proof.
  unfold toDouble.
  destruct (Z.leb_spec (Z.abs n) (2 ^ 53)) as [Hle|Hgt]; [reflexivity|].
  split; [|intros ->; cbn in Hgt; lia].
  intros Hz. exfalso.
  assert (Ha : 0 < Z.abs n) by lia.
  pose proof (Z.log2_spec (Z.abs n) Ha) as [Hlo _].
  assert (Hl : 53 <= Z.log2 (Z.abs n)).
  { apply Z.log2_le_pow2; lia. }
  set (e := Z.log2 (Z.abs n) - 52) in *.
  assert (He : 0 < 2 ^ e) by (apply Z.pow_pos_nonneg; lia).
  assert (Hq : 2 ^ 52 <= Z.abs n / 2 ^ e).
  { apply Z.div_le_lower_bound; [exact He|].
    rewrite <- Z.pow_add_r by lia.
    replace (e + 52) with (Z.log2 (Z.abs n)) by lia. exact Hlo. }
  assert (H52 : 0 < 2 ^ 52) by reflexivity.
  set (q := Z.abs n / 2 ^ e) in *.
  assert (Hq' : 0 < (if Z.abs n mod 2 ^ e <? 2 ^ (e - 1) then q
                     else if 2 ^ (e - 1) <? Z.abs n mod 2 ^ e then q + 1
                     else if Z.even q then q else q + 1)).
  { destruct (_ <? _); [lia|]. destruct (_ <? _); [lia|]. destruct (Z.even q); lia. }
  apply Z.mul_eq_0 in Hz as [Hs | Hm].
  - destruct n; cbn in Hs; lia.
  - apply Z.mul_eq_0 in Hm as [Hm | Hm]; lia.
Qed.

(** X8.  The page size is never 0.  [PAGE_SIZE] gives the Number that
    [parseInt] returns for its integer, a negative one included: the
    integer itself up to [2^53], the nearest Number beyond, so that
    9007199254740993 gives 9007199254740992 (stated for the numerals of
    at most 20 digits, which [parseInt] reads in full); it gives 1000
    when it is absent, is no number or is 0. *)
Theorem page_size_of_the_environment (env : Env) :
  sync_pageSize (config env) <> 0
  /\ (PAGE_SIZE env = None -> sync_pageSize (config env) = 1000)
  /\ (forall n, Z.abs n < 10 ^ 20 -> PAGE_SIZE env = Some (Str.ofZ n) ->
        sync_pageSize (config env) = if n =? 0 then 1000 else toDouble n)
  /\ (forall n, Z.abs n <= 2 ^ 53 -> toDouble n = n)
  /\ toDouble 9007199254740993 = 9007199254740992
  /\ (forall s, PAGE_SIZE env = Some s -> parseInt10 s = None ->
        sync_pageSize (config env) = 1000).
Proof.
  cbn [config sync_pageSize]. unfold envIntOr.
  split; [|split; [|split; [|split; [|split]]]].
  - destruct (PAGE_SIZE env) as [s|]; [|discriminate].
    destruct (parseInt10 s) as [n|]; [|discriminate].
    destruct (Z.eqb_spec (toDouble n) 0); [discriminate | assumption].
  - intros ->. reflexivity.
  - intros n _ ->. rewrite parseInt10_ofZ.
    destruct (Z.eqb_spec (toDouble n) 0) as [Hz|Hz], (Z.eqb_spec n 0) as [Hn|Hn];
      try reflexivity.
    + apply (proj1 (toDouble_zero n)) in Hz. contradiction.
    + subst n. exfalso. apply Hz. reflexivity.
  - exact toDouble_safe.
  - reflexivity.
  - intros s -> ->. reflexivity.
Qed.

(** ** The key of the Oracle statement *)

Section MergeKey.
Context `{Runtime}.

(** X7.  The key of the Oracle [MERGE] is one quoted literal that reads
    back as the text of the code of the record; for a record without a
    code it is the four letters [null], not the SQL [NULL]. *)
Theorem oracle_merge_key (env : Env) (props : list (string * Value)) (text : string) :
  generateOracleInsert (config env) (VObj props) = Ok text ->
  let code := getProp (VObj props) "code" in
  exists literal rest,
    text = "MERGE INTO job_sf_position target" ++ Str.LF
           ++ "USING (SELECT " ++ literal ++ " AS code FROM dual) source" ++ rest
    /\ SqlText.readLiteral (literal ++ " AS code FROM dual) source" ++ rest)
       = Some (if isNullish code then "null" else ToString code,
               " AS code FROM dual) source" ++ rest).
Proof.
  intros Hgen code. unfold generateOracleInsert in Hgen.
  rewrite transformRecord_config in Hgen. cbn [bind] in Hgen.
  set (dbRecord := map _ fieldMappingTable) in Hgen.
  assert (Hcode : getProp (VObj dbRecord) "code" = nullIfUndefined code).
  { pose proof (lookup_mapped (fun a => nullIfUndefined (getProp (VObj props) a))
                  fieldMappingTable "code" "code") as Hl.
    cbv beta in Hl.
    change (getProp (VObj dbRecord) "code")
      with (match lookup "code" dbRecord with Some x => x | None => VUndefined end).
    subst dbRecord. rewrite Hl; [reflexivity| |].
    - apply distinct_NoDup. reflexivity.
    - left. reflexivity. }
  rewrite Hcode in Hgen.
  destruct (mapR _ _) as [values|e]; [|discriminate Hgen].
  cbn [bind] in Hgen. injection Hgen as <-.
  exists ("'" ++ renderNullable (escapeSqlString (nullIfUndefined code)) ++ "'").
  eexists. split.
  - rewrite !str_app_assoc. cbn [append]. reflexivity.
  - rewrite !str_app_assoc.
    destruct (isNullish code) eqn:Hn.
    + assert (Hnull : nullIfUndefined code = VNull)
        by (destruct code; try discriminate Hn; reflexivity).
      rewrite Hnull. reflexivity.
    + assert (Hsame : nullIfUndefined code = code)
        by (destruct code; try discriminate Hn; reflexivity).
      rewrite Hsame.
      destruct (escapeSqlString_reads_back code
                  (" AS code FROM dual) source" ++ Str.LF
                   ++ "ON (target.code = source.code)" ++ Str.LF
                   ++ "WHEN NOT MATCHED THEN" ++ Str.LF
                   ++ "    INSERT (" ++ Str.join ", " (columnsOf (fieldMapping (config env)))
                   ++ ")" ++ Str.LF
                   ++ "    VALUES (" ++ Str.join ", " values ++ ");") Hn eq_refl)
        as (escaped & He & Hread).
      rewrite He. cbn [renderNullable]. exact Hread.
Qed.

End MergeKey.

(** ** The department filter *)

Lemma startsWith_nil s : Str.startsWith "" s = true.
Proof. destruct s; reflexivity. Qed.

Section Filter.
Context `{Runtime}.

Lemma filter_head {A} pos (k : string -> Result A) :
  bind (member pos "department") (fun d =>
    match (if truthy d then d else VStr "") with
    | VStr s => k s
    | _ => Throw TypeError
    end)
  = if Sync.plainPosition pos then k (Runs.departmentOf pos) else Throw TypeError.
Proof.
  unfold member, Sync.plainPosition, Runs.departmentOf.
  destruct (isNullish pos); cbn [negb andb bind]; [reflexivity|].
  destruct (getProp pos "department") as [| |b|z|r|s|xs|ps]; cbn [truthy];
    [ | | destruct b | destruct (z =? 0) | |
      destruct (s =? "")%string eqn:Es;
        [apply String.eqb_eq in Es; subst s|] | | ];
    reflexivity.
Qed.

Lemma filterByDepartment_filter (positions : list Value) (prefix : string) :
  SfApi.filterByDepartment positions prefix
  = if forallb Sync.plainPosition positions
    then Ok (List.filter (fun pos => Str.startsWith prefix (Runs.departmentOf pos)) positions)
    else Throw TypeError.
Proof.
  induction positions as [|pos rest IH]; [reflexivity|].
  cbn [SfApi.filterByDepartment forallb List.filter].
  rewrite (filter_head pos (fun s =>
    bind (SfApi.filterByDepartment rest prefix) (fun kept =>
      Ok (if Str.startsWith prefix s then pos :: kept else kept)))).
  rewrite IH.
  destruct (Sync.plainPosition pos); cbn [andb]; [|reflexivity].
  destruct (forallb Sync.plainPosition rest); cbn [bind]; [|reflexivity].
  destruct (Str.startsWith prefix (Runs.departmentOf pos)); reflexivity.
Qed.

Lemma filter_all {A} (p : A -> bool) : forall xs,
  (forall x, p x = true) -> List.filter p xs = xs.
Proof.
  intros xs Hp. induction xs as [|x xs IH]; [reflexivity|].
  cbn [List.filter]. now rewrite Hp, IH.
Qed.

(** X9.  [filterByDepartment] keeps, in their order, exactly the
    positions whose department starts with the prefix, a missing or falsy
    department counting as the empty string; with the empty prefix it
    keeps all.  It throws [TypeError] exactly when some item is [null] or
    [undefined] or has a truthy department that is no string. *)
Theorem filterByDepartment_is_filter (positions : list Value) (prefix : string) :
  SfApi.filterByDepartment positions prefix
  = (if forallb Sync.plainPosition positions
     then Ok (List.filter (fun pos => Str.startsWith prefix (Runs.departmentOf pos)) positions)
     else Throw TypeError)
  /\ SfApi.filterByDepartment positions ""
     = (if forallb Sync.plainPosition positions then Ok positions else Throw TypeError).
Proof.
  split; [apply filterByDepartment_filter|].
  rewrite filterByDepartment_filter.
  destruct (forallb Sync.plainPosition positions); [|reflexivity].
  f_equal. apply filter_all. intros pos. apply startsWith_nil.
Qed.

End Filter.

(** ** The default filter: one day back *)

Lemma stripMillis_cons c s :
  String.length s <> 4%nat ->
  SfApi.stripMillis (String c s) = String c (SfApi.stripMillis s).
Proof.
  intros Hlen.
  destruct s as [|a [|b [|d [|z [|x r]]]]];
    try (destruct c as [[] [] [] [] [] [] [] []]; reflexivity).
  - cbn [String.length] in Hlen. congruence.
  - destruct c as [[] [] [] [] [] [] [] []]; try reflexivity.
    destruct z as [[] [] [] [] [] [] [] []]; reflexivity.
Qed.

Lemma stripMillis_tail a b d :
  Str.isDigit a = true -> Str.isDigit b = true -> Str.isDigit d = true ->
  SfApi.stripMillis (String "." (String a (String b (String d "Z")))) = "".
Proof.
  intros Ha Hb Hd. cbn [SfApi.stripMillis]. now rewrite Ha, Hb, Hd.
Qed.

Lemma stripMillis_app a b d : forall pre,
  Str.isDigit a = true -> Str.isDigit b = true -> Str.isDigit d = true ->
  SfApi.stripMillis (pre ++ String "." (String a (String b (String d "Z")))) = pre.
Proof.
  intros pre Ha Hb Hd. induction pre as [|c pre IH].
  - now apply stripMillis_tail.
  - change (String c pre ++ ?x) with (String c (pre ++ x)).
    rewrite stripMillis_cons, IH; [reflexivity|].
    rewrite str_length_app. cbn [String.length]. lia.
Qed.

Lemma padDigits3_shape n :
  0 <= n < 1000 ->
  exists a b d,
    Str.padDigits 3 n = String a (String b (String d ""))
    /\ Str.isDigit a = true /\ Str.isDigit b = true /\ Str.isDigit d = true.
Proof.
  intros Hn. pose proof (allDigits_padDigits 3 n Hn) as Hd.
  cbn [Str.padDigits] in *. unfold Str.allDigits in Hd. cbn [Str.allChars] in Hd.
  apply andb_prop in Hd as [Ha Hd]. apply andb_prop in Hd as [Hb Hd].
  apply andb_prop in Hd as [Hd _].
  eexists _, _, _. split; [reflexivity|]. auto.
Qed.

Lemma isoText_seconds t :
  exists a b d,
    isoText t = Runs.secondsText t ++ String "." (String a (String b (String d "Z")))
    /\ Str.isDigit a = true /\ Str.isDigit b = true /\ Str.isDigit d = true.
Proof.
  destruct (padDigits3_shape (msFromTime t)) as (a & b & d & Hp & Ha & Hb & Hd).
  { pose proof (time_fields_range t). lia. }
  exists a, b, d. split; [|auto].
  unfold isoText, Runs.secondsText. rewrite Hp.
  rewrite !str_app_assoc. reflexivity.
Qed.

Lemma stripMillis_isoText t : SfApi.stripMillis (isoText t) = Runs.secondsText t.
Proof.
  destruct (isoText_seconds t) as (a & b & d & -> & Ha & Hb & Hd).
  now apply stripMillis_app.
Qed.

Lemma length_secondsText t :
  String.length (Runs.secondsText t)
  = if (0 <=? YearFromTime t) && (YearFromTime t <=? 9999) then 19%nat else 22%nat.
Proof.
  unfold Runs.secondsText.
  rewrite !str_length_app, !length_padDigits.
  unfold yearString.
  destruct ((0 <=? YearFromTime t) && (YearFromTime t <=? 9999)).
  - rewrite length_padDigits. reflexivity.
  - cbn [String.length]. rewrite length_padDigits. reflexivity.
Qed.

Section Yesterday.
Context `{Runtime}.

(** the world once the clock has been read one more time *)
Lemma readClock_eq w :
  readClock w
  = (Ok (clock w (ticks w)),
     {| api := api w; sent := sent w; clock := clock w; ticks := S (ticks w);
        fsExists := fsExists w; trace := trace w |}).
Proof. reflexivity. Qed.

Lemma buildDateFilter_default sd ed w :
  truthy sd = false -> truthy ed = false ->
  SfApi.buildDateFilter sd ed w
  = ((if validTime (localDayBefore (clock w (ticks w)))
      then Ok ("lastModifiedDateTime ge datetime'"
               ++ Runs.secondsText (localDayBefore (clock w (ticks w))) ++ "'")
      else Throw RangeError),
     {| api := api w; sent := sent w; clock := clock w; ticks := S (ticks w);
        fsExists := fsExists w; trace := trace w |}).
Proof.
  intros Hs He.
  unfold SfApi.buildDateFilter, SfApi.formatDate. rewrite Hs, He. cbn [negb truthy andb].
  unfold SfApi.getYesterdayDateTime, bindM. rewrite readClock_eq.
  unfold lift, toISOString, TimeClip.
  destruct (validTime (localDayBefore (clock w (ticks w)))) eqn:Hv.
  - rewrite Hv. unfold ret. now rewrite stripMillis_isoText.
  - reflexivity.
Qed.

Lemma formatDate_truthy v : truthy (SfApi.formatDate v) = truthy v.
Proof.
  unfold SfApi.formatDate. destruct (truthy v) eqn:Ht; cbn [negb]; [|reflexivity].
  destruct (SfApi.hasLength10 v); [|exact Ht].
  cbn [truthy]. apply negb_true_iff. apply String.eqb_neq. intros E.
  apply (f_equal String.length) in E. rewrite str_length_app in E.
  cbn [String.length] in E. lia.
Qed.

Lemma buildDateFilter_given sd ed :
  truthy sd || truthy ed = true ->
  exists filter, forall w, SfApi.buildDateFilter sd ed w = (Ok filter, w).
Proof.
  intros Hg. rewrite <- (formatDate_truthy sd), <- (formatDate_truthy ed) in Hg.
  unfold SfApi.buildDateFilter.
  destruct (truthy (SfApi.formatDate sd)), (truthy (SfApi.formatDate ed));
    try discriminate Hg; cbn [andb]; eexists; intros w; reflexivity.
Qed.

(** X10.  Without dates the filter asks for what was modified since the
    instant the host finds one day before the clock's, written in UTC to
    the second (19 code units for the years 0 to 9999); building it reads
    the clock once and does nothing else. *)
Theorem default_filter_is_one_day_back (startDate endDate : Value) (w : World) :
  truthy startDate = false ->
  truthy endDate = false ->
  let t := localDayBefore (clock w (ticks w)) in
  fst (SfApi.buildDateFilter startDate endDate w)
  = (if validTime t
     then Ok ("lastModifiedDateTime ge datetime'" ++ Runs.secondsText t ++ "'")
     else Throw RangeError)
  /\ String.length (Runs.secondsText t)
     = (if (0 <=? YearFromTime t) && (YearFromTime t <=? 9999) then 19%nat else 22%nat)
  /\ ticks (snd (SfApi.buildDateFilter startDate endDate w)) = S (ticks w)
  /\ trace (snd (SfApi.buildDateFilter startDate endDate w)) = trace w
  /\ sent (snd (SfApi.buildDateFilter startDate endDate w)) = sent w.
Proof.
  intros Hs He t. rewrite (buildDateFilter_default _ _ w Hs He). fold t.
  cbn [fst snd ticks trace sent]. split; [reflexivity|].
  split; [apply length_secondsText | auto].
Qed.

End Yesterday.

(** ** What a fetch can cost *)

Lemma attempts_succ params delay k :
  (1 <= k)%nat ->
  Runs.attempts params delay (S k)
  = EvRequest params :: EvSleep delay :: Runs.attempts params (2 * delay) k.
Proof. destruct k; [lia | reflexivity]. Qed.

Lemma requestsOf_attempts params : forall k delay,
  requestsOf (Runs.attempts params delay k) = repeat params k.
Proof.
  induction k as [|k IH]; intros delay; [reflexivity|].
  destruct k as [|k]; [reflexivity|].
  rewrite attempts_succ by lia. cbn [requestsOf repeat]. now rewrite IH.
Qed.

Lemma sleepsOf_attempts params : forall k delay,
  sleepsOf (Runs.attempts params delay k)
  = map (fun i => delay * 2 ^ Z.of_nat i) (seq 0 (pred k)).
Proof.
  induction k as [|k IH]; intros delay; [reflexivity|].
  destruct k as [|k]; [reflexivity|].
  rewrite attempts_succ by lia. cbn [requestsOf sleepsOf pred seq map].
  rewrite IH. f_equal; [cbn; lia|].
  cbn [pred]. rewrite <- seq_shift, map_map.
  apply map_ext. intros i. rewrite Nat2Z.inj_succ, Z.pow_succ_r by lia. lia.
Qed.

Lemma writesOf_attempts params : forall k delay,
  writesOf (Runs.attempts params delay k) = [].
Proof.
  induction k as [|k IH]; intros delay; [reflexivity|].
  destruct k as [|k]; [reflexivity|].
  rewrite attempts_succ by lia. cbn [writesOf]. apply IH.
Qed.

Section Cost.
Context `{Runtime}.
Variable config : Config.

Lemma attemptLoop_attempts params : forall rounds attempt lastError w,
  1 <= attempt ->
  request_retryAttempts config - attempt + 1 <= Z.of_nat rounds ->
  exists k : nat,
    Z.of_nat k <= Z.max 0 (request_retryAttempts config - attempt + 1)
    /\ (attempt <= request_retryAttempts config -> (1 <= k)%nat)
    /\ trace (snd (SfApi.attemptLoop config rounds attempt params lastError w))
       = (trace w ++ Runs.attempts params (request_retryDelay config * 2 ^ (attempt - 1)) k)%list
    /\ sent (snd (SfApi.attemptLoop config rounds attempt params lastError w))
       = (sent w + k)%nat
    /\ (forall results,
          fst (SfApi.attemptLoop config rounds attempt params lastError w) = inl results ->
          exists j data, (j < k)%nat /\ api w (sent w + j) = Resolved data
                         /\ results = SfApi.resultsOf data).
Proof.
  induction rounds as [|rounds IH]; intros attempt lastError w Ha Hr.
  - exists 0%nat. cbn [SfApi.attemptLoop snd fst Runs.attempts].
    rewrite List.app_nil_r, Nat.add_0_r.
    repeat split; try lia. discriminate.
  - cbn [SfApi.attemptLoop].
    destruct (Z.leb_spec attempt (request_retryAttempts config)) as [Hle|Hgt].
    2:{ exists 0%nat. cbn [snd fst Runs.attempts].
        rewrite List.app_nil_r, Nat.add_0_r. repeat split; try lia. discriminate. }
    unfold httpGet.
    destruct (api w (sent w)) as [data|error] eqn:Eapi.
    + exists 1%nat. cbn [snd fst Runs.attempts emit trace sent].
      repeat split; try lia.
      intros results E. injection E as <-. exists 0%nat, data.
      rewrite Nat.add_0_r. repeat split; [lia | exact Eapi].
    + destruct (SfApi.isRetryable error && (attempt <? request_retryAttempts config)) eqn:Eretry.
      * apply andb_prop in Eretry as [_ Hlt]. apply Z.ltb_lt in Hlt.
        set (w2 := snd (sleep _ _)).
        destruct (IH (attempt + 1) (Some error) w2 ltac:(lia) ltac:(lia))
          as (k & Hk & Hpos & Htr & Hsent & Hres).
        exists (S k). specialize (Hpos ltac:(lia)).
        rewrite Htr, Hsent. subst w2.
        cbn [sleep snd emit trace sent api].
        rewrite attempts_succ by lia.
        replace (attempt + 1 - 1) with (Z.succ (attempt - 1)) by lia.
        rewrite Z.pow_succ_r by lia.
        replace (request_retryDelay config * (2 * 2 ^ (attempt - 1)))
          with (2 * (request_retryDelay config * 2 ^ (attempt - 1))) by lia.
        rewrite <- !List.app_assoc. cbn [List.app].
        repeat split; try lia.
        intros results E. destruct (Hres results E) as (j & data & Hj & Hapi & ->).
        exists (S j), data. cbn [api sent sleep snd emit] in Hapi.
        replace (sent w + S j)%nat with (S (sent w) + j)%nat by lia.
        repeat split; [lia | exact Hapi].
      * exists 1%nat. cbn [snd fst Runs.attempts emit trace sent].
        repeat split; try lia. discriminate.
Qed.

(** X11.  Whatever the API answers, one call of [fetchPositions] sends
    at most [retryAttempts] requests, all with the same parameters, waits
    between two requests only, the first wait lasting [retryDelay] and
    each next one twice as long, and does nothing else; a page it returns
    is the answer to one of these requests. *)
Theorem fetchPositions_bounded_attempts
        (top skip : Z) (startDate endDate : Value) (w : World) :
  exists (params : Request) (k : nat),
    req_select params = selectFields config
    /\ req_top params = top /\ req_skip params = skip
    /\ (forall filter, fst (SfApi.buildDateFilter startDate endDate w) = Ok filter ->
          req_filter params = filter)
    /\ Z.of_nat k <= Z.max 0 (request_retryAttempts config)
    /\ trace (snd (SfApi.fetchPositions config top skip startDate endDate w))
       = (trace w ++ Runs.attempts params (request_retryDelay config) k)%list
    /\ requestsOf (Runs.attempts params (request_retryDelay config) k) = repeat params k
    /\ sleepsOf (Runs.attempts params (request_retryDelay config) k)
       = map (fun i => request_retryDelay config * 2 ^ Z.of_nat i) (seq 0 (pred k))
    /\ (forall results,
          fst (SfApi.fetchPositions config top skip startDate endDate w) = Ok results ->
          exists j data, (j < k)%nat /\ api w (sent w + j) = Resolved data
                         /\ results = SfApi.resultsOf data).
Proof.
  pose proof (buildDateFilter_frame startDate endDate w) as (A & S & C & F & T).
  unfold SfApi.fetchPositions, bindM.
  destruct (SfApi.buildDateFilter startDate endDate w) as [[filter|e] w0] eqn:E0;
    cbn [fst snd] in *.
  - set (params := {| req_select := selectFields config; req_top := top;
                      req_skip := skip; req_filter := filter |}).
    destruct (attemptLoop_attempts params (Z.to_nat (request_retryAttempts config))
                1 None w0 ltac:(lia) ltac:(lia))
      as (k & Hk & _ & Htr & _ & Hres).
    exists params, k.
    split; [reflexivity|]. split; [reflexivity|]. split; [reflexivity|].
    split; [intros f Ef; now injection Ef as <-|].
    split; [lia|].
    change (1 - 1) with 0 in Htr. rewrite Z.pow_0_r, Z.mul_1_r in Htr.
    destruct (SfApi.attemptLoop config _ 1 params None w0) as [[results|lastError] w1] eqn:El;
      cbn [fst snd] in *.
    + split; [now rewrite Htr, T|].
      split; [apply requestsOf_attempts|]. split; [apply sleepsOf_attempts|].
      intros r E. injection E as <-.
      destruct (Hres results eq_refl) as (j & data & Hj & Hapi & ->).
      exists j, data. rewrite A, S in Hapi. auto.
    + assert (Ht : trace (snd (match SfApi.errorMessage lastError with
                               | Ok msg => (Throw (Error msg), w1)
                               | Throw e => (@Throw Value e, w1)
                               end)) = trace w1)
        by (destruct (SfApi.errorMessage lastError); reflexivity).
      rewrite Ht.
      split; [now rewrite Htr, T|].
      split; [apply requestsOf_attempts|]. split; [apply sleepsOf_attempts|].
      intros r E. destruct (SfApi.errorMessage lastError); discriminate E.
  - exists {| req_select := selectFields config; req_top := top;
              req_skip := skip; req_filter := "" |}, 0%nat.
    cbn [Runs.attempts req_select req_top req_skip].
    rewrite List.app_nil_r.
    split; [reflexivity|]. split; [reflexivity|]. split; [reflexivity|].
    split; [discriminate|].
    repeat split; try lia; try assumption. discriminate.
Qed.

End Cost.

(** ** Any number of pages *)

Section Pages.
Context `{Runtime}.
Variable config : Config.

Lemma Ok_inj {A} (a b : A) : Ok a = Ok b -> a = b.
Proof. congruence. Qed.

Lemma kept_eq items xs :
  SfApi.filterByDepartment items (sync_departmentFilter config) = Ok xs ->
  Runs.kept config items = xs.
Proof. intros E. unfold Runs.kept. now rewrite E. Qed.

Lemma length_kept items :
  (List.length (Runs.kept config items) <= List.length items)%nat.
Proof.
  unfold Runs.kept. rewrite filterByDepartment_filter.
  destruct (forallb Sync.plainPosition items); [apply filter_length_le | cbn; lia].
Qed.

(** a request answered at the first attempt, and the filter it carries *)
Lemma fetch_served top skip sd ed w data :
  1 <= request_retryAttempts config ->
  Sync.ClockSane (clock w) ->
  api w (sent w) = Resolved data ->
  exists w' filter,
    SfApi.fetchPositions config top skip sd ed w = (Ok (SfApi.resultsOf data), w')
    /\ fst (SfApi.buildDateFilter sd ed w) = Ok filter
    /\ ticks w' = ticks (snd (SfApi.buildDateFilter sd ed w))
    /\ api w' = api w /\ clock w' = clock w /\ sent w' = S (sent w)
    /\ trace w' = (trace w ++ [EvRequest {| req_select := selectFields config; req_top := top;
                                            req_skip := skip; req_filter := filter |}])%list.
Proof.
  intros HRA Hc Hd.
  destruct (buildDateFilter_sane sd ed w Hc) as (filter & Hf).
  pose proof (buildDateFilter_frame sd ed w) as (A & Hsent & C & F & T).
  unfold SfApi.fetchPositions, bindM.
  destruct (SfApi.buildDateFilter sd ed w) as [r w0] eqn:E0.
  cbn [fst snd] in *. subst r.
  destruct (Z.to_nat (request_retryAttempts config)) as [|n] eqn:En; try lia.
  assert (L1 : (1 <=? request_retryAttempts config) = true) by (apply Z.leb_le; lia).
  cbn [SfApi.attemptLoop]. rewrite L1.
  unfold httpGet. rewrite A, Hsent, Hd.
  eexists. exists filter. split; [reflexivity|].
  cbn [emit api sent clock ticks fsExists trace]. rewrite ?A, ?C, ?Hsent, ?F, ?T. repeat split.
Qed.

(** one round on a page the filter can read, with the variables it leaves *)
Lemma loopBody_step sd ed st w items :
  1 <= request_retryAttempts config ->
  Sync.ClockSane (clock w) ->
  Sync.servesPage w 0 items ->
  forallb Sync.plainPosition items = true ->
  let more := negb (Z.of_nat (List.length items) <? sync_pageSize config) in
  exists st' w' filter,
    Sync.loopBody config sd ed st w = (Ok (st', more), w')
    /\ Sync.allFilteredPositions st'
       = (Sync.allFilteredPositions st ++ Runs.kept config items)%list
    /\ Sync.totalFetched st' = Sync.totalFetched st + Z.of_nat (List.length items)
    /\ Sync.totalFiltered st'
       = Sync.totalFiltered st + Z.of_nat (List.length (Runs.kept config items))
    /\ Sync.skip st' = (if more then Sync.skip st + sync_pageSize config else Sync.skip st)
    /\ api w' = api w /\ clock w' = clock w /\ sent w' = S (sent w)
    /\ trace w' = (trace w ++ [EvRequest {| req_select := selectFields config;
                                            req_top := sync_pageSize config;
                                            req_skip := Sync.skip st;
                                            req_filter := filter |}])%list
    /\ fst (SfApi.buildDateFilter sd ed w) = Ok filter
    /\ ticks w' = ticks (snd (SfApi.buildDateFilter sd ed w)).
Proof.
  intros HRA Hc (data & Hd & Hr) Hp more.
  rewrite Nat.add_0_r in Hd.
  destruct (fetch_served (sync_pageSize config) (Sync.skip st) sd ed w data HRA Hc Hd)
    as (w' & filter & Hfetch & Hf & Htick & A & C & Hsent & T).
  destruct (filterByDepartment_plain (sync_departmentFilter config) items Hp) as (xs & Hk).
  unfold Sync.loopBody, bindM. rewrite Hfetch, Hr.
  unfold lift. rewrite Hk. rewrite (kept_eq items xs Hk).
  subst more.
  destruct (Z.of_nat (List.length items) <? sync_pageSize config); cbn [ret negb];
    eexists; exists w', filter; (split; [reflexivity|]);
    cbn [Sync.allFilteredPositions Sync.totalFetched Sync.totalFiltered Sync.skip];
    repeat split; assumption.
Qed.

Lemma servesAll_shift w w' : forall pages from,
  api w' = api w -> sent w' = S (sent w) ->
  Runs.servesAll w (S from) pages -> Runs.servesAll w' from pages.
Proof.
  induction pages as [|items pages IH]; intros from A Hsent Hs; [exact I|].
  cbn [Runs.servesAll] in *. destruct Hs as ((data & Hd & Hr) & Hp & Hrest).
  split; [|split; [exact Hp | now apply IH]].
  exists data. split; [|exact Hr].
  rewrite A, Hsent. replace (S (sent w) + from)%nat with (sent w + S from)%nat by lia.
  exact Hd.
Qed.

(** the filter of a run without dates, at the [i]-th reading of the clock *)
Lemma paginate_pages_from sd ed last : forall full st w,
  1 <= request_retryAttempts config ->
  Sync.ClockSane (clock w) ->
  Forall (fun items => sync_pageSize config <= Z.of_nat (List.length items)) full ->
  Z.of_nat (List.length last) < sync_pageSize config ->
  Runs.servesAll w 0 (full ++ [last]) ->
  exists st' w' evs,
    (forall fuel, (List.length full < fuel)%nat ->
       Sync.paginate config fuel sd ed st w = Some (Ok st', w'))
    /\ (forall fuel, (fuel <= List.length full)%nat ->
          Sync.paginate config fuel sd ed st w = None)
    /\ Sync.allFilteredPositions st'
       = (Sync.allFilteredPositions st
          ++ List.concat (map (Runs.kept config) (full ++ [last])))%list
    /\ Sync.totalFetched st'
       = Sync.totalFetched st + Z.of_nat (List.length (List.concat (full ++ [last])))
    /\ Sync.totalFiltered st'
       = Sync.totalFiltered st
         + Z.of_nat (List.length (List.concat (map (Runs.kept config) (full ++ [last]))))
    /\ trace w' = (trace w ++ evs)%list
    /\ List.length evs = S (List.length full)
    /\ map req_skip (requestsOf evs)
       = Runs.offsets (S (List.length full)) (Sync.skip st) (sync_pageSize config)
    /\ sent w' = (sent w + S (List.length full))%nat
    /\ (truthy sd = false -> truthy ed = false ->
        map req_filter (requestsOf evs)
        = map (fun i => "lastModifiedDateTime ge datetime'"
                        ++ Runs.secondsText (localDayBefore (clock w (ticks w + i))) ++ "'")
              (seq 0 (S (List.length full))))
    /\ (forall filter, truthy sd || truthy ed = true ->
        fst (SfApi.buildDateFilter sd ed w) = Ok filter ->
        map req_filter (requestsOf evs) = repeat filter (S (List.length full))).
Proof.
  induction full as [|items full IH]; intros st w HRA Hc Hfull Hlast Hs.
  - cbn [List.app Runs.servesAll] in Hs. destruct Hs as (Hserve & Hp & _).
    destruct (loopBody_step sd ed st w last HRA Hc Hserve Hp)
      as (st' & w' & filter & Hb & Hall & Hfetched & Hfiltered & Hskip & _ & _ & Hsent & T
          & Hf & _).
    assert (Hlt : (Z.of_nat (List.length last) <? sync_pageSize config) = true)
      by (apply Z.ltb_lt; exact Hlast).
    rewrite Hlt in Hb, Hskip. cbn [negb] in Hb, Hskip.
    exists st', w', [EvRequest {| req_select := selectFields config;
                                  req_top := sync_pageSize config;
                                  req_skip := Sync.skip st;
                                  req_filter := filter |}].
    split; [|split].
    + intros fuel Hfuel. destruct fuel as [|fuel]; [cbn in Hfuel; lia|].
      cbn [Sync.paginate]. rewrite Hb. reflexivity.
    + intros fuel Hfuel. cbn [List.length] in Hfuel.
      destruct fuel; [reflexivity | lia].
    + cbn [List.app map List.concat]. rewrite !List.app_nil_r.
      split; [exact Hall|]. split; [exact Hfetched|]. split; [exact Hfiltered|].
      split; [exact T|]. split; [reflexivity|].
      split; [reflexivity|]. split; [cbn [List.length]; lia|].
      cbn [requestsOf map req_filter List.length seq repeat]. split.
      * intros Hsd Hed. rewrite (buildDateFilter_default sd ed w Hsd Hed) in Hf.
        cbn [fst] in Hf. destruct (Hc (ticks w)) as [_ Hv]. rewrite Hv in Hf.
        apply Ok_inj in Hf. rewrite Nat.add_0_r. now rewrite Hf.
      * intros f _ Ef. rewrite Hf in Ef. now injection Ef as <-.
  - cbn [List.app Runs.servesAll] in Hs. destruct Hs as (Hserve & Hp & Hrest).
    inversion Hfull as [|? ? Hitems Hfull']; subst.
    destruct (loopBody_step sd ed st w items HRA Hc Hserve Hp)
      as (st1 & w1 & filter & Hb & Hall & Hfetched & Hfiltered & Hskip & A & C & Hsent & T
          & Hf & Htick).
    assert (Hge : (Z.of_nat (List.length items) <? sync_pageSize config) = false)
      by (apply Z.ltb_ge; exact Hitems).
    rewrite Hge in Hb, Hskip. cbn [negb] in Hb, Hskip.
    assert (Hc1 : Sync.ClockSane (clock w1)) by (rewrite C; exact Hc).
    destruct (IH st1 w1 HRA Hc1 Hfull' Hlast (servesAll_shift w w1 _ 0%nat A Hsent Hrest))
      as (st' & w' & evs & Hrun & Hshort & Hall' & Hfetched' & Hfiltered' & T' & Hlen
          & Hoffs & Hsent' & Hdefault & Hgiven).
    exists st', w', (EvRequest {| req_select := selectFields config;
                                  req_top := sync_pageSize config;
                                  req_skip := Sync.skip st;
                                  req_filter := filter |} :: evs).
    split; [|split].
    + intros fuel Hfuel. destruct fuel as [|fuel]; [lia|].
      cbn [Sync.paginate]. rewrite Hb. apply Hrun. cbn [List.length] in Hfuel. lia.
    + intros fuel Hfuel. destruct fuel as [|fuel]; [reflexivity|].
      cbn [Sync.paginate]. rewrite Hb. apply Hshort. cbn [List.length] in Hfuel. lia.
    + cbn [List.app map List.concat List.length].
      rewrite Hall', Hall, Hfetched', Hfetched, Hfiltered', Hfiltered, T', T, Hsent', Hsent.
      rewrite !List.length_app, <- !List.app_assoc.
      split; [reflexivity|]. split; [lia|]. split; [lia|].
      split; [reflexivity|].
      split; [cbn [List.app List.length]; now rewrite Hlen|].
      split; [cbn [List.app requestsOf map req_skip Runs.offsets];
              rewrite Hoffs, Hskip; reflexivity|].
      split; [lia|].
      cbn [requestsOf map req_filter]. split.
      * intros Hsd Hed. rewrite (buildDateFilter_default sd ed w Hsd Hed) in Hf, Htick.
        cbn [fst snd ticks] in Hf, Htick. destruct (Hc (ticks w)) as [_ Hv]. rewrite Hv in Hf.
        apply Ok_inj in Hf.
        rewrite (Hdefault Hsd Hed), C, Htick.
        change (seq 0 (S (S (List.length full)))) with (0%nat :: seq 1 (S (List.length full))).
        cbn [map]. f_equal.
        { rewrite Nat.add_0_r. symmetry. exact Hf. }
        rewrite <- seq_shift, map_map.
        apply map_ext. intros i. now rewrite Nat.add_succ_comm.
      * intros f Hg Ef. rewrite Hf in Ef. injection Ef as <-.
        destruct (buildDateFilter_given sd ed Hg) as (f' & Hpure).
        cbn [repeat]. f_equal. apply (Hgiven filter Hg).
        rewrite Hpure. rewrite Hpure in Hf. exact Hf.
Qed.

(** X14.  For any number of pages: when the API serves pages that are
    not short and then a short one, the loop ends after exactly one
    request per page, at the offsets 0, n, 2n, ..., with fewer rounds it
    is not done, and it has kept, in the order of the pages, what the
    filter keeps of each, counted what it fetched and what it kept. *)
Theorem paginate_full_pages_then_short
        (startDate endDate : Value) (w : World)
        (full : list (list Value)) (last : list Value) :
  1 <= request_retryAttempts config ->
  Sync.ClockSane (clock w) ->
  Forall (fun items => sync_pageSize config <= Z.of_nat (List.length items)) full ->
  Z.of_nat (List.length last) < sync_pageSize config ->
  Runs.servesAll w 0 (full ++ [last]) ->
  exists st w' evs,
    (forall fuel, (List.length full < fuel)%nat ->
       Sync.paginate config fuel startDate endDate Sync.initialState w = Some (Ok st, w'))
    /\ (forall fuel, (fuel <= List.length full)%nat ->
          Sync.paginate config fuel startDate endDate Sync.initialState w = None)
    /\ Sync.allFilteredPositions st = List.concat (map (Runs.kept config) (full ++ [last]))
    /\ Sync.totalFetched st = Z.of_nat (List.length (List.concat (full ++ [last])))
    /\ Sync.totalFiltered st = Z.of_nat (List.length (Sync.allFilteredPositions st))
    /\ trace w' = (trace w ++ evs)%list
    /\ List.length evs = S (List.length full)
    /\ map req_skip (requestsOf evs)
       = Runs.offsets (S (List.length full)) 0 (sync_pageSize config).
Proof.
  intros HRA Hc Hfull Hlast Hs.
  destruct (paginate_pages_from startDate endDate last full Sync.initialState w
              HRA Hc Hfull Hlast Hs)
    as (st & w' & evs & Hrun & Hshort & Hall & Hfetched & Hfiltered & T & Hlen & Hoffs & _
        & _ & _).
  exists st, w', evs. cbn [Sync.initialState Sync.allFilteredPositions Sync.totalFetched
                           Sync.totalFiltered Sync.skip List.app] in *.
  split; [exact Hrun|]. split; [exact Hshort|]. split; [exact Hall|].
  split; [lia|]. split; [rewrite Hfiltered, Hall; lia|].
  split; [exact T|]. split; [exact Hlen | exact Hoffs].
Qed.

(** X15.  The filter is built again for every page.  With a date given
    every request of a run carries the same filter; without dates the
    request of the [i]-th page asks from one day before the [i]-th
    reading of the clock, so the bound moves while the run pages. *)
Theorem paginate_filter_of_each_page
        (startDate endDate : Value) (w : World)
        (full : list (list Value)) (last : list Value) :
  1 <= request_retryAttempts config ->
  Sync.ClockSane (clock w) ->
  Forall (fun items => sync_pageSize config <= Z.of_nat (List.length items)) full ->
  Z.of_nat (List.length last) < sync_pageSize config ->
  Runs.servesAll w 0 (full ++ [last]) ->
  exists st w' evs,
    (forall fuel, (List.length full < fuel)%nat ->
       Sync.paginate config fuel startDate endDate Sync.initialState w = Some (Ok st, w'))
    /\ trace w' = (trace w ++ evs)%list
    /\ (truthy startDate = false -> truthy endDate = false ->
        map req_filter (requestsOf evs)
        = map (fun i => "lastModifiedDateTime ge datetime'"
                        ++ Runs.secondsText (localDayBefore (clock w (ticks w + i))) ++ "'")
              (seq 0 (S (List.length full))))
    /\ (forall filter, truthy startDate || truthy endDate = true ->
        fst (SfApi.buildDateFilter startDate endDate w) = Ok filter ->
        map req_filter (requestsOf evs) = repeat filter (S (List.length full))).
Proof.
  intros HRA Hc Hfull Hlast Hs.
  destruct (paginate_pages_from startDate endDate last full Sync.initialState w
              HRA Hc Hfull Hlast Hs)
    as (st & w' & evs & Hrun & _ & _ & _ & _ & T & _ & _ & _ & Hdefault & Hgiven).
  exists st, w', evs. auto.
Qed.

Lemma servesPage_shift w w' i items :
  api w' = api w -> sent w' = S (sent w) ->
  Sync.servesPage w (S i) items -> Sync.servesPage w' i items.
Proof.
  intros A Hsent (data & Hd & Hr). exists data. split; [|exact Hr].
  rewrite A, Hsent. replace (S (sent w) + i)%nat with (sent w + S i)%nat by lia.
  exact Hd.
Qed.

(** X16.  The loop has no bound of its own: as long as every page the
    API serves has at least [pageSize] records, which every page has when
    the page size is not positive, no number of rounds ends it. *)
Theorem paginate_never_ends_on_full_pages (startDate endDate : Value) :
  1 <= request_retryAttempts config ->
  forall (fuel : nat) (st : Sync.LoopState) (w : World),
  Sync.ClockSane (clock w) ->
  (forall i, exists items,
      Sync.servesPage w i items
      /\ forallb Sync.plainPosition items = true
      /\ sync_pageSize config <= Z.of_nat (List.length items)) ->
  Sync.paginate config fuel startDate endDate st w = None.
Proof.
  intros HRA. induction fuel as [|fuel IH]; intros st w Hc Hall; [reflexivity|].
  destruct (Hall 0%nat) as (items & Hserve & Hp & Hitems).
  destruct (loopBody_step startDate endDate st w items HRA Hc Hserve Hp)
    as (st1 & w1 & filter & Hb & _ & _ & _ & _ & A & C & Hsent & _ & _ & _).
  assert (Hge : (Z.of_nat (List.length items) <? sync_pageSize config) = false)
    by (apply Z.ltb_ge; exact Hitems).
  rewrite Hge in Hb. cbn [negb] in Hb.
  cbn [Sync.paginate]. rewrite Hb. apply IH.
  - rewrite C. exact Hc.
  - intros i. destruct (Hall (S i)) as (items' & Hs' & Hp' & Hi').
    exists items'. split; [|split; assumption].
    now apply (servesPage_shift w w1).
Qed.

(** ** What the counters say *)

Lemma loopBody_inv sd ed st w st1 more w1 :
  Sync.loopBody config sd ed st w = (Ok (st1, more), w1) ->
  exists items,
    Sync.allFilteredPositions st1
    = (Sync.allFilteredPositions st ++ Runs.kept config items)%list
    /\ Sync.totalFetched st1 = Sync.totalFetched st + Z.of_nat (List.length items)
    /\ Sync.totalFiltered st1
       = Sync.totalFiltered st + Z.of_nat (List.length (Runs.kept config items))
    /\ Sync.page st1 = (if more then Sync.page st + 1 else Sync.page st)
    /\ Sync.skip st1 = (if more then Sync.skip st + sync_pageSize config else Sync.skip st)
    /\ more = negb (Z.of_nat (List.length items) <? sync_pageSize config).
Proof.
  unfold Sync.loopBody, bindM.
  destruct (SfApi.fetchPositions config (sync_pageSize config) (Sync.skip st) sd ed w)
    as [[positions|e] w0]; [|discriminate].
  destruct positions as [| | | | | |items|]; try discriminate.
  unfold lift.
  destruct (SfApi.filterByDepartment items (sync_departmentFilter config)) as [xs|e] eqn:Hk;
    [|discriminate].
  rewrite <- (kept_eq items xs Hk).
  destruct (Z.of_nat (List.length items) <? sync_pageSize config) eqn:Hlt; cbn [ret negb];
    intros E; injection E as <- <- <-; exists items; rewrite Hlt;
    cbn [Sync.allFilteredPositions Sync.totalFetched Sync.totalFiltered Sync.page Sync.skip];
    repeat split; reflexivity.
Qed.

Lemma loopBody_consistent sd ed st w st1 more w1 :
  Sync.loopBody config sd ed st w = (Ok (st1, more), w1) ->
  Runs.consistent config st ->
  (if more then Runs.consistent config st1
   else Sync.totalFiltered st1 = Z.of_nat (List.length (Sync.allFilteredPositions st1))
        /\ 0 <= Sync.totalFiltered st1 <= Sync.totalFetched st1
        /\ Sync.skip st1 = Sync.skip st).
Proof.
  intros Hb (Hlen & Hle & Hskip).
  destruct (loopBody_inv sd ed st w st1 more w1 Hb)
    as (items & Hall & Hfetched & Hfiltered & Hpage & Hsk & _).
  pose proof (length_kept items) as Hk.
  destruct more; unfold Runs.consistent;
    rewrite Hall, Hfetched, Hfiltered, List.length_app; repeat split; try lia.
Qed.

Lemma paginate_counts sd ed : forall fuel st w st' w',
  Sync.paginate config fuel sd ed st w = Some (Ok st', w') ->
  Runs.consistent config st ->
  Sync.totalFiltered st' = Z.of_nat (List.length (Sync.allFilteredPositions st'))
  /\ 0 <= Sync.totalFiltered st' <= Sync.totalFetched st'.
Proof.
  induction fuel as [|fuel IH]; intros st w st' w' Hp Hc; [discriminate Hp|].
  cbn [Sync.paginate] in Hp.
  destruct (Sync.loopBody config sd ed st w) as [[[st1 more]|e] w1] eqn:Hb;
    [|discriminate Hp].
  pose proof (loopBody_consistent sd ed st w st1 more w1 Hb Hc) as H1.
  destruct more.
  - eapply IH; eassumption.
  - injection Hp as <- <-. tauto.
Qed.

Lemma writeOutput_result startTime sd ed st w res :
  fst (Sync.writeOutput config startTime sd ed st w) = Ok res ->
  Sync.success res = true
  /\ Sync.res_totalFetched res = Sync.totalFetched st
  /\ Sync.res_totalFiltered res = Sync.totalFiltered st
  /\ Sync.sqlStatementsGenerated res = Z.of_nat (List.length (Sync.allFilteredPositions st))
  /\ exists base,
       Sync.oracleFile res = base ++ "_oracle.sql"
       /\ Sync.postgresFile res = base ++ "_postgres.sql".
Proof.
  unfold Sync.writeOutput, bindM, readClock, lift, writeFileSync, ret.
  cbn [fst snd].
  repeat match goal with
         | |- context [match ?r with Ok _ => _ | Throw _ => _ end] =>
             destruct r; cbn [fst snd]
         | |- context [let '(_, _) := ?p in _] => destruct p; cbn [fst snd]
         end;
    intros Hres; try discriminate Hres.
  injection Hres as <-. cbn. repeat split. eexists. split; reflexivity.
Qed.

(** X17.  In the result of a run that returns, [success] is set, the
    number of statements is the number of records kept, which is at most
    the number fetched, and the two file names differ in their dialect
    suffix only. *)
Theorem syncPositions_result_counts
        (fuel : nat) (startDate endDate : Value) (w : World) (res : Sync.SyncResult) :
  option_map fst (Sync.syncPositions config fuel startDate endDate w) = Some (Ok res) ->
  Sync.success res = true
  /\ Sync.sqlStatementsGenerated res = Sync.res_totalFiltered res
  /\ 0 <= Sync.res_totalFiltered res <= Sync.res_totalFetched res
  /\ (exists base,
        Sync.oracleFile res = base ++ "_oracle.sql"
        /\ Sync.postgresFile res = base ++ "_postgres.sql")
  /\ Sync.oracleFile res <> Sync.postgresFile res.
Proof.
  unfold Sync.syncPositions.
  destruct (Sync.setup config w) as [[startTime|e] w1]; [|discriminate].
  destruct (Sync.paginate config fuel startDate endDate Sync.initialState w1)
    as [[[st|e] w2]|] eqn:Hp; try discriminate.
  cbn [option_map]. intros E. injection E as E.
  destruct (writeOutput_result startTime startDate endDate st w2 res E)
    as (Hs & Hf & Hfl & Hg & base & Ho & Hpg).
  destruct (paginate_counts startDate endDate fuel Sync.initialState w1 st w2 Hp)
    as (Hlen & Hle).
  { unfold Runs.consistent. cbn. lia. }
  split; [exact Hs|]. split; [lia|]. split; [lia|].
  split; [exists base; split; assumption|].
  rewrite Ho, Hpg. intros Heq.
  assert (Hn : forall a b c : string, a ++ b = a ++ c -> b = c).
  { induction a as [|x a IHa]; intros b c Habc; [exact Habc|].
    cbn [append] in Habc. injection Habc as Habc. now apply IHa. }
  apply Hn in Heq. discriminate Heq.
Qed.

End Pages.

(** ** Before the first request, after the last *)

Section Edges.
Context `{Runtime}.
Variable config : Config.

(** X18.  Without a user name or a password [syncPositions] throws the
    configuration error before it does anything: no request, no
    directory, no file. *)
Theorem missing_credentials_stop_the_run
        (fuel : nat) (startDate endDate : Value) (w : World) :
  missing (sf_username config) || missing (sf_password config) = true ->
  exists msg w',
    validateConfig config = Throw (Error msg)
    /\ Str.startsWith ("Configuration errors:" ++ Str.LF) msg = true
    /\ Sync.syncPositions config fuel startDate endDate w = Some (Throw (Error msg), w')
    /\ trace w' = trace w /\ sent w' = sent w /\ fsExists w' = fsExists w.
Proof.
  intros Hm.
  assert (Hv : exists msg, validateConfig config = Throw (Error msg)
                           /\ Str.startsWith ("Configuration errors:" ++ Str.LF) msg = true).
  { unfold validateConfig.
    destruct (missing (sf_username config)), (missing (sf_password config));
      try discriminate Hm; cbn [List.app List.length Z.of_nat Z.ltb Z.compare];
      eexists; (split; [reflexivity|]); rewrite <- str_app_assoc; apply startsWith_app. }
  destruct Hv as (msg & Hv & Hs).
  exists msg. unfold Sync.syncPositions, Sync.setup, bindM, readClock, lift.
  rewrite Hv. cbn [fst snd]. eexists. split; [reflexivity|]. split; [exact Hs|].
  split; [reflexivity|]. cbn. auto.
Qed.

(** X19.  [ensureOutputDirectory] creates the directory of the path
    when it is missing and only then; afterwards the directory exists and
    a second call changes nothing. *)
Theorem ensureOutputDirectory_once (filePath : string) (w : World) :
  let dir := path_dirname filePath in
  let w1 := snd (Sync.ensureOutputDirectory filePath w) in
  fst (Sync.ensureOutputDirectory filePath w) = Ok tt
  /\ fsExists w1 dir = true
  /\ trace w1 = (trace w ++ (if fsExists w dir then [] else [EvMkdir dir]))%list
  /\ Sync.ensureOutputDirectory filePath w1 = (Ok tt, w1).
Proof.
  intros dir w1. subst w1.
  unfold Sync.ensureOutputDirectory, bindM, existsSync. fold dir.
  destruct (fsExists w dir) eqn:Ed; cbn [negb ret fst snd mkdirSync createPath emit fsExists trace].
  - rewrite Ed, List.app_nil_r. cbn [negb ret]. auto.
  - rewrite String.eqb_refl. cbn [orb negb ret]. auto.
Qed.

Lemma generateAll_isOk : forall positions,
  isOk (Sync.generateAll config positions)
  = forallb (fun pos => isOk (generateInsertIfNotExists config pos (VStr "oracle"))) positions.
Proof.
  induction positions as [|pos rest IH]; [reflexivity|].
  cbn [Sync.generateAll forallb].
  assert (Hd : isOk (generateInsertIfNotExists config pos (VStr "postgres"))
               = isOk (generateInsertIfNotExists config pos (VStr "oracle"))).
  { unfold generateInsertIfNotExists. cbn. symmetry. apply insert_isOk. }
  destruct (generateInsertIfNotExists config pos (VStr "oracle")) as [o|e];
    cbn [bind isOk andb]; [|reflexivity].
  destruct (generateInsertIfNotExists config pos (VStr "postgres")) as [p|e];
    [|discriminate Hd]. cbn [bind].
  rewrite <- IH. destruct (Sync.generateAll config rest) as [[os ps]|e]; reflexivity.
Qed.

Lemma forallb_false_In {A} (p : A -> bool) : forall xs x,
  In x xs -> p x = false -> forallb p xs = false.
Proof.
  induction xs as [|y xs IH]; intros x Hin Hp; [contradiction|].
  cbn [forallb]. destruct Hin as [-> | Hin].
  - now rewrite Hp.
  - rewrite (IH x Hin Hp). apply andb_false_r.
Qed.

(** X20.  Every statement is generated before the first write: when some
    kept record has no statement the final phase throws and leaves no
    trace at all, neither file is written. *)
Theorem record_without_statement_writes_no_file
        (startTime : Z) (startDate endDate : Value) (st : Sync.LoopState) (w : World)
        (position : Value) :
  In position (Sync.allFilteredPositions st) ->
  isOk (generateInsertIfNotExists config position (VStr "oracle")) = false ->
  isOk (fst (Sync.writeOutput config startTime startDate endDate st w)) = false
  /\ trace (snd (Sync.writeOutput config startTime startDate endDate st w)) = trace w
  /\ fsExists (snd (Sync.writeOutput config startTime startDate endDate st w)) = fsExists w.
Proof.
  intros Hin Hbad.
  pose proof (generateAll_isOk (Sync.allFilteredPositions st)) as Hall.
  rewrite (forallb_false_In _ _ position Hin Hbad) in Hall.
  destruct (Sync.writeOutput config startTime startDate endDate st w) as [r w'] eqn:E.
  cbn [fst snd]. revert E.
  unfold Sync.writeOutput, bindM, readClock, lift.
  cbn [fst snd clock ticks api sent fsExists trace].
  destruct (toISOString (TimeClip (clock w (ticks w)))) as [iso|e];
    [|intros E; injection E as <- <-; repeat split].
  destruct (Sync.generateAll config (Sync.allFilteredPositions st)) as [[os ps]|e];
    [discriminate Hall|].
  intros E; injection E as <- <-. repeat split.
Qed.

End Edges.

(** ** What the two files hold *)

Lemma replaceAllIn_app cls rep a b :
  Str.replaceAllIn cls rep (a ++ b)
  = Str.replaceAllIn cls rep a ++ Str.replaceAllIn cls rep b.
Proof.
  induction a as [|c a IH]; [reflexivity|].
  cbn [append Str.replaceAllIn]. now rewrite IH, str_app_assoc.
Qed.

Lemma replaceAllIn_none cls rep s :
  Str.allChars (fun c => negb (cls c)) s = true -> Str.replaceAllIn cls rep s = s.
Proof.
  induction s as [|c s IH]; [reflexivity|].
  cbn [Str.allChars Str.replaceAllIn]. intros Hs. apply andb_prop in Hs as [Hc Hs].
  apply negb_true_iff in Hc. now rewrite Hc, IH.
Qed.

Lemma digits_no_colon_dot s :
  Str.allDigits s = true ->
  Str.allChars (fun c => negb (Sync.isColonOrDot c)) s = true.
Proof.
  apply allChars_weaken. intros c.
  destruct c as [[] [] [] [] [] [] [] []]; vm_compute; congruence.
Qed.

Lemma yearString_no_colon_dot y :
  -999999 <= y <= 999999 ->
  Str.allChars (fun c => negb (Sync.isColonOrDot c)) (yearString y) = true.
Proof.
  intros Hy. unfold yearString.
  destruct ((0 <=? y) && (y <=? 9999)) eqn:E.
  - apply andb_prop in E as [A B]. apply digits_no_colon_dot, allDigits_padDigits. lia.
  - cbn [Str.allChars]. rewrite digits_no_colon_dot by (apply allDigits_padDigits; lia).
    destruct (y <? 0); reflexivity.
Qed.

Lemma pad_no_colon_dot k n :
  0 <= n < 10 ^ Z.of_nat k ->
  Str.replaceAllIn Sync.isColonOrDot "-" (Str.padDigits k n) = Str.padDigits k n.
Proof.
  intros Hn. apply replaceAllIn_none, digits_no_colon_dot, allDigits_padDigits, Hn.
Qed.

Lemma stamp_of_isoText t :
  validTime t = true ->
  Str.replaceAllIn Sync.isColonOrDot "-" (isoText t) = Runs.fileStamp t.
Proof.
  intros Hv. unfold isoText, Runs.fileStamp.
  pose proof (date_fields_range t Hv) as (Hy & Hm & Hd).
  pose proof (time_fields_range t) as (Hh & Hmi & Hs & Hms).
  rewrite !replaceAllIn_app.
  rewrite (replaceAllIn_none _ _ (yearString _)) by (now apply yearString_no_colon_dot).
  rewrite !pad_no_colon_dot by (cbn; lia).
  reflexivity.
Qed.

Lemma replaceFirst_suffix pat rep post : forall pre,
  pat <> "" ->
  (forall c rest, pat = String c rest ->
     Str.allChars (fun x => negb (Ascii.eqb c x)) pre = true) ->
  Str.replaceFirst pat rep (pre ++ pat ++ post) = pre ++ rep ++ post.
Proof.
  intros pre Hpat Hfree. destruct pat as [|c rest]; [congruence|].
  specialize (Hfree c rest eq_refl).
  induction pre as [|x pre IH].
  - change ("" ++ String c rest ++ post) with (String c (rest ++ post)).
    cbn [Str.replaceFirst].
    change (String c (rest ++ post)) with (String c rest ++ post).
    rewrite startsWith_app, drop_app. reflexivity.
  - cbn [Str.allChars] in Hfree. apply andb_prop in Hfree as [Hx Hpre].
    apply negb_true_iff in Hx.
    change (String x pre ++ String c rest ++ post)
      with (String x (pre ++ String c rest ++ post)).
    cbn [Str.replaceFirst Str.startsWith]. rewrite Hx. cbn [andb].
    rewrite (IH Hpre). reflexivity.
Qed.

Section Files.
Context `{Runtime}.
Variable config : Config.

Lemma generateAll_Forall2 : forall positions os ps,
  Sync.generateAll config positions = Ok (os, ps) ->
  Forall2 (fun pos o => generateInsertIfNotExists config pos (VStr "oracle") = Ok o)
          positions os
  /\ Forall2 (fun pos p => generateInsertIfNotExists config pos (VStr "postgres") = Ok p)
             positions ps.
Proof.
  induction positions as [|pos rest IH]; intros os ps Hg.
  - cbn in Hg. injection Hg as <- <-. split; constructor.
  - cbn [Sync.generateAll] in Hg.
    destruct (generateInsertIfNotExists config pos (VStr "oracle")) as [o|e] eqn:Eo;
      [|discriminate Hg].
    destruct (generateInsertIfNotExists config pos (VStr "postgres")) as [p|e] eqn:Ep;
      [|discriminate Hg].
    cbn [bind] in Hg.
    destruct (Sync.generateAll config rest) as [[os' ps']|e]; [|discriminate Hg].
    cbn [bind] in Hg. injection Hg as <- <-.
    destruct (IH os' ps' eq_refl) as [Ho Hp].
    split; constructor; assumption.
Qed.

(** X21.  A final phase that returns has written exactly two files,
    Oracle first: each holds its header, the statements of the kept
    records in their order, one per record, and the footer with the
    number of kept records; the duration runs to the fourth reading of
    the clock. *)
Theorem written_files_hold_every_kept_record
        (startTime : Z) (startDate endDate : Value) (st : Sync.LoopState) (w : World)
        (res : Sync.SyncResult) :
  Sync.ClockSane (clock w) ->
  fst (Sync.writeOutput config startTime startDate endDate st w) = Ok res ->
  exists oracleHeader postgresHeader oracleStatements postgresStatements,
    Forall2 (fun pos o => generateInsertIfNotExists config pos (VStr "oracle") = Ok o)
            (Sync.allFilteredPositions st) oracleStatements
    /\ Forall2 (fun pos p => generateInsertIfNotExists config pos (VStr "postgres") = Ok p)
               (Sync.allFilteredPositions st) postgresStatements
    /\ generateSqlHeader config (clock w (1 + ticks w)) startDate endDate (VStr "oracle")
       = Ok oracleHeader
    /\ generateSqlHeader config (clock w (2 + ticks w)) startDate endDate (VStr "postgres")
       = Ok postgresHeader
    /\ trace (snd (Sync.writeOutput config startTime startDate endDate st w))
       = (trace w
          ++ [EvWriteFile (Sync.oracleFile res)
                (oracleHeader ++ Str.join (Str.LF ++ Str.LF) oracleStatements
                 ++ generateSqlFooter (Z.of_nat (List.length (Sync.allFilteredPositions st))));
              EvWriteFile (Sync.postgresFile res)
                (postgresHeader ++ Str.join (Str.LF ++ Str.LF) postgresStatements
                 ++ generateSqlFooter
                      (Z.of_nat (List.length (Sync.allFilteredPositions st))))])%list
    /\ Sync.elapsedMs res = clock w (3 + ticks w) - startTime.
Proof.
  intros Hc.
  destruct (Sync.writeOutput config startTime startDate endDate st w) as [r w'] eqn:E.
  cbn [fst snd]. intros ->. revert E.
  unfold Sync.writeOutput, bindM, readClock, lift, writeFileSync, ret.
  cbn [fst snd clock ticks api sent fsExists trace].
  destruct (toISOString (TimeClip (clock w (ticks w)))) as [iso|e]; [|discriminate].
  destruct (Sync.generateAll config (Sync.allFilteredPositions st)) as [[os ps]|e] eqn:Eg;
    [|discriminate].
  destruct (generateAll_Forall2 _ _ _ Eg) as [Fo Fp].
  cbn [fst snd clock ticks api sent fsExists trace].
  destruct (generateSqlHeader config (clock w (S (ticks w))) startDate endDate (VStr "oracle"))
    as [oh|e] eqn:Eo; [|discriminate].
  cbn [fst snd clock ticks api sent fsExists trace createPath emit].
  destruct (generateSqlHeader config (clock w (S (S (ticks w)))) startDate endDate
              (VStr "postgres")) as [ph|e] eqn:Ep; [|discriminate].
  intros E. injection E as <- <-.
  exists oh, ph, os, ps.
  cbn [Sync.oracleFile Sync.postgresFile Sync.elapsedMs trace createPath emit
       Nat.add clock ticks].
  rewrite <- (Forall2_length Fo), <- (Forall2_length Fp).
  rewrite <- List.app_assoc.
  split; [exact Fo|]. split; [exact Fp|]. split; [exact Eo|]. split; [exact Ep|].
  split; reflexivity.
Qed.

(** X22.  When the output path is a stem without a dot followed by
    [.sql], the two files are named by the stem, the instant of the
    final phase with hyphens for its colons and its dot, and the dialect
    suffix. *)
Theorem output_files_carry_the_instant
        (startTime : Z) (startDate endDate : Value) (st : Sync.LoopState) (w : World)
        (res : Sync.SyncResult) (stem : string) :
  Sync.ClockSane (clock w) ->
  fst (Sync.writeOutput config startTime startDate endDate st w) = Ok res ->
  sync_outputFile config = stem ++ ".sql" ->
  Str.allChars (fun c => negb (Ascii.eqb "." c)) stem = true ->
  Sync.oracleFile res
  = stem ++ "_" ++ Runs.fileStamp (clock w (ticks w)) ++ "_oracle.sql"
  /\ Sync.postgresFile res
     = stem ++ "_" ++ Runs.fileStamp (clock w (ticks w)) ++ "_postgres.sql"
  /\ Str.allChars (fun c => negb (Sync.isColonOrDot c)) (Runs.fileStamp (clock w (ticks w)))
     = true.
Proof.
  intros Hc Hres Hfile Hstem.
  destruct (Hc (ticks w)) as [Hv _].
  assert (Hbase : Str.replaceFirst ".sql"
                    ("_" ++ Str.replaceAllIn Sync.isColonOrDot "-" (isoText (clock w (ticks w))))
                    (sync_outputFile config)
                  = stem ++ "_" ++ Runs.fileStamp (clock w (ticks w))).
  { rewrite Hfile, (stamp_of_isoText _ Hv).
    pose proof (replaceFirst_suffix ".sql" ("_" ++ Runs.fileStamp (clock w (ticks w))) ""
                  stem ltac:(discriminate)) as Hr.
    rewrite !str_app_nil_r in Hr. cbn [append] in Hr. cbn [append]. apply Hr.
    intros c rest E. injection E as <- _. exact Hstem. }
  revert Hres.
  unfold Sync.writeOutput, bindM, readClock, lift, writeFileSync, ret.
  cbn [fst snd clock ticks api sent fsExists trace].
  unfold toISOString, TimeClip. rewrite !Hv.
  destruct (Sync.generateAll config (Sync.allFilteredPositions st)) as [[os ps]|e];
    [|discriminate].
  cbn [fst snd clock ticks api sent fsExists trace].
  destruct (generateSqlHeader config (clock w (S (ticks w))) startDate endDate (VStr "oracle"))
    as [oh|e]; [|discriminate].
  cbn [fst snd clock ticks api sent fsExists trace createPath emit].
  destruct (generateSqlHeader config (clock w (S (S (ticks w)))) startDate endDate
              (VStr "postgres")) as [ph|e]; [|discriminate].
  cbn [fst snd]. intros E. injection E as <-.
  cbn [Sync.oracleFile Sync.postgresFile]. cbn [append] in Hbase.
  rewrite Hbase, !str_app_assoc.
  split; [reflexivity|]. split; [reflexivity|].
  rewrite <- (stamp_of_isoText _ Hv).
  generalize (isoText (clock w (ticks w))). intros s.
  induction s as [|c s IH]; [reflexivity|].
  cbn [Str.replaceAllIn]. rewrite allChars_app, IH, andb_true_r.
  destruct (Sync.isColonOrDot c) eqn:Ec; [reflexivity|].
  cbn [Str.allChars]. now rewrite Ec.
Qed.

End Files.

(** ** The dates of a request *)

Lemma dateTimeUnit_digit d : Str.isDigit d = true -> Server.dateTimeUnit d = true.
Proof. intros Hd. unfold Server.dateTimeUnit. now rewrite Hd. Qed.

Ltac invert_run E :=
  repeat (cbv beta in E;
          first [ rewrite run_Seq in E
                | let d := fresh "d" in let x := fresh "x" in let Hd := fresh "Hd" in
                  apply run_Digit_inv in E as (d & x & -> & Hd & E);
                  apply dateTimeUnit_digit in Hd
                | let x := fresh "x" in
                  apply run_Lit_inv in E as (x & -> & E) ]).

Lemma atEnd_inv (rest : string) (caps c : Caps) :
  (if (rest =? "")%string then Some caps else None) = Some c -> rest = "".
Proof. destruct (String.eqb_spec rest ""); [auto | discriminate]. Qed.

Lemma test_dateRegex_shape s :
  Server.test Server.dateRegex s = true ->
  (String.length s = 10%nat \/ String.length s = 19%nat)
  /\ Str.allChars Server.dateTimeUnit s = true.
Proof.
  unfold Server.test.
  destruct (run Server.dateRegex s [] _) as [c|] eqn:E; [intros _ | discriminate].
  unfold Server.dateRegex in E. cbn [Server.times] in E.
  invert_run E.
  rewrite run_Opt in E.
  match type of E with
  | match ?r with Some _ => _ | None => _ end = _ => destruct r as [c0|] eqn:E2
  end.
  - clear E. rewrite run_Group in E2. invert_run E2.
    apply atEnd_inv in E2. subst.
    cbn [append String.length Str.allChars].
    repeat match goal with Hd : Server.dateTimeUnit _ = true |- _ => rewrite Hd; clear Hd end.
    split; [right; reflexivity | reflexivity].
  - apply atEnd_inv in E. subst.
    cbn [append String.length Str.allChars].
    repeat match goal with Hd : Server.dateTimeUnit _ = true |- _ => rewrite Hd; clear Hd end.
    split; [left; reflexivity | reflexivity].
Qed.

Section Requests.
Context `{Runtime}.
Variable config : Config.

Lemma isValidDate_inv v :
  truthy v = true ->
  Server.isValidDate v = true ->
  Server.test Server.dateRegex (ToString v) = true
  /\ exists t, Date_parse (ToString v) = Some t /\ validTime t = true.
Proof.
  intros Ht. unfold Server.isValidDate. rewrite Ht. cbn [negb].
  destruct (Server.test Server.dateRegex (ToString v)); cbn [negb]; [|discriminate].
  intros Hn. split; [reflexivity|].
  apply negb_true_iff in Hn. unfold Server.dateIsNaN in Hn.
  assert (Hp : match andThen (Date_parse (ToString v)) TimeClip with
               | Some _ => false | None => true end = false)
    by (destruct v; try discriminate Hn; exact Hn).
  destruct (Date_parse (ToString v)) as [t|]; [|discriminate Hp].
  cbn [andThen] in Hp. unfold TimeClip in Hp.
  destruct (validTime t) eqn:Hv; [|discriminate Hp]. now exists t.
Qed.

Lemma allChars_T00 : Str.allChars Server.dateTimeUnit "T00:00:00" = true.
Proof. reflexivity. Qed.

Lemma formatDate_validated v :
  truthy v = true ->
  Server.isValidDate v = true ->
  truthy (SfApi.formatDate v) = true
  /\ Str.allChars Server.dateTimeUnit (ToString (SfApi.formatDate v)) = true
  /\ (forall s, v = VStr s ->
        String.length (ToString (SfApi.formatDate v)) = 19%nat
        /\ (ToString (SfApi.formatDate v)
            = if (String.length s =? 10)%nat then s ++ "T00:00:00" else s)).
Proof.
  intros Ht Hv. destruct (isValidDate_inv v Ht Hv) as (Hre & _).
  destruct (test_dateRegex_shape _ Hre) as (Hlen & Hunits).
  unfold SfApi.formatDate. rewrite Ht. cbn [negb].
  destruct (SfApi.hasLength10 v) eqn:H10.
  - cbn [ToString truthy]. split; [|split].
    + destruct (ToString v); reflexivity.
    + now rewrite allChars_app, Hunits.
    + intros s ->. cbn [SfApi.hasLength10 ToString] in *. rewrite H10.
      apply Nat.eqb_eq in H10. rewrite str_length_app, H10. split; reflexivity.
  - split; [exact Ht|]. split; [exact Hunits|].
    intros s ->. cbn [SfApi.hasLength10 ToString] in *. rewrite H10.
    apply Nat.eqb_neq in H10. split; [lia | reflexivity].
Qed.

(** X23.  Two dates that pass [isValidDate] give the filter with both
    bounds, built without reading the clock; the bounds hold digits,
    hyphens, colons and [T] only, so no quote, and a date given as a
    string becomes a bound of 19 code units, [T00:00:00] appended to a
    day, for the end date as for the start date. *)
Theorem validated_dates_make_the_filter (startDate endDate : Value) (w : World) :
  truthy startDate = true -> truthy endDate = true ->
  Server.isValidDate startDate = true -> Server.isValidDate endDate = true ->
  exists from upto,
    SfApi.buildDateFilter startDate endDate w
    = (Ok ("lastModifiedDateTime ge datetime'" ++ from
           ++ "' and lastModifiedDateTime le datetime'" ++ upto ++ "'"), w)
    /\ Str.allChars Server.dateTimeUnit from = true
    /\ Str.allChars Server.dateTimeUnit upto = true
    /\ (forall s, startDate = VStr s ->
          String.length from = 19%nat
          /\ from = (if (String.length s =? 10)%nat then s ++ "T00:00:00" else s))
    /\ (forall s, endDate = VStr s ->
          String.length upto = 19%nat
          /\ upto = (if (String.length s =? 10)%nat then s ++ "T00:00:00" else s)).
Proof.
  intros Hts Hte Hvs Hve.
  destruct (formatDate_validated startDate Hts Hvs) as (Hs1 & Hs2 & Hs3).
  destruct (formatDate_validated endDate Hte Hve) as (He1 & He2 & He3).
  exists (ToString (SfApi.formatDate startDate)), (ToString (SfApi.formatDate endDate)).
  unfold SfApi.buildDateFilter. rewrite Hs1, He1. cbn [andb ret].
  unfold ret. auto.
Qed.


(** X25.  A valid date wrapped in an array passes [isValidDate] too, and
    then reaches the filter as it is: a day in an array gives a bound of
    10 code units, without the time part. *)
Theorem array_date_skips_the_time_part (s : string) (t : Z) (w : World) :
  Server.test Server.dateRegex s = true ->
  Date_parse s = Some t -> validTime t = true ->
  Server.isValidDate (VArr [VStr s]) = true
  /\ SfApi.buildDateFilter (VArr [VStr s]) VUndefined w
     = (Ok ("lastModifiedDateTime ge datetime'" ++ s ++ "'"), w).
Proof.
  intros Hre Hp Hv. split.
  - unfold Server.isValidDate, Server.dateIsNaN. cbn [truthy negb ToString isNullish].
    rewrite Hre, Hp. cbn [negb andThen]. unfold TimeClip. now rewrite Hv.
  - reflexivity.
Qed.

End Requests.

(* ================================================================== *)
(** * The properties at work on sample runs *)
(* ================================================================== *)

Section SampleRuns.

#[local] Existing Instance SampleHost.host.

Example iso_samples :
  ESDate.toISOString (Some 1700000000000) = Ok "2023-11-14T22:13:20.000Z"
  /\ ESDate.toISOString (Some 0) = Ok "1970-01-01T00:00:00.000Z"
  /\ ESDate.toISOString (Some (-1)) = Ok "1969-12-31T23:59:59.999Z"
  /\ ESDate.toISOString (Some 951782400000) = Ok "2000-02-29T00:00:00.000Z"
  /\ ESDate.toISOString (Some 8640000000000000) = Ok "+275760-09-13T00:00:00.000Z"
  /\ ESDate.toISOString (Some (-8640000000000000)) = Ok "-271821-04-20T00:00:00.000Z"
  /\ ESDate.toISOString (Some (-62198755200000)) = Ok "-000001-01-01T00:00:00.000Z"
  /\ ESDate.toISOString (Some (-62167219200001)) = Ok "-000001-12-31T23:59:59.999Z"
  /\ ESDate.toISOString (Some (-62167219200000)) = Ok "0000-01-01T00:00:00.000Z"
  /\ ESDate.toISOString (Some 253402300799999) = Ok "9999-12-31T23:59:59.999Z"
  /\ ESDate.toISOString (Some 253402300800000) = Ok "+010000-01-01T00:00:00.000Z"
  /\ ESDate.toISOString (Some 8640000000000001) = Throw RangeError.
Proof. repeat split; vm_compute; reflexivity. Qed.

Example ofZ_samples :
  Str.ofZ 0 = "0" /\ Str.ofZ 1000 = "1000" /\ Str.ofZ (-42) = "-42" /\ Str.ofZ 9 = "9"
  /\ Str.ofZ 1700000000000 = "1700000000000".
Proof. repeat split; reflexivity. Qed.

Example parseSFDate_samples :
  parseSFDate (VStr "/Date(1700000000000)/") = Ok (Some "2023-11-14 22:13:20.000")
  /\ parseSFDate (VStr "/Date(-1+0700)/") = Ok (Some "1969-12-31 23:59:59.999")
  /\ parseSFDate (VStr "x/Date(5)/y") = Ok (Some "1970-01-01 00:00:00.005")
  /\ parseSFDate (VStr "/Date(+5)/") = Ok None
  /\ parseSFDate (VStr "/Date(12") = Ok None
  /\ parseSFDate (VStr "") = Ok None
  /\ parseSFDate VNull = Ok None
  /\ parseSFDate (VNum 0) = Ok None
  /\ parseSFDate (VNum 5) = Throw TypeError
  /\ ESDate.canonicalMillis "2023-11-14 22:13:20.000" = Some 1700000000000
  /\ ESDate.canonicalMillis "2023-02-29 22:13:20.000" = None.
Proof. repeat split; vm_compute; reflexivity. Qed.

Example formatSqlValue_samples :
  formatSqlValue (VStr "O'Brien") "job_title" VUndefined = Ok "'O''Brien'"
  /\ formatSqlValue (VNum 42) "cust_max" (VStr "postgres") = Ok "'42'"
  /\ formatSqlValue VNull "job_title" (VStr "postgres") = Ok "NULL"
  /\ formatSqlValue (VStr "/Date(0)/") "effective_end_date" VUndefined
     = Ok "TO_TIMESTAMP('1970-01-01 00:00:00.000', 'YYYY-MM-DD HH24:MI:SS.FF3')"
  /\ formatSqlValue (VStr "/Date(0)/") "effective_end_date" (VStr "postgres")
     = Ok "'1970-01-01 00:00:00.000'::timestamp"
  /\ formatSqlValue (VStr "soon") "effective_end_date" (VStr "postgres") = Ok "NULL".
Proof. repeat split; vm_compute; reflexivity. Qed.

(** the record of the specification passes the filter [ENG] and gives the
    conflict-skip statement with the timestamp of 1700000000000; the
    filter [SALES] drops it *)
Example end_to_end_sample :
  SfApi.filterByDepartment [SampleHost.record1] "ENG" = Ok [SampleHost.record1]
  /\ SfApi.filterByDepartment [SampleHost.record1] "SALES" = Ok []
  /\ generateInsertIfNotExists SampleHost.cfg SampleHost.record1 (VStr "postgres")
     = Ok SampleHost.statement1.
Proof. repeat split; vm_compute; reflexivity. Qed.

(** a whole run: two pages, three records fetched, two kept, two files *)
Example syncPositions_sample :
  exists res w',
    Sync.syncPositions SampleHost.cfg 5 VUndefined VUndefined SampleHost.twoPages
    = Some (Ok res, w')
    /\ Sync.res_totalFetched res = 3
    /\ Sync.res_totalFiltered res = 2
    /\ Sync.sqlStatementsGenerated res = 2
    /\ map req_skip (requestsOf (trace w')) = [0; 2]
    /\ map fst (writesOf (trace w'))
       = ["output/positions_2023-11-14T22-13-20-000Z_oracle.sql";
          "output/positions_2023-11-14T22-13-20-000Z_postgres.sql"].
Proof. do 2 eexists. split; [vm_compute; reflexivity|]. repeat split. Qed.

End SampleRuns.

(* ================================================================== *)
(** * The properties at concrete inputs *)
(* ================================================================== *)

(** [/Date(-1700000000000+0700)/] comes back as the timestamp of
    -1700000000000 *)
Lemma parseSFDate_wrapped_epoch_roundtrip_witness :
  exists text,
    @parseSFDate SampleHost.host (VStr "/Date(-1700000000000+0700)/") = Ok (Some text)
    /\ text = ESDate.canonicalText (-1700000000000)
    /\ ESDate.canonicalMillis text = Some (-1700000000000).
Proof.
  exact (@parseSFDate_wrapped_epoch_roundtrip SampleHost.host
           true "1700000000000" (Some (true, "0700")) eq_refl eq_refl).
Defined.

(** one millisecond past the last time value: the text has the wrapped
    epoch form, and [parseSFDate] throws instead of returning a timestamp *)
Lemma parseSFDate_wrapped_epoch_out_of_range :
  Wrapped.wellFormed "8640000000000001" None = true
  /\ Wrapped.text false "8640000000000001" None = "/Date(8640000000000001)/"
  /\ Wrapped.value false "8640000000000001" = 8640000000000001
  /\ @parseSFDate SampleHost.host (VStr "/Date(8640000000000001)/") = Throw RangeError
  /\ ~ (exists text,
          @parseSFDate SampleHost.host (VStr "/Date(8640000000000001)/") = Ok (Some text)
          /\ ESDate.canonicalMillis text = Some 8640000000000001).
Proof.
  split; [reflexivity|]. split; [reflexivity|]. split; [reflexivity|].
  split; [vm_compute; reflexivity|].
  intros (text & Hp & _). vm_compute in Hp. discriminate Hp.
Qed.



Lemma paginate_four_pages_witness :
  exists st w',
    @Sync.paginate SampleHost.host SampleHost.cfg 4 VUndefined VUndefined
                   Sync.initialState SampleHost.fourPages = Some (Ok st, w')
    /\ Sync.totalFetched st = 7
    /\ map req_skip (requestsOf (trace w')) = [0; 2; 4; 6].
Proof.
  destruct (@paginate_four_pages SampleHost.host SampleHost.cfg VUndefined VUndefined
              SampleHost.fourPages 2 1
              [SampleHost.record1; SampleHost.record2]
              [SampleHost.record2; SampleHost.record1]
              [SampleHost.record1; SampleHost.record1]
              [SampleHost.record1])
    as (st & w' & evs & Hrun & _ & Htrace & Hskips & _ & _ & Htotal).
  - reflexivity.
  - lia.
  - apply Z.leb_le. reflexivity.
  - intros i. split; reflexivity.
  - eexists. split; reflexivity.
  - eexists. split; reflexivity.
  - eexists. split; reflexivity.
  - eexists. split; reflexivity.
  - reflexivity.
  - reflexivity.
  - reflexivity.
  - reflexivity.
  - reflexivity.
  - exists st, w'. split; [apply Hrun; lia|]. split; [exact Htotal|].
    rewrite Htrace. exact Hskips.
Defined.

Lemma fetchPositions_retries_with_backoff_witness :
  exists w',
    @SfApi.fetchPositions SampleHost.host SampleHost.cfg 2 0 (VStr "2024-01-01") VUndefined
                          SampleHost.flaky
    = (Ok (VArr [SampleHost.record1]), w')
    /\ List.length (requestsOf (trace w')) = 3%nat
    /\ map req_skip (requestsOf (trace w')) = [0; 0; 0]
    /\ sleepsOf (trace w') = [1000; 2000].
Proof.
  destruct (@fetchPositions_retries_with_backoff SampleHost.host SampleHost.cfg
              2 0 (VStr "2024-01-01") VUndefined SampleHost.flaky
              SampleHost.timeout SampleHost.timeout
              (SampleHost.envelope [SampleHost.record1])
              "lastModifiedDateTime ge datetime'2024-01-01T00:00:00'")
    as (w' & Hfetch & Htrace & _).
  - apply Z.leb_le. reflexivity.
  - reflexivity.
  - reflexivity.
  - reflexivity.
  - reflexivity.
  - reflexivity.
  - reflexivity.
  - exists w'. split; [exact Hfetch|]. rewrite Htrace. repeat split.
Defined.

Lemma insert_columns_follow_mapping_witness :
  exists dbRecord values,
    @transformRecord SampleHost.cfg SampleHost.record1 = Ok dbRecord
    /\ List.length values = 21%nat
    /\ SampleHost.statement1
       = "INSERT INTO job_sf_position ("
         ++ Str.join ", " (map snd (fieldMapping SampleHost.cfg)) ++ ")" ++ Str.LF
         ++ "VALUES (" ++ Str.join ", " values ++ ")" ++ Str.LF
         ++ "ON CONFLICT (code) DO NOTHING;".
Proof.
  destruct (@insert_columns_follow_mapping SampleHost.host SampleHost.env SampleHost.record1
              "postgres" SampleHost.statement1 (or_intror eq_refl) eq_refl)
    as (dbRecord & values & Ht & _ & Hlen & _ & Hpg).
  exists dbRecord, values. split; [exact Ht|]. split; [exact Hlen | exact (Hpg eq_refl)].
Defined.

Lemma transformRecord_keys_follow_mapping_witness :
  exists dbRecord,
    @transformRecord SampleHost.cfg SampleHost.record1 = Ok dbRecord
    /\ keys dbRecord = map snd (fieldMapping SampleHost.cfg)
    /\ getProp (VObj dbRecord) "department" = VStr "ENG-Core"
    /\ getProp (VObj dbRecord) "job_title" = VNull.
Proof.
  destruct (@transformRecord_keys_follow_mapping SampleHost.env
              [ ("code", VStr "X1"); ("department", VStr "ENG-Core");
                ("effectiveStartDate", VStr "/Date(1700000000000)/") ])
    as (dbRecord & Ht & Hkeys & Hvals).
  exists dbRecord. split; [exact Ht|]. split; [exact Hkeys|]. split.
  - apply (Hvals "department" "department"). cbn. tauto.
  - apply (Hvals "jobTitle" "job_title"). cbn. tauto.
Defined.

Lemma header_differs_only_in_timestamp_witness :
  exists above below,
    Str.lines (SampleHost.headerAt 1700000000000)
    = (above ++ ["-- Generated: 2023-11-14T22:13:20.000Z"] ++ below)%list
    /\ Str.lines (SampleHost.headerAt 1700000001234)
       = (above ++ ["-- Generated: 2023-11-14T22:13:21.234Z"] ++ below)%list.
Proof.
  exact (@header_differs_only_in_timestamp SampleHost.host SampleHost.cfg
           1700000000000 1700000001234 (VStr "2024-01-01") VUndefined (VStr "postgres")
           (SampleHost.headerAt 1700000000000) (SampleHost.headerAt 1700000001234)
           eq_refl eq_refl).
Defined.

Lemma fatal_fetch_error_writes_no_file_witness :
  exists w2,
    (exists fuel0, forall fuel, (fuel0 <= fuel)%nat ->
       @Sync.syncPositions SampleHost.host SampleHost.cfg fuel VUndefined VUndefined
                           SampleHost.failing
       = Some (Throw (Error "API Error 404: {}"), w2))
    /\ writesOf (trace w2) = [].
Proof.
  set (w0 := snd (@Sync.setup SampleHost.host SampleHost.cfg SampleHost.failing)).
  set (round1 := @Sync.loopBody SampleHost.host SampleHost.cfg VUndefined VUndefined
                                Sync.initialState w0).
  set (st1 := match fst round1 with Ok (st, _) => st | Throw _ => Sync.initialState end).
  set (w1 := snd round1).
  set (w2 := snd (@SfApi.fetchPositions SampleHost.host SampleHost.cfg
                    (sync_pageSize SampleHost.cfg) (Sync.skip st1)
                    VUndefined VUndefined w1)).
  destruct (@fatal_fetch_error_writes_no_file SampleHost.host SampleHost.cfg
              VUndefined VUndefined SampleHost.failing w0 w1 w2 1700000000000 st1
              (Error "API Error 404: {}"))
    as (Hrun & Hwrites & _).
  - reflexivity.
  - apply (Sync.atLoopHead_round _ _ _ _ _ st1 w1 st1 w1);
      [reflexivity | apply Sync.atLoopHead_here].
  - reflexivity.
  - exists w2. split; [exact Hrun | exact Hwrites].
Defined.

Lemma dialect_dispatch_witness :
  (VStr "postgres" = VStr "postgres" <->
   Str.startsWith "INSERT INTO job_sf_position (" SampleHost.statement1 = true)
  /\ (VStr "postgres" <> VStr "postgres" <->
      Str.startsWith "MERGE INTO job_sf_position target" SampleHost.statement1 = true).
Proof.
  destruct (@dialect_dispatch SampleHost.host SampleHost.cfg SampleHost.record1
              (VStr "postgres")) as (_ & _ & Hstmt).
  exact (Hstmt SampleHost.statement1 eq_refl).
Defined.

Lemma missing_envelope_is_a_short_page_witness :
  exists st' w',
    (forall fuel,
       @Sync.paginate SampleHost.host SampleHost.cfg (S fuel) VUndefined VUndefined
                      Sync.initialState SampleHost.bare = Some (Ok st', w'))
    /\ Sync.totalFetched st' = 0
    /\ sent w' = 1%nat.
Proof.
  destruct (@missing_envelope_is_a_short_page SampleHost.host SampleHost.cfg
              VUndefined VUndefined Sync.initialState SampleHost.bare (VObj []))
    as (_ & st' & w' & Hrun & Htotal & _ & Hsent).
  - apply Z.leb_le. reflexivity.
  - reflexivity.
  - intros i. split; reflexivity.
  - reflexivity.
  - reflexivity.
  - exists st', w'. split; [exact Hrun|]. split; [exact Htotal | exact Hsent].
Defined.

(** ** The further properties at concrete inputs *)

Lemma sample_clock_sane : @Sync.ClockSane SampleHost.host (fun _ => 1700000000000).
Proof. intros i. split; reflexivity. Qed.

(** a name with a quote in a text column *)
Lemma formatSqlValue_plain_column_literal_witness :
  exists text,
    @formatSqlValue SampleHost.host (VStr "O'Brien") "job_title" VUndefined = Ok text
    /\ SqlText.readLiteral text = Some ("O'Brien", "").
Proof.
  destruct (@formatSqlValue_plain_column_literal SampleHost.host
              (VStr "O'Brien") "job_title" VUndefined eq_refl eq_refl)
    as (text & Ht & _ & Hread).
  exists text. split; [exact Ht | exact (Hread eq_refl)].
Defined.

Lemma parseSFDate_result_is_canonical_witness :
  exists t,
    validTime t = true
    /\ "2023-11-14 22:13:20.000" = canonicalText t
    /\ canonicalMillis "2023-11-14 22:13:20.000" = Some t
    /\ Str.allChars stampUnit "2023-11-14 22:13:20.000" = true
    /\ String.length "2023-11-14 22:13:20.000"
       = if (-62167219200000 <=? t) && (t <=? 253402300799999) then 23%nat else 26%nat.
Proof.
  apply (@parseSFDate_result_is_canonical SampleHost.host
           (VStr "/Date(1700000000000)/") "2023-11-14 22:13:20.000").
  vm_compute. reflexivity.
Defined.

(** a calendar date, on a host that reads it *)
Lemma parseSFDate_calendar_text_witness :
  @parseSFDate CalendarHost.host (VStr "2024-01-15") = Ok (Some "2024-01-15 00:00:00.000").
Proof.
  apply (@parseSFDate_calendar_text CalendarHost.host "2024-01-15" 1705276800000).
  - discriminate.
  - intros Hocc. destruct (search_complete _ Hocc) as (m & Hm).
    vm_compute in Hm. discriminate Hm.
  - vm_compute. reflexivity.
Defined.

Lemma formatSqlValue_date_column_literal_witness :
  "'1970-01-01 00:00:00.000'::timestamp" = "NULL"
  \/ exists t,
       validTime t = true
       /\ "'1970-01-01 00:00:00.000'::timestamp"
          = (if isString (orDefault (VStr "postgres") "oracle") "oracle"
             then "TO_TIMESTAMP('" ++ canonicalText t ++ "', 'YYYY-MM-DD HH24:MI:SS.FF3')"
             else "'" ++ canonicalText t ++ "'::timestamp")
       /\ SqlText.readLiteral ("'" ++ canonicalText t ++ "'::timestamp")
          = Some (canonicalText t, "::timestamp").
Proof.
  apply (@formatSqlValue_date_column_literal SampleHost.host
           (VStr "/Date(0)/") "effective_end_date" (VStr "postgres")).
  - reflexivity.
  - vm_compute. reflexivity.
Defined.

(** the metadata of a record does not reach its statement *)
Lemma statement_reads_only_mapped_fields_witness :
  @generateInsertIfNotExists SampleHost.host SampleHost.cfg (VObj Samples.plain) (VStr "postgres")
  = @generateInsertIfNotExists SampleHost.host SampleHost.cfg (VObj Samples.tagged)
                               (VStr "postgres").
Proof.
  apply (@statement_reads_only_mapped_fields SampleHost.host SampleHost.cfg
           Samples.plain Samples.tagged (VStr "postgres")).
  intros apiField Hin. cbn in Hin.
  repeat (destruct Hin as [<- | Hin]; [reflexivity|]). contradiction.
Defined.

(** the record of the samples: its one date field parses *)
Lemma statement_generated_iff_dates_parse_witness :
  isOk (@generateInsertIfNotExists SampleHost.host (Cfg.config SampleHost.env)
          (VObj Samples.plain) (VStr "postgres"))
  = isOk (@parseSFDate SampleHost.host (VStr "/Date(1700000000000)/")) && true && true.
Proof.
  apply (@statement_generated_iff_dates_parse SampleHost.host SampleHost.env
           Samples.plain (VStr "postgres")).
  intros apiField dbColumn Hin _. cbn in Hin.
  repeat (destruct Hin as [Heq | Hin]; [injection Heq as <- <-; reflexivity|]).
  contradiction.
Defined.

Lemma oracle_merge_key_witness :
  exists literal rest,
    Samples.keyless
    = "MERGE INTO job_sf_position target" ++ Str.LF
      ++ "USING (SELECT " ++ literal ++ " AS code FROM dual) source" ++ rest
    /\ SqlText.readLiteral (literal ++ " AS code FROM dual) source" ++ rest)
       = Some ("null", " AS code FROM dual) source" ++ rest).
Proof.
  apply (@oracle_merge_key SampleHost.host SampleHost.env
           [ ("department", VStr "ENG-Core") ] Samples.keyless).
  vm_compute. reflexivity.
Defined.

(** no dates: the bound is the day before the clock's instant *)
Lemma default_filter_is_one_day_back_witness :
  fst (@SfApi.buildDateFilter SampleHost.host VUndefined VNull (SampleHost.world []))
  = Ok "lastModifiedDateTime ge datetime'2023-11-13T22:13:20'".
Proof.
  exact (proj1 (@default_filter_is_one_day_back SampleHost.host VUndefined VNull
                  (SampleHost.world []) eq_refl eq_refl)).
Defined.

Lemma fetchPositions_not_retryable_witness :
  exists w',
    @SfApi.fetchPositions SampleHost.host SampleHost.cfg 2 0 VUndefined VUndefined
                          Samples.refused
    = (Throw (Error "API Error 404: {}"), w')
    /\ List.length (requestsOf (trace w')) = 1%nat
    /\ sleepsOf (trace w') = [].
Proof.
  destruct (@fetchPositions_not_retryable SampleHost.host SampleHost.cfg 2 0
              VUndefined VUndefined Samples.refused SampleHost.notFound
              "lastModifiedDateTime ge datetime'2023-11-13T22:13:20'")
    as (msg & w' & Hmsg & Hfetch & Hreq & Hsleep).
  - apply Z.leb_le. reflexivity.
  - reflexivity.
  - reflexivity.
  - reflexivity.
  - exists w'. injection Hmsg as <-. split; [exact Hfetch|]. split; assumption.
Defined.

Lemma fetchPositions_retries_exhausted_witness :
  exists w',
    @SfApi.fetchPositions SampleHost.host SampleHost.cfg 2 0 VUndefined VUndefined
                          Samples.down
    = (Throw (Error "Request Error: timeout of 60000ms exceeded"), w')
    /\ List.length (requestsOf (trace w')) = 3%nat
    /\ sleepsOf (trace w') = [1000; 2000].
Proof.
  destruct (@fetchPositions_retries_exhausted SampleHost.host SampleHost.cfg 2 0
              VUndefined VUndefined Samples.down
              SampleHost.timeout SampleHost.timeout SampleHost.timeout
              "lastModifiedDateTime ge datetime'2023-11-13T22:13:20'")
    as (msg & w' & Hmsg & Hfetch & Hreq & Hsleep).
  - reflexivity.
  - reflexivity.
  - reflexivity.
  - reflexivity.
  - reflexivity.
  - reflexivity.
  - reflexivity.
  - exists w'. injection Hmsg as <-. split; [exact Hfetch|]. split; assumption.
Defined.

(** three full pages and a short one *)
Lemma paginate_full_pages_then_short_witness :
  exists st w',
    @Sync.paginate SampleHost.host SampleHost.cfg 4 VUndefined VUndefined
                   Sync.initialState SampleHost.fourPages = Some (Ok st, w')
    /\ List.length (Sync.allFilteredPositions st) = 5%nat
    /\ Sync.totalFetched st = 7
    /\ Sync.totalFiltered st = 5.
Proof.
  destruct (@paginate_full_pages_then_short SampleHost.host SampleHost.cfg
              VUndefined VUndefined SampleHost.fourPages
              [ [SampleHost.record1; SampleHost.record2];
                [SampleHost.record2; SampleHost.record1];
                [SampleHost.record1; SampleHost.record1] ]
              [SampleHost.record1])
    as (st & w' & evs & Hrun & _ & Hall & Hfetched & Hfiltered & _).
  - apply Z.leb_le. reflexivity.
  - exact sample_clock_sane.
  - repeat constructor; apply Z.leb_le; reflexivity.
  - apply Z.ltb_lt. reflexivity.
  - cbn. repeat split; eexists; split; reflexivity.
  - exists st, w'. split; [apply Hrun; cbn; lia|].
    rewrite Hfiltered, Hfetched, Hall. repeat split.
Defined.

(** without dates every page asks from one day before its own instant *)
Lemma paginate_filter_of_each_page_witness :
  exists st w' evs,
    @Sync.paginate SampleHost.host SampleHost.cfg 2 VUndefined VUndefined
                   Sync.initialState Samples.ticking = Some (Ok st, w')
    /\ trace w' = evs
    /\ map req_filter (requestsOf evs)
       = [ "lastModifiedDateTime ge datetime'2023-11-13T22:13:20'";
           "lastModifiedDateTime ge datetime'2023-11-13T22:13:21'" ].
Proof.
  destruct (@paginate_filter_of_each_page SampleHost.host SampleHost.cfg
              VUndefined VUndefined Samples.ticking
              [ [SampleHost.record1; SampleHost.record2] ] [SampleHost.record1])
    as (st & w' & evs & Hrun & Htrace & Hdefault & _).
  - apply Z.leb_le. reflexivity.
  - intros i. unfold validTime, maxTime.
    cbn [Samples.ticking clock SampleHost.host localDayBefore]. unfold msPerDay.
    split; apply andb_true_intro; split; apply Z.leb_le; lia.
  - repeat constructor; apply Z.leb_le; reflexivity.
  - apply Z.ltb_lt. reflexivity.
  - cbn. repeat split; eexists; split; reflexivity.
  - exists st, w', evs. split; [apply Hrun; cbn; lia|]. split; [exact Htrace|].
    rewrite (Hdefault eq_refl eq_refl). vm_compute. reflexivity.
Defined.

(** an API that never serves a short page *)
Lemma paginate_never_ends_on_full_pages_witness :
  @Sync.paginate SampleHost.host SampleHost.cfg 50 VUndefined VUndefined
                 Sync.initialState Samples.endless = None.
Proof.
  apply (@paginate_never_ends_on_full_pages SampleHost.host SampleHost.cfg
           VUndefined VUndefined).
  - apply Z.leb_le. reflexivity.
  - exact sample_clock_sane.
  - intros i. exists [SampleHost.record1; SampleHost.record2].
    split; [eexists; split; reflexivity|].
    split; [reflexivity | apply Z.leb_le; reflexivity].
Defined.

Lemma syncPositions_result_counts_witness :
  Sync.sqlStatementsGenerated Samples.twoPagesResult
  = Sync.res_totalFiltered Samples.twoPagesResult
  /\ 0 <= Sync.res_totalFiltered Samples.twoPagesResult
       <= Sync.res_totalFetched Samples.twoPagesResult
  /\ Sync.oracleFile Samples.twoPagesResult <> Sync.postgresFile Samples.twoPagesResult.
Proof.
  destruct (@syncPositions_result_counts SampleHost.host SampleHost.cfg 5
              VUndefined VUndefined SampleHost.twoPages Samples.twoPagesResult)
    as (_ & Hgen & Hle & _ & Hne).
  - vm_compute. reflexivity.
  - split; [exact Hgen|]. split; [exact Hle | exact Hne].
Defined.

(** no user name: the run stops before anything happens *)
Lemma missing_credentials_stop_the_run_witness :
  exists w',
    @Sync.syncPositions SampleHost.host (Cfg.config Samples.anonymous) 0
                        VUndefined VUndefined SampleHost.fourPages
    = Some (Throw (Error ("Configuration errors:" ++ Str.LF ++ "SF_USERNAME is required")), w')
    /\ trace w' = [] /\ sent w' = 0%nat.
Proof.
  destruct (@missing_credentials_stop_the_run SampleHost.host (Cfg.config Samples.anonymous)
              0 VUndefined VUndefined SampleHost.fourPages eq_refl)
    as (msg & w' & Hv & _ & Hrun & Htrace & Hsent & _).
  exists w'. injection Hv as <-. split; [exact Hrun|]. split; assumption.
Defined.

(** a record without a statement: nothing is written *)
Lemma record_without_statement_writes_no_file_witness :
  isOk (fst (@Sync.writeOutput SampleHost.host SampleHost.cfg 0 VUndefined VUndefined
               Samples.afterOdd (SampleHost.world []))) = false
  /\ trace (snd (@Sync.writeOutput SampleHost.host SampleHost.cfg 0
                    VUndefined VUndefined Samples.afterOdd (SampleHost.world [])))
     = [].
Proof.
  destruct (@record_without_statement_writes_no_file SampleHost.host SampleHost.cfg 0
              VUndefined VUndefined Samples.afterOdd (SampleHost.world []) Samples.odd)
    as (Hfail & Htrace & _).
  - left. reflexivity.
  - vm_compute. reflexivity.
  - split; [exact Hfail | exact Htrace].
Defined.

Lemma written_files_hold_every_kept_record_witness :
  exists oracleHeader postgresHeader oracleStatements postgresStatements,
    List.length oracleStatements = 2%nat
    /\ List.length postgresStatements = 2%nat
    /\ trace (snd (@Sync.writeOutput SampleHost.host SampleHost.cfg 1700000000000
                     VUndefined VUndefined Samples.afterTwoPages (SampleHost.world [])))
       = [ EvWriteFile "output/positions_2023-11-14T22-13-20-000Z_oracle.sql"
             (oracleHeader ++ Str.join (Str.LF ++ Str.LF) oracleStatements
              ++ generateSqlFooter 2);
           EvWriteFile "output/positions_2023-11-14T22-13-20-000Z_postgres.sql"
             (postgresHeader ++ Str.join (Str.LF ++ Str.LF) postgresStatements
              ++ generateSqlFooter 2) ].
Proof.
  destruct (@written_files_hold_every_kept_record SampleHost.host SampleHost.cfg
              1700000000000 VUndefined VUndefined Samples.afterTwoPages
              (SampleHost.world []) Samples.twoPagesResult sample_clock_sane)
    as (oh & ph & os & ps & Fo & Fp & _ & _ & Htrace & _).
  - vm_compute. reflexivity.
  - exists oh, ph, os, ps.
    split; [symmetry; exact (Forall2_length Fo)|].
    split; [symmetry; exact (Forall2_length Fp)|].
    exact Htrace.
Defined.

Lemma output_files_carry_the_instant_witness :
  Sync.oracleFile Samples.twoPagesResult
  = "output/positions" ++ "_" ++ Runs.fileStamp 1700000000000 ++ "_oracle.sql"
  /\ Sync.postgresFile Samples.twoPagesResult
     = "output/positions" ++ "_" ++ Runs.fileStamp 1700000000000 ++ "_postgres.sql".
Proof.
  destruct (@output_files_carry_the_instant SampleHost.host SampleHost.cfg
              1700000000000 VUndefined VUndefined Samples.afterTwoPages
              (SampleHost.world []) Samples.twoPagesResult "output/positions"
              sample_clock_sane)
    as (Ho & Hp & _).
  - vm_compute. reflexivity.
  - reflexivity.
  - reflexivity.
  - split; [exact Ho | exact Hp].
Defined.

(** a day and an instant, as the routes document them *)
Lemma validated_dates_make_the_filter_witness :
  exists from upto,
    @SfApi.buildDateFilter CalendarHost.host (VStr "2024-01-15") (VStr "2024-01-31T12:00:00")
                           (SampleHost.world [])
    = (Ok ("lastModifiedDateTime ge datetime'" ++ from
           ++ "' and lastModifiedDateTime le datetime'" ++ upto ++ "'"),
       SampleHost.world [])
    /\ from = "2024-01-15T00:00:00"
    /\ upto = "2024-01-31T12:00:00".
Proof.
  destruct (@validated_dates_make_the_filter CalendarHost.host
              (VStr "2024-01-15") (VStr "2024-01-31T12:00:00") (SampleHost.world []))
    as (from & upto & Hfilter & _ & _ & Hfrom & Hupto).
  - reflexivity.
  - reflexivity.
  - vm_compute. reflexivity.
  - vm_compute. reflexivity.
  - exists from, upto. split; [exact Hfilter|].
    split; [exact (proj2 (Hfrom _ eq_refl)) | exact (proj2 (Hupto _ eq_refl))].
Defined.


(** a day inside an array *)
Lemma array_date_skips_the_time_part_witness :
  @Server.isValidDate CalendarHost.host (VArr [VStr "2024-01-15"]) = true
  /\ @SfApi.buildDateFilter CalendarHost.host (VArr [VStr "2024-01-15"]) VUndefined
                            (SampleHost.world [])
     = (Ok "lastModifiedDateTime ge datetime'2024-01-15'", SampleHost.world []).
Proof.
  apply (@array_date_skips_the_time_part CalendarHost.host "2024-01-15" 1705276800000
           (SampleHost.world [])).
  - vm_compute. reflexivity.
  - vm_compute. reflexivity.
  - reflexivity.
Defined.
